(** * FFAB frame bundles: container layout, writer and reader

    A shallow embedding of the FFAB tools of [ffa-bundle]:

    - [ffab_encoder.py] (module [Encoder]) and its copy
      [tools/ffab_encoder.py] (module [ToolsEncoder]), the two writers;
    - [ffab_decoder.py] (module [Decoder]), the reader that hands frames to
      the ASTC codec;
    - [ffab_info.py] (module [Info]), the inspector.

    Python integers are [Z]; [bytes] are lists of [Byte.byte]; [str] is
    [string]; the dictionaries are [gmap]s.  An exception is a value of
    [exn] and a function that may raise returns a [result].  The file
    system is a finite map from paths to contents.  The external programs
    (astcenc, PIL) are parameters of the sections that use them. *)

From Stdlib Require Import ZArith List String Ascii Lia.
From Stdlib.Strings Require Import Byte.
From stdpp Require Import base list strings gmap pretty.

Local Open Scope string_scope.
Local Open Scope list_scope.
Local Open Scope Z_scope.

(** ** Python values, exceptions and the pieces of the standard library
       the tools use *)

Module Py.

Abbreviation bytes := (list byte).

(** Why a [ValueError] was raised: one constructor per raise site of the
    tools, plus the ones of the builtins they call. *)
Inductive value_error : Type :=
| invalid_literal_for_int (s : string)     (* int(s) *)
| wrong_number_of_values                   (* a, b = iterable *)
| bad_read_length                          (* f.read(n) with n < -1 *)
| magic_mismatch                           (* decoder, read_ffab_header *)
| magic_mismatch_detail (expected actual : Z) (* inspector, the same *)
| unsupported_version (version : Z)        (* read_ffab_header *)
| unknown_astc_code (code : Z)             (* decode_ffab_file *)
| no_images                                (* writer, empty list *)
| dimension_mismatch (first_name name : string)
| invalid_astc_format (format_name : string)
| astc_header_mismatch (img_name : string).

Inductive exn : Type :=
| ValueError (why : value_error)
| struct_error
| OSError
| FileNotFoundError
| RuntimeError (stderr : string)
| AssertionError.

Inductive result (A : Type) : Type :=
| Ok (a : A)
| Raise (e : exn).
Arguments Ok {A} a.
Arguments Raise {A} e.

Definition is_ok {A} (r : result A) : bool :=
  match r with Ok _ => true | Raise _ => false end.

Declare Scope py_scope.
Delimit Scope py_scope with py.

Definition bind {A B} (r : result A) (k : A -> result B) : result B :=
  match r with
  | Ok a => k a
  | Raise e => Raise e
  end.

Notation "'let*' x ':=' e 'in' k" := (bind e (fun x => k))
  (at level 10, x name, e at level 100, k at level 200, only parsing)
  : py_scope.
Notation "'let*' ' pat ':=' e 'in' k" :=
  (bind e (fun x => match x with pat => k end))
  (at level 10, pat pattern, e at level 100, k at level 200, only parsing)
  : py_scope.

Local Open Scope py_scope.

(** *** Bytes *)

Definition byte_of_Z (z : Z) : byte :=
  match Byte.of_N (Z.to_N (z mod 256)) with
  | Some b => b
  | None => x00
  end.

Definition Z_of_byte (b : byte) : Z := Z.of_N (Byte.to_N b).

#[global] Instance byte_eq_dec : EqDecision byte.
Proof.
  intros a b. destruct (Byte.eqb a b) eqn:E.
  - left. apply Byte.byte_dec_bl, E.
  - right. apply Byte.eqb_false, E.
Defined.

(** *** [struct]: unsigned big-endian fields

    [le_encode n v] is the [n] low bytes of [v], least significant
    first; the big-endian layout of [struct]'s [>] formats is its
    reverse. *)

Fixpoint le_encode (n : nat) (v : Z) : bytes :=
  match n with
  | O => []
  | S n' => byte_of_Z v :: le_encode n' (v / 256)
  end.

Fixpoint le_decode (bs : bytes) : Z :=
  match bs with
  | [] => 0
  | b :: bs' => Z_of_byte b + 256 * le_decode bs'
  end.

Definition be_encode (n : nat) (v : Z) : bytes := rev (le_encode n v).
Definition be_decode (bs : bytes) : Z := le_decode (rev bs).

(** One unsigned field of [n] bytes: [struct.pack] raises [struct.error]
    when the value is out of the field's range. *)
Definition pack_field (n : nat) (v : Z) : result bytes :=
  if (0 <=? v) && (v <? 2 ^ (8 * Z.of_nat n))
  then Ok (be_encode n v)
  else Raise struct_error.

Fixpoint pack_fields (fields : list (nat * Z)) : result bytes :=
  match fields with
  | [] => Ok []
  | (n, v) :: rest =>
      let* b := pack_field n v in
      let* bs := pack_fields rest in
      Ok (b ++ bs)
  end.

(** [struct.unpack] raises [struct.error] unless the buffer has exactly
    the size of the format. *)
Fixpoint split_fields (sizes : list nat) (buf : bytes) : list Z :=
  match sizes with
  | [] => []
  | n :: rest => be_decode (take n buf) :: split_fields rest (drop n buf)
  end.

Definition unpack_fields (sizes : list nat) (buf : bytes) : result (list Z) :=
  if bool_decide (length buf = foldr Nat.add 0%nat sizes)
  then Ok (split_fields sizes buf)
  else Raise struct_error.

(** struct.pack('>HH', a, b) *)
Definition pack_HH (a b : Z) : result bytes :=
  pack_fields [(2%nat, a); (2%nat, b)].

(** struct.pack('>HHHH', a, b, c, d) *)
Definition pack_HHHH (a b c d : Z) : result bytes :=
  pack_fields [(2%nat, a); (2%nat, b); (2%nat, c); (2%nat, d)].

(** struct.pack('>QI', a, b) *)
Definition pack_QI (a b : Z) : result bytes :=
  pack_fields [(8%nat, a); (4%nat, b)].

(** struct.pack('>4BBBB3B3B3B', ...): sixteen one-byte fields *)
Definition pack_16B (vs : list Z) : result bytes :=
  if bool_decide (length vs = 16%nat)
  then pack_fields (map (fun v => (1%nat, v)) vs)
  else Raise struct_error.

(** struct.unpack('>HH', buf) *)
Definition unpack_HH (buf : bytes) : result (Z * Z) :=
  let* vs := unpack_fields [2%nat; 2%nat] buf in
  match vs with
  | [a; b] => Ok (a, b)
  | _ => Raise struct_error
  end.

(** struct.unpack('>HHHH', buf) *)
Definition unpack_HHHH (buf : bytes) : result (Z * Z * Z * Z) :=
  let* vs := unpack_fields [2%nat; 2%nat; 2%nat; 2%nat] buf in
  match vs with
  | [a; b; c; d] => Ok (a, b, c, d)
  | _ => Raise struct_error
  end.

(** struct.unpack('>QI', buf) *)
Definition unpack_QI (buf : bytes) : result (Z * Z) :=
  let* vs := unpack_fields [8%nat; 4%nat] buf in
  match vs with
  | [a; b] => Ok (a, b)
  | _ => Raise struct_error
  end.

(** *** [str] *)

(** str.lower() on a string of ASCII characters: the letters A..Z are
    lowered, every other character is kept.  (Characters outside ASCII,
    which [str.lower] may change as well, do not occur in the names of the
    format table.) *)
Definition lower_ascii (c : ascii) : ascii :=
  let n := nat_of_ascii c in
  if ((65 <=? n) && (n <=? 90))%nat then ascii_of_nat (n + 32) else c.

Fixpoint str_lower (s : string) : string :=
  match s with
  | EmptyString => EmptyString
  | String c s' => String (lower_ascii c) (str_lower s')
  end.

(** s.split(sep) for a one-character separator: never returns the empty
    list; [cur] is the piece being read, reversed. *)
Fixpoint split_go (sep : ascii) (s : string) (cur : string) : list string :=
  match s with
  | EmptyString => [String.rev cur]
  | String c s' =>
      if bool_decide (c = sep)
      then String.rev cur :: split_go sep s' EmptyString
      else split_go sep s' (String c cur)
  end.

Definition str_split (s : string) (sep : ascii) : list string :=
  split_go sep s EmptyString.

(** int(s) in base ten, for an ASCII literal of at most 4300 digits (the
    interpreter's default limit): blanks around the literal are dropped
    (the space and the characters 9 to 13), one sign is accepted, and
    single underscores may separate digits. *)
Definition is_space (c : ascii) : bool :=
  let n := nat_of_ascii c in
  ((n =? 32) || ((9 <=? n) && (n <=? 13)))%nat.

Definition digit_of (c : ascii) : option Z :=
  let n := nat_of_ascii c in
  if ((48 <=? n) && (n <=? 57))%nat then Some (Z.of_nat n - 48) else None.

Fixpoint lstrip (s : string) : string :=
  match s with
  | String c s' => if is_space c then lstrip s' else s
  | EmptyString => EmptyString
  end.

Definition strip (s : string) : string :=
  String.rev (lstrip (String.rev (lstrip s))).

(** [after_digit] tells whether the previous character was a digit (an
    underscore is only legal there, and the literal must end there). *)
Fixpoint digits_go (s : string) (acc : Z) (after_digit : bool) : option Z :=
  match s with
  | EmptyString => if after_digit then Some acc else None
  | String c s' =>
      match digit_of c with
      | Some d => digits_go s' (10 * acc + d) true
      | None =>
          if bool_decide (c = "_"%char) && after_digit
          then (match s' with
                | String c' _ =>
                    match digit_of c' with
                    | Some _ => digits_go s' acc false
                    | None => None
                    end
                | EmptyString => None
                end)
          else None
      end
  end.

Definition int (s : string) : result Z :=
  let body := strip s in
  let parsed :=
    match body with
    | String "-" rest => Z.opp <$> digits_go rest 0 false
    | String "+" rest => digits_go rest 0 false
    | _ => digits_go body 0 false
    end in
  match parsed with
  | Some z => Ok z
  | None => Raise (ValueError (invalid_literal_for_int s))
  end.

(** *** Formatting: [{z}], [{z:04d}] and [{z:04X}] for [0 <= z] *)

Definition hex_digit (d : Z) : ascii :=
  if d <? 10 then ascii_of_nat (Z.to_nat (48 + d))
  else ascii_of_nat (Z.to_nat (55 + d)).

Fixpoint hex_go (fuel : nat) (z : Z) (acc : string) : string :=
  match fuel with
  | O => acc
  | S fuel' =>
      let acc' := String (hex_digit (z mod 16)) acc in
      if z / 16 =? 0 then acc' else hex_go fuel' (z / 16) acc'
  end.

Definition hex_upper (z : Z) : string :=
  hex_go (S (Z.to_nat (Z.log2 z))) z EmptyString.

Fixpoint zero_pad (width : nat) (s : string) : string :=
  if (String.length s <? width)%nat
  then match width with
       | O => s
       | S w => String "0" (zero_pad w s)
       end
  else s.

Definition fmt_04X (z : Z) : string := zero_pad 4 (hex_upper z).
Definition fmt_04d (z : Z) : string := zero_pad 4 (pretty z).
Definition fmt_d (z : Z) : string := pretty z.

(** *** Files

    The store maps a path to the content of the file there: its keys are
    the regular files that can be opened for reading.  A handle opened for
    reading is the content and a position.  Directories, permissions and
    the limits of the file system are not part of the store: where a
    statement below depends on them, it says so by a premise. *)

Abbreviation fs := (gmap string bytes).

Record file : Type := { f_content : bytes; f_pos : nat }.

(** open(path, 'rb'), for a path that holds a readable file or nothing
    at all *)
Definition open_rb (disk : fs) (path : string) : result file :=
  match disk !! path with
  | Some c => Ok {| f_content := c; f_pos := 0 |}
  | None => Raise FileNotFoundError
  end.

(** f.seek(offset): a position from the start of the file up to its end
    is accepted, a negative one is an [OSError].  Beyond the end of the
    file the operating system decides (it refuses an offset past the
    largest file size of the file system, and the interpreter one of 2^63
    or more); the embedding accepts these offsets, and the statements
    about offsets read from a file bound them by the size of the file. *)
Definition seek (f : file) (offset : Z) : result file :=
  if offset <? 0 then Raise OSError
  else Ok {| f_content := f_content f; f_pos := Z.to_nat offset |}.

(** f.read(n): the next [n] bytes, or as many as are left; [-1] reads to
    the end. *)
Definition read (f : file) (n : Z) : result (bytes * file) :=
  if n <? -1 then Raise (ValueError bad_read_length)
  else
    let rest := drop (f_pos f) (f_content f) in
    let data := if n =? -1 then rest else take (Z.to_nat n) rest in
    Ok (data, {| f_content := f_content f;
                 f_pos := (f_pos f + length data)%nat |}).

(** open(path, 'wb') followed by the writes of [chunks]: the previous
    content of the path is replaced.  (The path is taken to be writable:
    a path that cannot be created or written is outside the store.) *)
Definition write_wb (disk : fs) (path : string) (chunks : list bytes) : fs :=
  <[path := concat chunks]> disk.

(** numpy arrays of pixels, as the tools use them: the first two
    entries of [shape] and the raw data. *)
Record ndarray : Type :=
  { nd_height : N; nd_width : N; nd_data : bytes }.

End Py.

Import Py.
Local Open Scope py_scope.

(** [a, b = map(f, parts)]: the iterator is consumed until the count is
    known to be right or wrong, so [f] also runs on a third item. *)
Definition unpack2_map {A} (f : string -> result A) (parts : list string)
  : result (A * A) :=
  match parts with
  | [] => Raise (ValueError wrong_number_of_values)
  | [p0] =>
      let* _ := f p0 in
      Raise (ValueError wrong_number_of_values)
  | [p0; p1] =>
      let* a := f p0 in
      let* b := f p1 in
      Ok (a, b)
  | p0 :: p1 :: p2 :: _ =>
      let* _ := f p0 in
      let* _ := f p1 in
      let* _ := f p2 in
      Raise (ValueError wrong_number_of_values)
  end.

(** ** ffab_encoder.py *)

Module Encoder.

Definition FFAB_MAGIC : Z := 0xFFAB.

Definition ASTC_FORMAT_CODES : gmap string Z :=
  list_to_map
    [ ("4x4", 0x0001); ("5x4", 0x0002); ("5x5", 0x0003); ("6x5", 0x0004);
      ("6x6", 0x0005); ("8x5", 0x0006); ("8x6", 0x0007); ("8x8", 0x0008);
      ("10x5", 0x0009); ("10x6", 0x000A); ("10x8", 0x000B);
      ("10x10", 0x000C); ("12x10", 0x000D); ("12x12", 0x000E) ].

Definition check_astc_format (format_name : string) : result string :=
  let format_name := str_lower format_name in
  match ASTC_FORMAT_CODES !! format_name with
  | Some _ => Ok format_name
  | None => Raise (ValueError (invalid_astc_format format_name))
  end.

Definition get_astc_format_code (format_name : string) : result Z :=
  let format_name := str_lower format_name in
  match ASTC_FORMAT_CODES !! format_name with
  | Some code => Ok code
  | None => Raise (ValueError (invalid_astc_format format_name))
  end.

(** The loop of [check_images_dimensions] over [images[1:]]. *)
Fixpoint check_images_dimensions_rest (first_img_name : string)
    (height width : Z) (rest : list (string * ndarray)) : result unit :=
  match rest with
  | [] => Ok tt
  | (img_name, img_data) :: rest' =>
      let h := Z.of_N (nd_height img_data) in
      let w := Z.of_N (nd_width img_data) in
      if negb (h =? height) || negb (w =? width)
      then Raise (ValueError (dimension_mismatch first_img_name img_name))
      else check_images_dimensions_rest first_img_name height width rest'
  end.

Definition check_images_dimensions (images : list (string * ndarray))
  : result (Z * Z) :=
  match images with
  | [] => Raise (ValueError no_images)
  | (first_img_name, first_img_data) :: rest =>
      let height := Z.of_N (nd_height first_img_data) in
      let width := Z.of_N (nd_width first_img_data) in
      let* _ := check_images_dimensions_rest first_img_name height width rest in
      Ok (width, height)
  end.

Definition generate_astc_header (width height : Z) (astc_format : string)
  : result bytes :=
  let* '(block_x, block_y) := unpack2_map int (str_split astc_format "x") in
  pack_16B
    [ 0x13; 0xAB; 0xA1; 0x5C;
      block_x; block_y; 1;
      Z.land width 0xFF; Z.land (Z.shiftr width 8) 0xFF;
      Z.land (Z.shiftr width 16) 0xFF;
      Z.land height 0xFF; Z.land (Z.shiftr height 8) 0xFF;
      Z.land (Z.shiftr height 16) 0xFF;
      1; 0; 0 ].

Section Writer.

(** The quality setting is a Python float that is only passed on. *)
Variable float : Type.

(** [compress_with_astc img_data astc_format quality]: the run of
    astcenc on one frame; its result is the content of the [.astc]
    file the codec wrote, or the exception the run ended with. *)
Variable compress_with_astc : ndarray -> string -> float -> result bytes.

(** The loop of [create_ffab_file_v1] over [images]; the accumulators
    are the loop's variables. *)
Fixpoint encode_frames (astc_format : string) (quality : float)
    (astc_header : bytes) (images : list (string * ndarray))
    (current_offset : Z) (index_entries image_data_blocks : list bytes)
  : result (list bytes * list bytes) :=
  match images with
  | [] => Ok (index_entries, image_data_blocks)
  | (img_name, img_data) :: rest =>
      let* astc_compressed_data :=
        compress_with_astc img_data astc_format quality in
      if negb (bool_decide (take 16 astc_compressed_data = astc_header))
      then Raise (ValueError (astc_header_mismatch img_name))
      else
        let compressed_data := drop 16 astc_compressed_data in
        let data_length := Z.of_nat (length compressed_data) in
        let* entry := pack_QI current_offset data_length in
        encode_frames astc_format quality astc_header rest
          (current_offset + data_length)
          (index_entries ++ [entry])
          (image_data_blocks ++ [compressed_data])
  end.

(** Everything [create_ffab_file_v1] computes before it opens the
    output file: the four chunks it then writes. *)
Definition build_ffab_v1 (images : list (string * ndarray))
    (astc_format : string) (quality : float) : result (list bytes) :=
  match images with
  | [] => Raise (ValueError no_images)
  | _ =>
      let* '(width, height) := check_images_dimensions images in
      let* astc_format_code := get_astc_format_code astc_format in
      let* header := pack_HH FFAB_MAGIC 0x0001 in
      let image_count := Z.of_nat (length images) in
      let* meta := pack_HHHH image_count width height astc_format_code in
      let data_start_offset := 4 + 8 + image_count * 12 in
      let current_offset := data_start_offset in
      let* astc_header := generate_astc_header width height astc_format in
      let* '(index_entries, image_data_blocks) :=
        encode_frames astc_format quality astc_header images
          current_offset [] [] in
      let index_table := concat index_entries in
      let image_data := concat image_data_blocks in
      Ok [header; meta; index_table; image_data]
  end.

(** [create_ffab_file_v1]: the outcome and the store afterwards.  The
    raise sites of the function and of what it calls come before
    [open(output_path, 'wb')]; the output path is taken to be writable
    (see [write_wb]). *)
Definition create_ffab_file_v1 (disk : fs)
    (images : list (string * ndarray)) (output_path : string)
    (astc_format : string) (quality : float) : result unit * fs :=
  match build_ffab_v1 images astc_format quality with
  | Raise e => (Raise e, disk)
  | Ok chunks => (Ok tt, write_wb disk output_path chunks)
  end.

End Writer.

End Encoder.

(** ** tools/ffab_encoder.py *)

Module ToolsEncoder.

Definition FFAB_MAGIC : Z := 0xFFAB.
Definition FFAB_VERSION_0x0001 : Z := 0x0001.

Definition ASTC_FORMAT_CODES : gmap string Z :=
  list_to_map
    [ ("4x4", 0x0001); ("5x4", 0x0002); ("5x5", 0x0003); ("6x5", 0x0004);
      ("6x6", 0x0005); ("8x5", 0x0006); ("8x6", 0x0007); ("8x8", 0x0008);
      ("10x5", 0x0009); ("10x6", 0x000A); ("10x8", 0x000B);
      ("10x10", 0x000C); ("12x10", 0x000D); ("12x12", 0x000E) ].

Definition get_astc_format_code (format_name : string) : result Z :=
  let format_name := str_lower format_name in
  match ASTC_FORMAT_CODES !! format_name with
  | Some code => Ok code
  | None => Raise (ValueError (invalid_astc_format format_name))
  end.

Fixpoint check_images_dimensions_rest (first_img_name : string)
    (height width : Z) (rest : list (string * ndarray)) : result unit :=
  match rest with
  | [] => Ok tt
  | (img_name, img_data) :: rest' =>
      let h := Z.of_N (nd_height img_data) in
      let w := Z.of_N (nd_width img_data) in
      if negb (h =? height) || negb (w =? width)
      then Raise (ValueError (dimension_mismatch first_img_name img_name))
      else check_images_dimensions_rest first_img_name height width rest'
  end.

Definition check_images_dimensions (images : list (string * ndarray))
  : result (Z * Z) :=
  match images with
  | [] => Raise (ValueError no_images)
  | (first_img_name, first_img_data) :: rest =>
      let height := Z.of_N (nd_height first_img_data) in
      let width := Z.of_N (nd_width first_img_data) in
      let* _ := check_images_dimensions_rest first_img_name height width rest in
      Ok (width, height)
  end.

Section Writer.

(** [compress_with_astc img_data astc_format]: this copy runs astcenc
    at a fixed quality preset. *)
Variable compress_with_astc : ndarray -> string -> result bytes.

Fixpoint encode_frames (astc_format : string)
    (images : list (string * ndarray))
    (current_offset : Z) (index_entries image_data_blocks : list bytes)
  : result (list bytes * list bytes) :=
  match images with
  | [] => Ok (index_entries, image_data_blocks)
  | (img_name, img_data) :: rest =>
      let* compressed_data := compress_with_astc img_data astc_format in
      let data_length := Z.of_nat (length compressed_data) in
      let* entry := pack_QI current_offset data_length in
      encode_frames astc_format rest
        (current_offset + data_length)
        (index_entries ++ [entry])
        (image_data_blocks ++ [compressed_data])
  end.

Definition build_ffab_v1 (images : list (string * ndarray))
    (astc_format : string) : result (list bytes) :=
  match images with
  | [] => Raise (ValueError no_images)
  | _ =>
      let* '(width, height) := check_images_dimensions images in
      let* astc_format_code := get_astc_format_code astc_format in
      let* header := pack_HH FFAB_MAGIC FFAB_VERSION_0x0001 in
      let image_count := Z.of_nat (length images) in
      let* meta := pack_HHHH image_count width height astc_format_code in
      let data_start_offset := 4 + 8 + image_count * 12 in
      let current_offset := data_start_offset in
      let* '(index_entries, image_data_blocks) :=
        encode_frames astc_format images current_offset [] [] in
      let index_table := concat index_entries in
      let image_data := concat image_data_blocks in
      Ok [header; meta; index_table; image_data]
  end.

Definition create_ffab_file_v1 (disk : fs)
    (images : list (string * ndarray)) (output_path : string)
    (astc_format : string) : result unit * fs :=
  match build_ffab_v1 images astc_format with
  | Raise e => (Raise e, disk)
  | Ok chunks => (Ok tt, write_wb disk output_path chunks)
  end.

End Writer.

End ToolsEncoder.

(** ** ffab_decoder.py *)

Module Decoder.

Definition FFAB_MAGIC : Z := 0xFFAB.
Definition FFAB_VERSION_0x0001 : Z := 0x0001.

Definition ASTC_FORMAT_CODES : gmap string Z :=
  list_to_map
    [ ("4x4", 0x0001); ("5x4", 0x0002); ("5x5", 0x0003); ("6x5", 0x0004);
      ("6x6", 0x0005); ("8x5", 0x0006); ("8x6", 0x0007); ("8x8", 0x0008);
      ("10x5", 0x0009); ("10x6", 0x000A); ("10x8", 0x000B);
      ("10x10", 0x000C); ("12x10", 0x000D); ("12x12", 0x000E) ].

(** {v: k for k, v in ASTC_FORMAT_CODES.items()} *)
Definition ASTC_CODE_TO_FORMAT : gmap Z string :=
  map_fold (fun k v acc => <[v := k]> acc) ∅ ASTC_FORMAT_CODES.

Definition generate_astc_header (width height : Z) (astc_format : string)
  : result bytes :=
  let* '(block_x, block_y) := unpack2_map int (str_split astc_format "x") in
  pack_16B
    [ 0x13; 0xAB; 0xA1; 0x5C;
      block_x; block_y; 1;
      Z.land width 0xFF; Z.land (Z.shiftr width 8) 0xFF;
      Z.land (Z.shiftr width 16) 0xFF;
      Z.land height 0xFF; Z.land (Z.shiftr height 8) 0xFF;
      Z.land (Z.shiftr height 16) 0xFF;
      1; 0; 0 ].

Definition read_ffab_header (disk : fs) (file_path : string) : result Z :=
  let* f := open_rb disk file_path in
  let* '(header, f) := read f 4 in
  let* '(magic, version) := unpack_HH header in
  if negb (magic =? FFAB_MAGIC)
  then Raise (ValueError magic_mismatch)
  else if negb (version =? FFAB_VERSION_0x0001)
  then Raise (ValueError (unsupported_version version))
  else Ok version.

Definition read_ffab_meta (disk : fs) (file_path : string)
  : result (Z * Z * Z * Z) :=
  let* f := open_rb disk file_path in
  let* f := seek f 4 in
  let* '(meta, f) := read f 8 in
  let* '(image_count, width, height, astc_format_code) := unpack_HHHH meta in
  Ok (image_count, width, height, astc_format_code).

(** The loop of [read_ffab_index_table]: [n] more entries to read. *)
Fixpoint read_index_entries (n : nat) (f : file) (index_entries : list (Z * Z))
  : result (list (Z * Z)) :=
  match n with
  | O => Ok index_entries
  | S n' =>
      let* '(entry_data, f) := read f 12 in
      let* '(offset, data_length) := unpack_QI entry_data in
      read_index_entries n' f (index_entries ++ [(offset, data_length)])
  end.

Definition read_ffab_index_table (disk : fs) (file_path : string)
    (image_count : Z) : result (list (Z * Z)) :=
  let index_start_offset := 4 + 8 in
  let* f := open_rb disk file_path in
  let* f := seek f index_start_offset in
  read_index_entries (Z.to_nat image_count) f [].

Definition read_compressed_image_data (disk : fs) (file_path : string)
    (offset data_length : Z) : result bytes :=
  let* f := open_rb disk file_path in
  let* f := seek f offset in
  let* '(compressed_data, f) := read f data_length in
  Ok compressed_data.

Section Reader.

(** [astcenc_dl astc_file]: the run of [astcenc -dl] on a file with the
    given content, followed by the load of the image it wrote; the
    result is the pixel array, or the exception the step ended with. *)
Variable astcenc_dl : bytes -> result ndarray.

Definition decode_astc_data (compressed_data : bytes) (width height : Z)
    (astc_format : string) : result ndarray :=
  let* astc_header := generate_astc_header width height astc_format in
  astcenc_dl (astc_header ++ compressed_data).

Definition output_filename (i : Z) : string :=
  "frame_" +:+ fmt_04d i +:+ ".png".

(** The loop of [decode_ffab_file] over [enumerate(index_entries)];
    [saved] lists the frames handed to [img.save] so far, under the names
    they are saved by, and stays as it is when a frame raises.  (The
    output folder is taken to be writable: [saved] stands for what it
    receives.) *)
Fixpoint decode_frames (disk : fs) (file_path : string)
    (width height : Z) (astc_format : string)
    (i : Z) (index_entries : list (Z * Z))
    (saved : list (string * ndarray))
  : list (string * ndarray) * result unit :=
  match index_entries with
  | [] => (saved, Ok tt)
  | (offset, data_length) :: rest =>
      match
        (let* compressed_data :=
           read_compressed_image_data disk file_path offset data_length in
         decode_astc_data compressed_data width height astc_format)
      with
      | Raise e => (saved, Raise e)
      | Ok img_array =>
          decode_frames disk file_path width height astc_format
            (i + 1) rest (saved ++ [(output_filename i, img_array)])
      end
  end.

(** The reads of [decode_ffab_file] between the creation of the output
    folder and the loop: header, assertion, meta block, format name and
    index table. *)
Definition open_ffab (disk : fs) (file_path : string)
  : result (Z * Z * Z * string * list (Z * Z)) :=
  let* version := read_ffab_header disk file_path in
  let* _ := (if version =? FFAB_VERSION_0x0001 then Ok tt
             else Raise AssertionError) in
  let* '(image_count, width, height, astc_format_code) :=
    read_ffab_meta disk file_path in
  let* astc_format :=
    match ASTC_CODE_TO_FORMAT !! astc_format_code with
    | None => Raise (ValueError (unknown_astc_code astc_format_code))
    | Some name => Ok name
    end in
  let* index_entries := read_ffab_index_table disk file_path image_count in
  Ok (image_count, width, height, astc_format, index_entries).

(** [decode_ffab_file], on its input side: the frames it decodes, in the
    order and under the names it saves them, and how it ends.  (The output
    folder is taken to exist or to be creatable.) *)
Definition decode_ffab_file (disk : fs) (file_path : string)
  : list (string * ndarray) * result unit :=
  match open_ffab disk file_path with
  | Raise e => ([], Raise e)
  | Ok (image_count, width, height, astc_format, index_entries) =>
      decode_frames disk file_path width height astc_format
        0 index_entries []
  end.

End Reader.

End Decoder.

(** ** ffab_info.py *)

Module Info.

Definition FFAB_MAGIC : Z := 0xFFAB.
Definition FFAB_VERSION_0x0001 : Z := 0x0001.

Definition ASTC_FORMAT_CODES : gmap string Z :=
  list_to_map
    [ ("4x4", 0x0001); ("5x4", 0x0002); ("5x5", 0x0003); ("6x5", 0x0004);
      ("6x6", 0x0005); ("8x5", 0x0006); ("8x6", 0x0007); ("8x8", 0x0008);
      ("10x5", 0x0009); ("10x6", 0x000A); ("10x8", 0x000B);
      ("10x10", 0x000C); ("12x10", 0x000D); ("12x12", 0x000E) ].

Definition ASTC_CODE_TO_FORMAT : gmap Z string :=
  map_fold (fun k v acc => <[v := k]> acc) ∅ ASTC_FORMAT_CODES.

(** The dictionaries the two readers return. *)
Record header_info : Type :=
  { magic : Z; version : Z; version_hex : string }.

Record meta_info : Type :=
  { image_count : Z;
    width : Z;
    height : Z;
    resolution : string;
    astc_format_code : Z;
    astc_format : string;
    astc_format_hex : string }.

Definition read_ffab_header (disk : fs) (file_path : string)
  : result header_info :=
  let* f := open_rb disk file_path in
  let* '(header, f) := read f 4 in
  let* '(magic, version) := unpack_HH header in
  if negb (magic =? FFAB_MAGIC)
  then Raise (ValueError (magic_mismatch_detail FFAB_MAGIC magic))
  else if negb (version =? FFAB_VERSION_0x0001)
  then Raise (ValueError (unsupported_version version))
  else Ok {| magic := magic;
             version := version;
             version_hex := "0x" +:+ fmt_04X version |}.

Definition read_ffab_meta (disk : fs) (file_path : string)
  : result meta_info :=
  let* f := open_rb disk file_path in
  let* f := seek f 4 in
  let* '(meta, f) := read f 8 in
  let* '(image_count, width, height, astc_format_code) := unpack_HHHH meta in
  let astc_format :=
    default ("未知(0x" +:+ fmt_04X astc_format_code +:+ ")")
            (ASTC_CODE_TO_FORMAT !! astc_format_code) in
  Ok {| image_count := image_count;
        width := width;
        height := height;
        resolution := fmt_d width +:+ "x" +:+ fmt_d height;
        astc_format_code := astc_format_code;
        astc_format := astc_format;
        astc_format_hex := "0x" +:+ fmt_04X astc_format_code |}.

(** One entry of the list [read_ffab_index_table] builds. *)
Record index_entry : Type :=
  { frame : Z; offset : Z; data_length : Z }.

(** [min_data_size] starts as [float('inf')] and is an integer from the
    first entry on: every integer is smaller than the infinite float. *)
Inductive size_or_inf : Type :=
| Infinity
| Size (z : Z).

(** min(min_data_size, data_length) *)
Definition min_size (min_data_size : size_or_inf) (data_length : Z)
  : size_or_inf :=
  match min_data_size with
  | Infinity => Size data_length
  | Size m => Size (Z.min m data_length)
  end.

(** The result of a true division that the tool guards by a test of the
    divisor: the integer [0] when the test fails, and otherwise the float
    [num / den], kept as its two operands. *)
Inductive guarded_quotient : Type :=
| Zero
| Quotient (num den : Z).

Record index_info : Type :=
  { index_start_offset : Z;
    entries : list index_entry;
    total_compressed_size : Z;
    min_data_size : size_or_inf;
    max_data_size : Z;
    avg_data_size : guarded_quotient }.

(** The loop of [read_ffab_index_table] over [range(image_count)]: [i]
    is the loop variable, [n] the number of rounds left, the other
    arguments the variables the loop updates. *)
Fixpoint read_index_loop (n : nat) (i : Z) (f : file)
    (index_entries : list index_entry)
    (total_compressed_size : Z) (min_data_size : size_or_inf)
    (max_data_size : Z)
  : result (list index_entry * Z * size_or_inf * Z) :=
  match n with
  | O => Ok (index_entries, total_compressed_size, min_data_size,
             max_data_size)
  | S n' =>
      let* '(entry_data, f) := read f 12 in
      let* '(offset, data_length) := unpack_QI entry_data in
      read_index_loop n' (i + 1) f
        (index_entries
         ++ [{| frame := i; offset := offset; data_length := data_length |}])
        (total_compressed_size + data_length)
        (min_size min_data_size data_length)
        (Z.max max_data_size data_length)
  end.

Definition read_ffab_index_table (disk : fs) (file_path : string)
    (image_count : Z) : result index_info :=
  let index_start_offset := 4 + 8 in
  let* f := open_rb disk file_path in
  let* f := seek f index_start_offset in
  let* '(index_entries, total_compressed_size, min_data_size, max_data_size) :=
    read_index_loop (Z.to_nat image_count) 0 f [] 0 Infinity 0 in
  let avg_data_size :=
    if image_count >? 0 then Quotient total_compressed_size image_count
    else Zero in
  Ok {| index_start_offset := index_start_offset;
        entries := index_entries;
        total_compressed_size := total_compressed_size;
        min_data_size := min_data_size;
        max_data_size := max_data_size;
        avg_data_size := avg_data_size |}.

Record file_info : Type :=
  { info_file_path : string;
    file_size : Z;
    header : header_info;
    meta : meta_info;
    index : index_info;
    data_start_offset : Z;
    uncompressed_size : Z;
    compression_ratio : guarded_quotient }.

(** [get_file_info]: [os.path.exists] and [os.path.getsize] are the
    lookup of the path in the store and the length of what is there. *)
Definition get_file_info (disk : fs) (file_path : string) : result file_info :=
  match disk !! file_path with
  | None => Raise FileNotFoundError
  | Some content =>
      let file_size := Z.of_nat (length content) in
      let* header_info := read_ffab_header disk file_path in
      let* meta_info := read_ffab_meta disk file_path in
      let* index_info :=
        read_ffab_index_table disk file_path (image_count meta_info) in
      let data_start_offset := 4 + 8 + image_count meta_info * 12 in
      let uncompressed_size :=
        width meta_info * height meta_info * 4 * image_count meta_info in
      let compression_ratio :=
        if total_compressed_size index_info >? 0
        then Quotient uncompressed_size (total_compressed_size index_info)
        else Zero in
      Ok {| info_file_path := file_path;
            file_size := file_size;
            header := header_info;
            meta := meta_info;
            index := index_info;
            data_start_offset := data_start_offset;
            uncompressed_size := uncompressed_size;
            compression_ratio := compression_ratio |}
  end.

End Info.

(** ** Vocabulary of the statements *)

(** The names of the block sizes, in the order of the tables. *)
Definition known_formats : list (string * Z) :=
  [ ("4x4", 1); ("5x4", 2); ("5x5", 3); ("6x5", 4); ("6x6", 5); ("8x5", 6);
    ("8x6", 7); ("8x8", 8); ("10x5", 9); ("10x6", 10); ("10x8", 11);
    ("10x10", 12); ("12x10", 13); ("12x12", 14) ].

(** The sixteen bytes of an [.astc] file header for a flat image. *)
Definition astc_header_bytes (width height block_x block_y : Z) : bytes :=
  [ byte_of_Z 0x13; byte_of_Z 0xAB; byte_of_Z 0xA1; byte_of_Z 0x5C;
    byte_of_Z block_x; byte_of_Z block_y; byte_of_Z 1;
    byte_of_Z (Z.land width 0xFF);
    byte_of_Z (Z.land (Z.shiftr width 8) 0xFF);
    byte_of_Z (Z.land (Z.shiftr width 16) 0xFF);
    byte_of_Z (Z.land height 0xFF);
    byte_of_Z (Z.land (Z.shiftr height 8) 0xFF);
    byte_of_Z (Z.land (Z.shiftr height 16) 0xFF);
    byte_of_Z 1; byte_of_Z 0; byte_of_Z 0 ].

(** [content[offset : offset + data_length]], as Python slices it. *)
Definition slice (content : bytes) (offset data_length : Z) : bytes :=
  take (Z.to_nat data_length) (drop (Z.to_nat offset) content).

(** Where the writers put frame [i]: after the header, the meta block, the
    index table and the frames before it. *)
Fixpoint frame_offsets (start : Z) (lengths : list Z) : list Z :=
  match lengths with
  | [] => []
  | l :: rest => start :: frame_offsets (start + l) rest
  end.

(** One entry of the index table as the writers pack it. *)
Definition entry_bytes (entry : Z * Z) : bytes :=
  be_encode 8 entry.1 ++ be_encode 4 entry.2.

(** The index of a data region that starts at [start] and holds
    [payloads] back to back. *)
Definition stored_index (start : Z) (payloads : list bytes) : list (Z * Z) :=
  let lengths := (fun p : bytes => Z.of_nat (length p)) <$> payloads in
  zip (frame_offsets start lengths) lengths.

(** Index entries that follow one another without gap or overlap. *)
Definition contiguous (entries : list (Z * Z)) : Prop :=
  forall (i : nat) (e e' : Z * Z),
    entries !! i = Some e -> entries !! S i = Some e' -> e'.1 = e.1 + e.2.

(** What the index of a written file must look like: [n] entries, the
    first at the start of the data region, each next one where the one
    before it ends. *)
Definition offsets_determined (disk : fs) (file_path : string) (n : Z) : Prop :=
  exists entries,
    Decoder.read_ffab_index_table disk file_path n = Ok entries
    /\ Z.of_nat (length entries) = n
    /\ (exists e0, entries !! 0%nat = Some e0 /\ e0.1 = 4 + 8 + 12 * n)
    /\ contiguous entries.

(** Frame [i] of the file, fetched through entry [i] of its index. *)
Definition frame_via_index (disk : fs) (file_path : string)
    (entries : list (Z * Z)) (i : nat) : result bytes :=
  match entries !! i with
  | Some (offset, data_length) =>
      Decoder.read_compressed_image_data disk file_path offset data_length
  | None => Raise (ValueError wrong_number_of_values)
  end.

(** *** Sample inputs

    Small frames of 4 by 4 pixels, and stand-ins for the external
    programs: a compressor that prefixes the pixel data with the [.astc]
    header of a 4x4 frame in 4x4 blocks, and a decompressor that returns
    the bytes it was handed as pixel data. *)

Definition sample_image (data : bytes) : ndarray :=
  {| nd_height := 4; nd_width := 4; nd_data := data |}.

Definition sample_header : bytes := astc_header_bytes 4 4 4 4.

Definition sample_compress (img_data : ndarray) (astc_format : string)
    (quality : unit) : result bytes :=
  Ok (sample_header ++ nd_data img_data).

Definition sample_tools_compress (img_data : ndarray) (astc_format : string)
  : result bytes :=
  Ok (sample_header ++ nd_data img_data).

Definition sample_astcenc_dl (astc_file : bytes) : result ndarray :=
  Ok {| nd_height := 4; nd_width := 4; nd_data := astc_file |}.

Definition sample_images : list (string * ndarray) :=
  [ ("frame_0001.png", sample_image [x01; x02; x03]);
    ("frame_0002.png", sample_image [x0a; x0b]) ].

(** The store after the writer of [ffab_encoder.py] ran on the sample. *)
Definition sample_disk : fs :=
  (Encoder.create_ffab_file_v1 unit sample_compress ∅ sample_images
     "out.ffab" "4x4" tt).2.

Definition sample_content : bytes := default [] (sample_disk !! "out.ffab").

(** A file of two frames and 41 bytes whose index is out of order,
    overlapping and out of bounds: frame 0 is said to lie at bytes 39..41
    and frame 1 at bytes 0..1000. *)
Definition scrambled_disk : fs :=
  {[ "bad.ffab" :=
       concat [ be_encode 2 0xFFAB ++ be_encode 2 0x0001;
                be_encode 2 2 ++ be_encode 2 4 ++ be_encode 2 4
                ++ be_encode 2 0x0001;
                entry_bytes (39, 2) ++ entry_bytes (0, 1000);
                [x01; x02; x03; x0a; x0b] ] ]}.

Definition scrambled_content : bytes :=
  default [] (scrambled_disk !! "bad.ffab").

(** The sample file (41 bytes) without its last byte. *)
Definition truncated_disk : fs :=
  {[ "cut.ffab" := take 40 sample_content ]}.

(** A file whose meta block carries the format code 0x00FF. *)
Definition unknown_code_disk : fs :=
  {[ "u.ffab" :=
       concat [ be_encode 2 0xFFAB ++ be_encode 2 0x0001;
                be_encode 2 2 ++ be_encode 2 100 ++ be_encode 2 100
                ++ be_encode 2 0x00FF ] ]}.



(** A compressor stand-in whose output has no [.astc] header at all. *)
Definition bare_compress (img_data : ndarray) (astc_format : string)
    (quality : unit) : result bytes :=
  Ok (nd_data img_data).

Definition bare_tools_compress (img_data : ndarray) (astc_format : string)
  : result bytes :=
  Ok (nd_data img_data).

(** The store after the writer of [tools/ffab_encoder.py] ran on the
    sample. *)
Definition sample_tools_disk : fs :=
  (ToolsEncoder.create_ffab_file_v1 sample_tools_compress ∅ sample_images
     "out.ffab" "4x4").2.

(** The scenario of the decoder's test file: two frames of 100 by 100
    pixels in 6x6 blocks, 100 bytes of 0x00 and 150 bytes of 0x01. *)
Definition scenario_images : list (string * ndarray) :=
  [ ("frame_0001.png",
     {| nd_height := 100; nd_width := 100; nd_data := replicate 100 x00 |});
    ("frame_0002.png",
     {| nd_height := 100; nd_width := 100; nd_data := replicate 150 x01 |}) ].

Definition scenario_compress (img_data : ndarray) (astc_format : string)
    (quality : unit) : result bytes :=
  Ok (astc_header_bytes 100 100 6 6 ++ nd_data img_data).

Definition scenario_disk : fs :=
  (Encoder.create_ffab_file_v1 unit scenario_compress ∅ scenario_images
     "out.ffab" "6x6" tt).2.

(** A decompressor stand-in that rejects files of 18 bytes or fewer. *)
Definition picky_astcenc_dl (astc_file : bytes) : result ndarray :=
  if (length astc_file <=? 18)%nat then Raise (RuntimeError "short")
  else Ok {| nd_height := 4; nd_width := 4; nd_data := astc_file |}.

(** A container of twelve bytes: header, and a meta block for no frame. *)
Definition empty_container_disk : fs :=
  {[ "empty.ffab" :=
       be_encode 2 0xFFAB ++ be_encode 2 0x0001 ++ be_encode 2 0
       ++ be_encode 2 4 ++ be_encode 2 4 ++ be_encode 2 0x0001 ]}.

(** The sum of the lengths an index declares. *)
Definition declared_size (entries : list (Z * Z)) : Z :=
  foldr (fun entry acc => entry.2 + acc) 0 entries.

(** The statistics the inspector keeps while it reads an index, as a
    function of the entries read: the state after the entries, from the
    state before them. *)
Fixpoint index_stats (entries : list (Z * Z)) (i : Z)
    (acc : list Info.index_entry) (total : Z) (smallest : Info.size_or_inf)
    (largest : Z) : list Info.index_entry * Z * Info.size_or_inf * Z :=
  match entries with
  | [] => (acc, total, smallest, largest)
  | (offset, data_length) :: rest =>
      index_stats rest (i + 1)
        (acc ++ [{| Info.frame := i; Info.offset := offset;
                    Info.data_length := data_length |}])
        (total + data_length)
        (Info.min_size smallest data_length)
        (Z.max largest data_length)
  end.

(** An inspector entry without its frame number. *)
Definition entry_pair (e : Info.index_entry) : Z * Z :=
  (Info.offset e, Info.data_length e).

(** * Properties *)

(** ** Bytes and [struct] *)

Section StructFacts.

Lemma Z_of_byte_of_Z (z : Z) : Z_of_byte (byte_of_Z z) = z mod 256.
Proof.
  unfold Z_of_byte, byte_of_Z.
  assert (Hr : 0 <= z mod 256 < 256) by (apply Z.mod_pos_bound; lia).
  destruct (Byte.of_N (Z.to_N (z mod 256))) as [b|] eqn:E.
  - apply Byte.to_of_N in E. rewrite E. lia.
  - apply Byte.of_N_None_iff in E. lia.
Qed.

Lemma Z_of_byte_range (b : byte) : 0 <= Z_of_byte b < 256.
Proof.
  unfold Z_of_byte. pose proof (Byte.to_N_bounded b). lia.
Qed.

Lemma length_le_encode (n : nat) (v : Z) : length (le_encode n v) = n.
Proof.
  revert v. induction n as [|n IH]; intros v; simpl; [reflexivity|].
  now rewrite IH.
Qed.

Lemma le_decode_encode (n : nat) (v : Z) :
  le_decode (le_encode n v) = v mod 256 ^ Z.of_nat n.
Proof.
  revert v. induction n as [|n IH]; intros v.
  - simpl. now rewrite Z.mod_1_r.
  - cbn [le_encode le_decode]. rewrite IH, Z_of_byte_of_Z.
    rewrite Nat2Z.inj_succ, Z.pow_succ_r by lia.
    rewrite Z.rem_mul_r; [reflexivity | lia |].
    apply Z.pow_pos_nonneg; lia.
Qed.

Lemma le_decode_range (bs : bytes) :
  0 <= le_decode bs < 256 ^ Z.of_nat (length bs).
Proof.
  induction bs as [|b bs IH].
  - simpl. lia.
  - cbn [le_decode length]. rewrite Nat2Z.inj_succ, Z.pow_succ_r by lia.
    pose proof (Z_of_byte_range b). lia.
Qed.

Lemma length_be_encode (n : nat) (v : Z) : length (be_encode n v) = n.
Proof. unfold be_encode. now rewrite length_rev, length_le_encode. Qed.

Lemma be_decode_encode (n : nat) (v : Z) :
  0 <= v < 2 ^ (8 * Z.of_nat n) -> be_decode (be_encode n v) = v.
Proof.
  intros Hv. unfold be_decode, be_encode.
  rewrite rev_involutive, le_decode_encode.
  apply Z.mod_small.
  replace (256 ^ Z.of_nat n) with (2 ^ (8 * Z.of_nat n)); [exact Hv|].
  rewrite Z.pow_mul_r by lia. reflexivity.
Qed.

Lemma be_decode_range (bs : bytes) :
  0 <= be_decode bs < 2 ^ (8 * Z.of_nat (length bs)).
Proof.
  unfold be_decode. pose proof (le_decode_range (rev bs)) as H.
  rewrite length_rev in H.
  rewrite Z.pow_mul_r by lia. exact H.
Qed.

(** A big-endian pair of bytes, spelled out. *)
Lemma be_decode_2 (b0 b1 : byte) :
  be_decode [b0; b1] = 256 * Z_of_byte b0 + Z_of_byte b1.
Proof. unfold be_decode. simpl. lia. Qed.

Lemma pack_field_Ok (n : nat) (v : Z) (bs : bytes) :
  pack_field n v = Ok bs ->
  0 <= v < 2 ^ (8 * Z.of_nat n) /\ bs = be_encode n v.
Proof.
  unfold pack_field.
  destruct (0 <=? v) eqn:E1; destruct (v <? 2 ^ (8 * Z.of_nat n)) eqn:E2;
    simpl; intros H; try discriminate.
  inversion H. split; [lia | reflexivity].
Qed.

Lemma pack_field_fits (n : nat) (v : Z) :
  0 <= v < 2 ^ (8 * Z.of_nat n) -> pack_field n v = Ok (be_encode n v).
Proof.
  intros Hv. unfold pack_field.
  destruct (0 <=? v) eqn:E1; destruct (v <? 2 ^ (8 * Z.of_nat n)) eqn:E2;
    simpl; try reflexivity; lia.
Qed.

Lemma pack_field_overflow (n : nat) (v : Z) :
  2 ^ (8 * Z.of_nat n) <= v -> pack_field n v = Raise struct_error.
Proof.
  intros Hv. unfold pack_field.
  destruct (v <? 2 ^ (8 * Z.of_nat n)) eqn:E2; [lia|].
  now rewrite andb_false_r.
Qed.

(** What [struct.pack] wrote is what [struct.unpack] reads back. *)
Lemma pack_fields_Ok (fields : list (nat * Z)) (bs : bytes) :
  pack_fields fields = Ok bs ->
  length bs = foldr Nat.add 0%nat (fields.*1)
  /\ split_fields (fields.*1) bs = fields.*2.
Proof.
  revert bs. induction fields as [|[n v] fields IH]; intros bs H.
  - inversion H. split; reflexivity.
  - cbn [pack_fields] in H. unfold bind in H.
    destruct (pack_field n v) as [b|] eqn:Eb; [|discriminate].
    destruct (pack_fields fields) as [rest|] eqn:Er; [|discriminate].
    inversion H; subst bs; clear H.
    apply pack_field_Ok in Eb as [Hv ->].
    destruct (IH rest eq_refl) as [Hlen Hsplit].
    cbn [fmap list_fmap fst snd foldr split_fields].
    split.
    + rewrite length_app, length_be_encode. simpl in Hlen. now rewrite Hlen.
    + rewrite take_app_length' by now rewrite length_be_encode.
      rewrite drop_app_length' by now rewrite length_be_encode.
      rewrite be_decode_encode by exact Hv.
      f_equal. exact Hsplit.
Qed.

Lemma unpack_pack_fields (fields : list (nat * Z)) (bs : bytes) :
  pack_fields fields = Ok bs ->
  unpack_fields (fields.*1) bs = Ok (fields.*2).
Proof.
  intros H. apply pack_fields_Ok in H as [Hlen Hsplit].
  unfold unpack_fields. rewrite bool_decide_eq_true_2 by exact Hlen.
  now rewrite Hsplit.
Qed.

Lemma unpack_pack_HH (a b : Z) (bs : bytes) :
  pack_HH a b = Ok bs -> unpack_HH bs = Ok (a, b) /\ length bs = 4%nat.
Proof.
  intros H. unfold pack_HH in H. split.
  - pose proof (unpack_pack_fields _ _ H) as Hu. cbn in Hu.
    unfold unpack_HH. now rewrite Hu.
  - now apply pack_fields_Ok in H as [-> _].
Qed.

Lemma unpack_pack_HHHH (a b c d : Z) (bs : bytes) :
  pack_HHHH a b c d = Ok bs ->
  unpack_HHHH bs = Ok (a, b, c, d) /\ length bs = 8%nat.
Proof.
  intros H. unfold pack_HHHH in H. split.
  - pose proof (unpack_pack_fields _ _ H) as Hu. cbn in Hu.
    unfold unpack_HHHH. now rewrite Hu.
  - now apply pack_fields_Ok in H as [-> _].
Qed.

Lemma unpack_pack_QI (a b : Z) (bs : bytes) :
  pack_QI a b = Ok bs -> unpack_QI bs = Ok (a, b) /\ length bs = 12%nat.
Proof.
  intros H. unfold pack_QI in H. split.
  - pose proof (unpack_pack_fields _ _ H) as Hu. cbn in Hu.
    unfold unpack_QI. now rewrite Hu.
  - now apply pack_fields_Ok in H as [-> _].
Qed.

Lemma pack_HHHH_range (a b c d : Z) (bs : bytes) :
  pack_HHHH a b c d = Ok bs ->
  0 <= a <= 65535 /\ 0 <= b <= 65535 /\ 0 <= c <= 65535 /\ 0 <= d <= 65535.
Proof.
  unfold pack_HHHH. cbn [pack_fields]. unfold bind.
  destruct (pack_field 2 a) eqn:Ea; [|discriminate].
  destruct (pack_field 2 b) eqn:Eb; [|discriminate].
  destruct (pack_field 2 c) eqn:Ec; [|discriminate].
  destruct (pack_field 2 d) eqn:Ed; [|discriminate].
  intros _.
  apply pack_field_Ok in Ea as [Ha _], Eb as [Hb _], Ec as [Hc _], Ed as [Hd _].
  change (2 ^ (8 * Z.of_nat 2)) with 65536 in *. lia.
Qed.

Lemma pack_QI_range (a b : Z) (bs : bytes) :
  pack_QI a b = Ok bs -> 0 <= a < 2 ^ 64 /\ 0 <= b < 2 ^ 32.
Proof.
  unfold pack_QI. cbn [pack_fields]. unfold bind.
  destruct (pack_field 8 a) eqn:Ea; [|discriminate].
  destruct (pack_field 4 b) eqn:Eb; [|discriminate].
  intros _.
  apply pack_field_Ok in Ea as [Ha _], Eb as [Hb _].
  change (8 * Z.of_nat 8) with 64 in Ha. change (8 * Z.of_nat 4) with 32 in Hb.
  lia.
Qed.

Lemma pack_QI_fits (a b : Z) :
  0 <= a < 2 ^ 64 -> 0 <= b < 2 ^ 32 ->
  pack_QI a b = Ok (be_encode 8 a ++ be_encode 4 b).
Proof.
  intros Ha Hb. unfold pack_QI. cbn [pack_fields]. unfold bind.
  rewrite !pack_field_fits by assumption.
  now rewrite app_nil_r.
Qed.

End StructFacts.

(** ** The table of block sizes *)

Section FormatTable.

Lemma format_codes_known :
  Decoder.ASTC_FORMAT_CODES = list_to_map known_formats.
Proof. reflexivity. Qed.

Lemma code_to_format_known :
  Decoder.ASTC_CODE_TO_FORMAT = list_to_map (prod_swap <$> known_formats).
Proof. vm_compute. reflexivity. Qed.

Lemma known_formats_names_NoDup : NoDup (known_formats.*1).
Proof. apply (bool_decide_unpack _). vm_compute. exact I. Qed.

Lemma known_formats_codes_NoDup : NoDup ((prod_swap <$> known_formats).*1).
Proof. apply (bool_decide_unpack _). vm_compute. exact I. Qed.

Lemma format_code_lookup (name : string) (code : Z) :
  Decoder.ASTC_FORMAT_CODES !! name = Some code <-> (name, code) ∈ known_formats.
Proof.
  rewrite format_codes_known. symmetry.
  apply elem_of_list_to_map, known_formats_names_NoDup.
Qed.

Lemma code_format_lookup (code : Z) (name : string) :
  Decoder.ASTC_CODE_TO_FORMAT !! code = Some name <-> (name, code) ∈ known_formats.
Proof.
  rewrite code_to_format_known.
  rewrite <- (elem_of_list_to_map _ _ _ known_formats_codes_NoDup).
  rewrite list_elem_of_fmap. split.
  - intros [[n c] [Heq Hin]]. simpl in Heq. now inversion Heq; subst.
  - intros Hin. now exists (name, code).
Qed.

Lemma known_formats_code_range (name : string) (code : Z) :
  (name, code) ∈ known_formats -> 1 <= code <= 14.
Proof.
  unfold known_formats. rewrite !elem_of_cons, elem_of_nil.
  intros H.
  repeat (destruct H as [H|H]; [inversion H; lia|]).
  destruct H.
Qed.

Lemma known_code_has_format (code : Z) :
  1 <= code <= 14 -> exists name, (name, code) ∈ known_formats.
Proof.
  intros Hc.
  assert (Hcases : code = 1 \/ code = 2 \/ code = 3 \/ code = 4 \/ code = 5
                   \/ code = 6 \/ code = 7 \/ code = 8 \/ code = 9
                   \/ code = 10 \/ code = 11 \/ code = 12 \/ code = 13
                   \/ code = 14) by lia.
  unfold known_formats.
  repeat (destruct Hcases as [->|Hcases];
          [eexists; rewrite !elem_of_cons; eauto 20|]).
  subst. eexists. rewrite !elem_of_cons. eauto 20.
Qed.

Lemma code_known_iff (code : Z) :
  is_Some (Decoder.ASTC_CODE_TO_FORMAT !! code) <-> 1 <= code <= 14.
Proof.
  split.
  - intros [name H]. apply code_format_lookup in H.
    eapply known_formats_code_range, H.
  - intros Hc. destruct (known_code_has_format code Hc) as [name H].
    exists name. now apply code_format_lookup.
Qed.

Lemma code_unknown (code : Z) :
  ~ (1 <= code <= 14) -> Decoder.ASTC_CODE_TO_FORMAT !! code = None.
Proof.
  intros Hc. destruct (Decoder.ASTC_CODE_TO_FORMAT !! code) eqn:E; [|reflexivity].
  exfalso. apply Hc, code_known_iff. now exists s.
Qed.

End FormatTable.

(** ** The [.astc] header the tools generate *)

Section AstcHeader.

Lemma land_FF_range (z : Z) : 0 <= Z.land z 0xFF < 256.
Proof.
  change 0xFF with (Z.ones 8). rewrite Z.land_ones by lia.
  apply Z.mod_pos_bound. lia.
Qed.

Lemma pack_byte (v : Z) :
  0 <= v < 256 -> pack_field 1 v = Ok [byte_of_Z v].
Proof. intros Hv. now rewrite pack_field_fits. Qed.

Lemma encoder_header_of_blocks (width height : Z) (astc_format : string)
    (block_x block_y : Z) :
  unpack2_map int (str_split astc_format "x") = Ok (block_x, block_y) ->
  0 <= block_x < 256 -> 0 <= block_y < 256 ->
  Encoder.generate_astc_header width height astc_format
  = Ok (astc_header_bytes width height block_x block_y).
Proof.
  intros Hb Hx Hy. unfold Encoder.generate_astc_header.
  rewrite Hb. cbn [bind]. unfold pack_16B.
  rewrite bool_decide_eq_true_2 by reflexivity.
  cbn [map pack_fields].
  rewrite !pack_byte by (first [apply land_FF_range | assumption | lia]).
  reflexivity.
Qed.

(** The decoder's copy of the function has the same body. *)
Lemma generate_astc_header_same (width height : Z) (astc_format : string) :
  Decoder.generate_astc_header width height astc_format
  = Encoder.generate_astc_header width height astc_format.
Proof. reflexivity. Qed.

Lemma known_format_blocks (name : string) (code : Z) :
  (name, code) ∈ known_formats ->
  exists block_x block_y,
    unpack2_map int (str_split name "x") = Ok (block_x, block_y)
    /\ 0 <= block_x < 256 /\ 0 <= block_y < 256.
Proof.
  unfold known_formats. rewrite !elem_of_cons, elem_of_nil.
  intros H.
  repeat (destruct H as [H|H];
          [inversion H; subst; do 2 eexists;
           split; [vm_compute; reflexivity | lia]|]).
  destruct H.
Qed.

Lemma known_format_header (width height : Z) (name : string) (code : Z) :
  (name, code) ∈ known_formats ->
  exists header,
    Encoder.generate_astc_header width height name = Ok header
    /\ length header = 16%nat.
Proof.
  intros Hin. destruct (known_format_blocks _ _ Hin) as (bx & by' & Hb & Hx & Hy).
  exists (astc_header_bytes width height bx by'). split.
  - now apply encoder_header_of_blocks.
  - reflexivity.
Qed.

(** A generated header always has sixteen bytes. *)
Lemma generate_astc_header_length (width height : Z) (astc_format : string)
    (header : bytes) :
  Encoder.generate_astc_header width height astc_format = Ok header ->
  length header = 16%nat.
Proof.
  unfold Encoder.generate_astc_header, bind.
  destruct (unpack2_map int (str_split astc_format "x")) as [[bx by']|];
    [|discriminate].
  unfold pack_16B. rewrite bool_decide_eq_true_2 by reflexivity.
  intros H. apply pack_fields_Ok in H as [Hlen _]. exact Hlen.
Qed.

End AstcHeader.

(** ** Reading: handles, the header, the meta block, the index table *)

Section ReaderFacts.

Lemma read_nonneg (f : file) (n : Z) :
  0 <= n ->
  read f n
  = Ok (take (Z.to_nat n) (drop (f_pos f) (f_content f)),
        {| f_content := f_content f;
           f_pos := (f_pos f
                     + length (take (Z.to_nat n) (drop (f_pos f) (f_content f))))%nat |}).
Proof.
  intros Hn. unfold read.
  destruct (n <? -1) eqn:E1; [lia|].
  destruct (n =? -1) eqn:E2; [lia|]. reflexivity.
Qed.

Lemma seek_nonneg (f : file) (offset : Z) :
  0 <= offset ->
  seek f offset = Ok {| f_content := f_content f; f_pos := Z.to_nat offset |}.
Proof. intros Ho. unfold seek. destruct (offset <? 0) eqn:E; [lia|reflexivity]. Qed.

(** [read_compressed_image_data] is a plain slice of the file: it looks
    at nothing but the two numbers it is given. *)
Lemma read_compressed_image_data_slice (disk : fs) (file_path : string)
    (content : bytes) (offset data_length : Z) :
  disk !! file_path = Some content ->
  0 <= offset -> 0 <= data_length ->
  Decoder.read_compressed_image_data disk file_path offset data_length
  = Ok (slice content offset data_length).
Proof.
  intros Hf Ho Hl. unfold Decoder.read_compressed_image_data, open_rb.
  rewrite Hf. cbn [bind]. rewrite seek_nonneg by exact Ho. cbn [bind].
  rewrite read_nonneg by exact Hl. reflexivity.
Qed.

Lemma length_slice (content : bytes) (offset data_length : Z) :
  0 <= offset -> 0 <= data_length ->
  Z.of_nat (length (slice content offset data_length))
  = Z.min data_length (Z.max 0 (Z.of_nat (length content) - offset)).
Proof.
  intros Ho Hl. unfold slice. rewrite length_take, length_drop. lia.
Qed.

(** The header of a file of four bytes or more. *)
Lemma decoder_header_of_content (disk : fs) (file_path : string)
    (content : bytes) :
  disk !! file_path = Some content ->
  (4 <= length content)%nat ->
  Decoder.read_ffab_header disk file_path
  = let magic := be_decode (take 2 content) in
    let version := be_decode (take 2 (drop 2 content)) in
    if negb (magic =? 0xFFAB) then Raise (ValueError magic_mismatch)
    else if negb (version =? 0x0001)
         then Raise (ValueError (unsupported_version version))
         else Ok version.
Proof.
  intros Hf Hlen. unfold Decoder.read_ffab_header, open_rb. rewrite Hf.
  destruct content as [|b0 [|b1 [|b2 [|b3 rest]]]]; simpl in Hlen; try lia.
  reflexivity.
Qed.

Lemma info_header_of_content (disk : fs) (file_path : string)
    (content : bytes) :
  disk !! file_path = Some content ->
  (4 <= length content)%nat ->
  Info.read_ffab_header disk file_path
  = let magic := be_decode (take 2 content) in
    let version := be_decode (take 2 (drop 2 content)) in
    if negb (magic =? 0xFFAB)
    then Raise (ValueError (magic_mismatch_detail 0xFFAB magic))
    else if negb (version =? 0x0001)
         then Raise (ValueError (unsupported_version version))
         else Ok {| Info.magic := magic;
                    Info.version := version;
                    Info.version_hex := "0x" +:+ fmt_04X version |}.
Proof.
  intros Hf Hlen. unfold Info.read_ffab_header, open_rb. rewrite Hf.
  destruct content as [|b0 [|b1 [|b2 [|b3 rest]]]]; simpl in Hlen; try lia.
  reflexivity.
Qed.

(** A file too short for its header makes [struct.unpack] raise. *)
Lemma decoder_header_short (disk : fs) (file_path : string)
    (content : bytes) :
  disk !! file_path = Some content ->
  (length content < 4)%nat ->
  Decoder.read_ffab_header disk file_path = Raise struct_error.
Proof.
  intros Hf Hlen. unfold Decoder.read_ffab_header, open_rb. rewrite Hf.
  destruct content as [|b0 [|b1 [|b2 [|b3 rest]]]]; simpl in Hlen; try lia;
    reflexivity.
Qed.

(** The meta block of a file of twelve bytes or more. *)
Lemma decoder_meta_of_content (disk : fs) (file_path : string)
    (content : bytes) :
  disk !! file_path = Some content ->
  (12 <= length content)%nat ->
  Decoder.read_ffab_meta disk file_path
  = Ok (be_decode (take 2 (drop 4 content)),
        be_decode (take 2 (drop 6 content)),
        be_decode (take 2 (drop 8 content)),
        be_decode (take 2 (drop 10 content))).
Proof.
  intros Hf Hlen. unfold Decoder.read_ffab_meta, open_rb. rewrite Hf.
  do 12 (destruct content as [|? content]; [simpl in Hlen; lia|]).
  reflexivity.
Qed.

Lemma info_meta_of_content (disk : fs) (file_path : string)
    (content : bytes) :
  disk !! file_path = Some content ->
  (12 <= length content)%nat ->
  Info.read_ffab_meta disk file_path
  = let image_count := be_decode (take 2 (drop 4 content)) in
    let width := be_decode (take 2 (drop 6 content)) in
    let height := be_decode (take 2 (drop 8 content)) in
    let astc_format_code := be_decode (take 2 (drop 10 content)) in
    Ok {| Info.image_count := image_count;
          Info.width := width;
          Info.height := height;
          Info.resolution := fmt_d width +:+ "x" +:+ fmt_d height;
          Info.astc_format_code := astc_format_code;
          Info.astc_format :=
            default ("未知(0x" +:+ fmt_04X astc_format_code +:+ ")")
                    (Info.ASTC_CODE_TO_FORMAT !! astc_format_code);
          Info.astc_format_hex := "0x" +:+ fmt_04X astc_format_code |}.
Proof.
  intros Hf Hlen. unfold Info.read_ffab_meta, open_rb. rewrite Hf.
  do 12 (destruct content as [|? content]; [simpl in Hlen; lia|]).
  reflexivity.
Qed.

End ReaderFacts.

(** ** Claims about the header, the format table and the [.astc] header *)

(** C6. Header rejection.  Both readers of the header ([ffab_decoder.py]
    and [ffab_info.py]) take the first four bytes of the file as two
    big-endian 16-bit fields, [magic] and [version].  They raise the
    magic-number [ValueError] (the specification's InvalidMagic) exactly
    when [magic] is not 0xFFAB, the version [ValueError]
    (UnsupportedVersion) exactly when [magic] is 0xFFAB and [version] is
    not 0x0001, and succeed exactly when both fields match: nothing after
    the fourth byte is looked at. *)
Theorem header_rejection (disk : fs) (file_path : string) (content : bytes) :
  disk !! file_path = Some content ->
  (4 <= length content)%nat ->
  let magic := be_decode (take 2 content) in
  let version := be_decode (take 2 (drop 2 content)) in
  (Decoder.read_ffab_header disk file_path = Raise (ValueError magic_mismatch)
   <-> magic <> 0xFFAB)
  /\ (Decoder.read_ffab_header disk file_path
      = Raise (ValueError (unsupported_version version))
      <-> magic = 0xFFAB /\ version <> 0x0001)
  /\ (Decoder.read_ffab_header disk file_path = Ok version
      <-> magic = 0xFFAB /\ version = 0x0001)
  /\ (Info.read_ffab_header disk file_path
      = Raise (ValueError (magic_mismatch_detail 0xFFAB magic))
      <-> magic <> 0xFFAB)
  /\ (Info.read_ffab_header disk file_path
      = Raise (ValueError (unsupported_version version))
      <-> magic = 0xFFAB /\ version <> 0x0001)
  /\ (Info.read_ffab_header disk file_path
      = Ok {| Info.magic := magic; Info.version := version;
              Info.version_hex := "0x" +:+ fmt_04X version |}
      <-> magic = 0xFFAB /\ version = 0x0001).
Proof.
  intros Hf Hlen magic version.
  rewrite (decoder_header_of_content _ _ _ Hf Hlen).
  rewrite (info_header_of_content _ _ _ Hf Hlen).
  fold magic version. cbv zeta.
  destruct (magic =? 0xFFAB) eqn:Em; destruct (version =? 0x0001) eqn:Ev;
    cbn [negb];
    repeat split; intros; try discriminate; try reflexivity;
    try lia; try (exfalso; lia).
Qed.

Lemma header_rejection_witness :
  Decoder.read_ffab_header {[ "a.ffab" := [xff; xab; x00; x01; x00] ]} "a.ffab"
  = Ok 1
  <-> be_decode [xff; xab] = 0xFFAB /\ be_decode [x00; x01] = 0x0001.
Proof.
  apply (header_rejection {[ "a.ffab" := [xff; xab; x00; x01; x00] ]} "a.ffab"
           [xff; xab; x00; x01; x00]).
  - reflexivity.
  - simpl. lia.
Defined.

(** C9. Format-code closure.  The table of the fourteen block sizes is
    the same in the four tools; the reverse table the readers build from it
    sends a code to a name exactly when the table sends the name to the
    code, so each of the codes 0x0001 ... 0x000E has one name and each
    name one code (0x0001 is "4x4", 0x0005 is "6x6", 0x000E is "12x12");
    a code outside 1..14 is not in the reverse table, and the writers
    reject a name whose lower-case form is not in the table. *)
Theorem format_code_closure :
  Encoder.ASTC_FORMAT_CODES = Decoder.ASTC_FORMAT_CODES
  /\ ToolsEncoder.ASTC_FORMAT_CODES = Decoder.ASTC_FORMAT_CODES
  /\ Info.ASTC_FORMAT_CODES = Decoder.ASTC_FORMAT_CODES
  /\ Info.ASTC_CODE_TO_FORMAT = Decoder.ASTC_CODE_TO_FORMAT
  /\ size Decoder.ASTC_FORMAT_CODES = 14%nat
  /\ size Decoder.ASTC_CODE_TO_FORMAT = 14%nat
  /\ (forall name code,
        Decoder.ASTC_FORMAT_CODES !! name = Some code
        <-> Decoder.ASTC_CODE_TO_FORMAT !! code = Some name)
  /\ Decoder.ASTC_CODE_TO_FORMAT !! 0x0001 = Some "4x4"
  /\ Decoder.ASTC_CODE_TO_FORMAT !! 0x0005 = Some "6x6"
  /\ Decoder.ASTC_CODE_TO_FORMAT !! 0x000E = Some "12x12"
  /\ (forall code,
        is_Some (Decoder.ASTC_CODE_TO_FORMAT !! code) <-> 1 <= code <= 14)
  /\ (forall format_name,
        Encoder.ASTC_FORMAT_CODES !! str_lower format_name = None ->
        Encoder.get_astc_format_code format_name
        = Raise (ValueError (invalid_astc_format (str_lower format_name)))).
Proof.
  split; [reflexivity|]. split; [reflexivity|]. split; [reflexivity|].
  split; [reflexivity|].
  split; [vm_compute; reflexivity|]. split; [vm_compute; reflexivity|].
  split.
  { intros name code. rewrite format_code_lookup, code_format_lookup.
    reflexivity. }
  split; [vm_compute; reflexivity|]. split; [vm_compute; reflexivity|].
  split; [vm_compute; reflexivity|].
  split; [exact code_known_iff|].
  intros format_name H. unfold Encoder.get_astc_format_code. now rewrite H.
Qed.

(** ** The layout the writers produce *)

Section Layout.

Lemma length_entry_bytes (entry : Z * Z) : length (entry_bytes entry) = 12%nat.
Proof. unfold entry_bytes. now rewrite length_app, !length_be_encode. Qed.

Lemma pack_QI_entry_bytes (offset data_length : Z) (e : bytes) :
  pack_QI offset data_length = Ok e ->
  e = entry_bytes (offset, data_length)
  /\ 0 <= offset < 2 ^ 64 /\ 0 <= data_length < 2 ^ 32.
Proof.
  intros H. pose proof (pack_QI_range _ _ _ H) as [Ho Hl].
  rewrite (pack_QI_fits _ _ Ho Hl) in H. inversion H. auto.
Qed.

Lemma unpack_QI_entry_bytes (entry : Z * Z) :
  0 <= entry.1 < 2 ^ 64 -> 0 <= entry.2 < 2 ^ 32 ->
  unpack_QI (entry_bytes entry) = Ok entry.
Proof.
  intros Ho Hl. destruct entry as [o l]. simpl in *.
  pose proof (pack_QI_fits o l Ho Hl) as Hp.
  now apply unpack_pack_QI in Hp as [Hu _].
Qed.

Lemma length_concat_entries (entries : list (Z * Z)) :
  length (concat (entry_bytes <$> entries)) = (12 * length entries)%nat.
Proof.
  induction entries as [|e entries IH]; [reflexivity|].
  cbn [fmap list_fmap concat length]. rewrite length_app, length_entry_bytes.
  fold (fmap entry_bytes entries). rewrite IH. lia.
Qed.

Lemma length_frame_offsets (start : Z) (lengths : list Z) :
  length (frame_offsets start lengths) = length lengths.
Proof.
  revert start. induction lengths as [|l lengths IH]; intros start;
    [reflexivity|]. simpl. now rewrite IH.
Qed.

Lemma length_stored_index (start : Z) (payloads : list bytes) :
  length (stored_index start payloads) = length payloads.
Proof.
  unfold stored_index.
  rewrite length_zip_with, length_frame_offsets, length_fmap. lia.
Qed.

Lemma stored_index_cons (start : Z) (p : bytes) (payloads : list bytes) :
  stored_index start (p :: payloads)
  = (start, Z.of_nat (length p))
    :: stored_index (start + Z.of_nat (length p)) payloads.
Proof. reflexivity. Qed.

(** The first entry points at the start of the data region. *)
Lemma stored_index_head (start : Z) (payloads : list bytes) (e : Z * Z) :
  stored_index start payloads !! 0%nat = Some e -> e.1 = start.
Proof.
  destruct payloads as [|p payloads]; [discriminate|].
  rewrite stored_index_cons. simpl. now intros [= <-].
Qed.

(** Each entry starts where the one before it ends. *)
Lemma stored_index_contiguous (start : Z) (payloads : list bytes) :
  contiguous (stored_index start payloads).
Proof.
  revert start. induction payloads as [|p payloads IH]; intros start i e e' He He'.
  - discriminate.
  - rewrite stored_index_cons in He, He'. destruct i as [|i].
    + simpl in He, He'. injection He as <-. simpl.
      now apply stored_index_head in He'.
    + simpl in He, He'. eapply IH; eassumption.
Qed.

(** Entry [i] of the index has the length of payload [i], and the slice it
    designates in a file whose data region starts at [start] is that
    payload. *)
Lemma stored_index_slice (payloads : list bytes) (start : Z) (front : bytes)
    (i : nat) (payload : bytes) :
  Z.of_nat (length front) = start ->
  payloads !! i = Some payload ->
  exists offset,
    stored_index start payloads !! i = Some (offset, Z.of_nat (length payload))
    /\ 0 <= offset
    /\ slice (front ++ concat payloads) offset (Z.of_nat (length payload))
       = payload.
Proof.
  revert start front i.
  induction payloads as [|p payloads IH]; intros start front i Hstart Hi.
  - discriminate.
  - rewrite stored_index_cons. destruct i as [|i].
    + simpl in Hi. injection Hi as ->. exists start. split; [reflexivity|].
      split; [lia|]. unfold slice. subst start.
      rewrite !Nat2Z.id. cbn [concat].
      rewrite drop_app_length. now rewrite take_app_length.
    + simpl in Hi.
      destruct (IH (start + Z.of_nat (length p)) (front ++ p) i) as
        (offset & Hlook & Hpos & Hslice).
      * rewrite length_app. lia.
      * exact Hi.
      * exists offset. split; [exact Hlook|]. split; [exact Hpos|].
        cbn [concat]. rewrite app_assoc. exact Hslice.
Qed.

(** The index table is read back entry by entry. *)
Lemma read_index_entries_stored (entries : list (Z * Z)) (content : bytes)
    (pos : nat) (rest : bytes) (acc : list (Z * Z)) :
  Forall (fun e => 0 <= e.1 < 2 ^ 64 /\ 0 <= e.2 < 2 ^ 32) entries ->
  drop pos content = concat (entry_bytes <$> entries) ++ rest ->
  Decoder.read_index_entries (length entries)
    {| f_content := content; f_pos := pos |} acc
  = Ok (acc ++ entries).
Proof.
  revert pos acc. induction entries as [|e entries IH]; intros pos acc Hr Hd.
  - simpl. now rewrite app_nil_r.
  - inversion Hr as [|? ? [Ho Hl] Hr']; subst.
    cbn [length Decoder.read_index_entries].
    rewrite read_nonneg by lia. cbn [f_pos f_content bind].
    change (Z.to_nat 12) with 12%nat.
    cbn [fmap list_fmap concat] in Hd. fold (fmap entry_bytes entries) in Hd.
    rewrite Hd, <- app_assoc.
    rewrite take_app_length' by now rewrite length_entry_bytes.
    rewrite unpack_QI_entry_bytes by assumption.
    rewrite length_entry_bytes. destruct e as [o l]. cbn [bind].
    rewrite IH.
    + now rewrite <- app_assoc.
    + exact Hr'.
    + rewrite <- drop_drop, Hd, <- app_assoc.
      now rewrite drop_app_length' by now rewrite length_entry_bytes.
Qed.

End Layout.

(** ** Reading a file laid out as the writers lay it out *)

Section WrittenFile.

Variables (disk : fs) (file_path : string).
Variables (n width height code : Z) (meta : bytes) (payloads : list bytes).

Let start : Z := 4 + 8 + n * 12.
Let index : list (Z * Z) := stored_index start payloads.

Hypothesis Hfile :
  disk !! file_path
  = Some (concat [ be_encode 2 0xFFAB ++ be_encode 2 0x0001; meta;
                   concat (entry_bytes <$> index); concat payloads ]).
Hypothesis Hcount : n = Z.of_nat (length payloads).
Hypothesis Hmeta : pack_HHHH n width height code = Ok meta.
Hypothesis Hrange :
  Forall (fun e => 0 <= e.1 < 2 ^ 64 /\ 0 <= e.2 < 2 ^ 32) index.

Lemma written_content :
  exists content,
    disk !! file_path = Some content
    /\ content
       = [xff; xab; x00; x01] ++ meta ++ concat (entry_bytes <$> index)
         ++ concat payloads.
Proof.
  eexists. split; [exact Hfile|]. cbn [concat]. now rewrite app_nil_r.
Qed.

Lemma written_header : Decoder.read_ffab_header disk file_path = Ok 1.
Proof.
  destruct written_content as (content & Hc & ->).
  unfold Decoder.read_ffab_header, open_rb. rewrite Hc. reflexivity.
Qed.

Lemma written_meta :
  Decoder.read_ffab_meta disk file_path = Ok (n, width, height, code).
Proof.
  destruct written_content as (content & Hc & ->).
  destruct (unpack_pack_HHHH _ _ _ _ _ Hmeta) as [Hu Hlen].
  unfold Decoder.read_ffab_meta, open_rb. rewrite Hc. cbn [bind].
  rewrite seek_nonneg by lia. cbn [bind].
  rewrite read_nonneg by lia. cbn [bind f_pos f_content].
  change (Z.to_nat 4) with 4%nat. change (Z.to_nat 8) with 8%nat.
  change (drop 4 ([xff; xab; x00; x01] ++ ?l)) with l.
  cbn [app drop].
  rewrite take_app_length' by now rewrite Hlen.
  rewrite Hu. reflexivity.
Qed.

Lemma written_index :
  Decoder.read_ffab_index_table disk file_path n = Ok index.
Proof.
  destruct written_content as (content & Hc & ->).
  destruct (unpack_pack_HHHH _ _ _ _ _ Hmeta) as [_ Hlen].
  unfold Decoder.read_ffab_index_table, open_rb. rewrite Hc. cbn [bind].
  rewrite seek_nonneg by lia. cbn [bind f_content].
  replace (Z.to_nat n) with (length index).
  2:{ unfold index. rewrite length_stored_index. lia. }
  rewrite (read_index_entries_stored index _ _ (concat payloads) [] Hrange).
  - reflexivity.
  - change (Z.to_nat (4 + 8)) with (4 + 8)%nat.
    rewrite <- drop_drop. cbn [app drop]. rewrite drop_0.
    now rewrite drop_app_length' by now rewrite Hlen.
Qed.

Lemma written_frames (i : nat) (payload : bytes) :
  payloads !! i = Some payload ->
  exists offset,
    index !! i = Some (offset, Z.of_nat (length payload))
    /\ Decoder.read_compressed_image_data disk file_path
         offset (Z.of_nat (length payload))
       = Ok payload.
Proof.
  intros Hi.
  destruct written_content as (content & Hc & ->).
  destruct (unpack_pack_HHHH _ _ _ _ _ Hmeta) as [_ Hlen].
  destruct (stored_index_slice payloads start
              ([xff; xab; x00; x01] ++ meta ++ concat (entry_bytes <$> index))
              i payload) as (offset & Hlook & Hpos & Hslice).
  - rewrite !length_app, Hlen, length_concat_entries.
    unfold index. rewrite length_stored_index. unfold start.
    cbn [length]. lia.
  - exact Hi.
  - exists offset. split; [exact Hlook|].
    rewrite (read_compressed_image_data_slice _ _ _ _ _ Hc Hpos) by lia.
    f_equal. etransitivity; [|exact Hslice].
    f_equal. now rewrite <- !app_assoc.
Qed.

End WrittenFile.

(** ** What a successful run of the writers has done *)

Section EncoderFacts.

Variable float : Type.
Variable compress_with_astc : ndarray -> string -> float -> result bytes.

Lemma encoder_frames_Ok (astc_format : string) (quality : float)
    (astc_header : bytes) (images : list (string * ndarray))
    (current_offset : Z) (index_entries image_data_blocks : list bytes)
    (index_entries' image_data_blocks' : list bytes) :
  Encoder.encode_frames float compress_with_astc astc_format quality
    astc_header images current_offset index_entries image_data_blocks
  = Ok (index_entries', image_data_blocks') ->
  exists payloads,
    Forall2 (fun img payload =>
               compress_with_astc img.2 astc_format quality
               = Ok (astc_header ++ payload)) images payloads
    /\ image_data_blocks' = image_data_blocks ++ payloads
    /\ index_entries'
       = index_entries ++ (entry_bytes <$> stored_index current_offset payloads)
    /\ Forall (fun e => 0 <= e.1 < 2 ^ 64 /\ 0 <= e.2 < 2 ^ 32)
              (stored_index current_offset payloads).
Proof.
  revert current_offset index_entries image_data_blocks.
  induction images as [|[img_name img_data] images IH];
    intros off idx blocks H.
  - injection H as <- <-. exists []. rewrite !app_nil_r. repeat split; constructor.
  - cbn [Encoder.encode_frames] in H. unfold bind in H.
    destruct (compress_with_astc img_data astc_format quality) as [d|] eqn:Ec;
      [|discriminate].
    destruct (bool_decide (take 16 d = astc_header)) eqn:Eh;
      cbn [negb] in H; [|discriminate].
    apply bool_decide_eq_true_1 in Eh.
    destruct (pack_QI off (Z.of_nat (length (drop 16 d)))) as [e|] eqn:Ep;
      [|discriminate].
    apply pack_QI_entry_bytes in Ep as (-> & Ho & Hl).
    apply IH in H as (payloads & Hc & -> & -> & Hr).
    exists (drop 16 d :: payloads). rewrite stored_index_cons.
    split; [|split; [|split]].
    + constructor; [|exact Hc]. simpl. rewrite Ec, <- Eh.
      now rewrite take_drop.
    + now rewrite <- app_assoc.
    + now rewrite <- app_assoc.
    + constructor; [split; assumption | exact Hr].
Qed.

Lemma encoder_frames_total (astc_format : string) (quality : float)
    (astc_header : bytes) (images : list (string * ndarray))
    (payloads : list bytes)
    (current_offset : Z) (index_entries image_data_blocks : list bytes) :
  length astc_header = 16%nat ->
  Forall2 (fun img payload =>
             compress_with_astc img.2 astc_format quality
             = Ok (astc_header ++ payload)
             /\ Z.of_nat (length payload) < 2 ^ 32) images payloads ->
  0 <= current_offset ->
  current_offset + Z.of_nat (length (concat payloads)) < 2 ^ 64 ->
  Encoder.encode_frames float compress_with_astc astc_format quality
    astc_header images current_offset index_entries image_data_blocks
  = Ok (index_entries ++ (entry_bytes <$> stored_index current_offset payloads),
        image_data_blocks ++ payloads).
Proof.
  intros Hh Hall. revert current_offset index_entries image_data_blocks.
  induction Hall as [|[img_name img_data] payload images payloads [Hc Hl] Hall IH];
    intros off idx blocks Hoff Htot.
  - simpl. now rewrite !app_nil_r.
  - cbn [Encoder.encode_frames]. simpl in Hc. rewrite Hc. cbn [bind].
    rewrite take_app_length' by now rewrite Hh.
    rewrite bool_decide_eq_true_2 by reflexivity. cbn [negb].
    rewrite drop_app_length' by now rewrite Hh.
    cbn [concat] in Htot. rewrite length_app in Htot.
    rewrite pack_QI_fits by lia. cbn [bind].
    rewrite IH by lia.
    rewrite stored_index_cons. cbn [fmap list_fmap].
    now rewrite <- !app_assoc.
Qed.

Lemma encoder_dimensions_rest_Ok (first_img_name : string) (height width : Z)
    (rest : list (string * ndarray)) :
  Encoder.check_images_dimensions_rest first_img_name height width rest = Ok tt
  <-> Forall (fun img => Z.of_N (nd_width img.2) = width
                         /\ Z.of_N (nd_height img.2) = height) rest.
Proof.
  induction rest as [|[img_name img_data] rest IH].
  - split; [constructor | reflexivity].
  - cbn [Encoder.check_images_dimensions_rest].
    destruct (Z.of_N (nd_height img_data) =? height) eqn:Eh;
      destruct (Z.of_N (nd_width img_data) =? width) eqn:Ew; cbn [negb orb].
    + rewrite IH. split.
      * intros H. constructor; [simpl; lia | exact H].
      * intros H. now inversion H.
    + split; [discriminate|]. intros H. inversion H; simpl in *. lia.
    + split; [discriminate|]. intros H. inversion H; simpl in *. lia.
    + split; [discriminate|]. intros H. inversion H; simpl in *. lia.
Qed.

Lemma encoder_dimensions_Ok (images : list (string * ndarray))
    (width height : Z) :
  Encoder.check_images_dimensions images = Ok (width, height)
  <-> images <> []
      /\ Forall (fun img => Z.of_N (nd_width img.2) = width
                            /\ Z.of_N (nd_height img.2) = height) images.
Proof.
  destruct images as [|[first_img_name first_img_data] rest].
  - split; [discriminate | intros [H _]; congruence].
  - cbn [Encoder.check_images_dimensions]. unfold bind.
    destruct (Encoder.check_images_dimensions_rest first_img_name
                (Z.of_N (nd_height first_img_data))
                (Z.of_N (nd_width first_img_data)) rest) as [[]|e] eqn:Er.
    + apply encoder_dimensions_rest_Ok in Er. split.
      * intros [= <- <-]. split; [discriminate|]. constructor; [now split|exact Er].
      * intros [_ H]. inversion H as [|? ? [Hw Hh] Hrest]; subst. reflexivity.
    + split; [discriminate|]. intros [_ H].
      inversion H as [|? ? [Hw Hh] Hrest]; subst. simpl in Hrest.
      apply (encoder_dimensions_rest_Ok first_img_name) in Hrest. congruence.
Qed.

(** The content of the file after a successful build. *)
Lemma encoder_build_Ok (images : list (string * ndarray))
    (astc_format : string) (quality : float) (chunks : list bytes) :
  Encoder.build_ffab_v1 float compress_with_astc images astc_format quality
  = Ok chunks ->
  exists width height code astc_header meta payloads,
    Encoder.check_images_dimensions images = Ok (width, height)
    /\ Encoder.get_astc_format_code astc_format = Ok code
    /\ pack_HHHH (Z.of_nat (length images)) width height code = Ok meta
    /\ Encoder.generate_astc_header width height astc_format = Ok astc_header
    /\ Forall2 (fun img payload =>
                  compress_with_astc img.2 astc_format quality
                  = Ok (astc_header ++ payload)) images payloads
    /\ Forall (fun e => 0 <= e.1 < 2 ^ 64 /\ 0 <= e.2 < 2 ^ 32)
              (stored_index (4 + 8 + Z.of_nat (length images) * 12) payloads)
    /\ chunks
       = [ be_encode 2 0xFFAB ++ be_encode 2 0x0001; meta;
           concat (entry_bytes <$>
                     stored_index (4 + 8 + Z.of_nat (length images) * 12)
                       payloads);
           concat payloads ].
Proof.
  unfold Encoder.build_ffab_v1.
  destruct images as [|img images]; [discriminate|].
  set (imgs := img :: images). unfold bind.
  destruct (Encoder.check_images_dimensions imgs) as [[width height]|] eqn:Ed;
    [|discriminate].
  destruct (Encoder.get_astc_format_code astc_format) as [code|] eqn:Ef;
    [|discriminate].
  change (pack_HH Encoder.FFAB_MAGIC 1)
    with (@Ok bytes (be_encode 2 0xFFAB ++ be_encode 2 0x0001 ++ [])).
  cbv iota beta.
  destruct (pack_HHHH (Z.of_nat (length imgs)) width height code) as [meta|] eqn:Em;
    [|discriminate].
  destruct (Encoder.generate_astc_header width height astc_format)
    as [astc_header|] eqn:Eh; [|discriminate].
  destruct (Encoder.encode_frames float compress_with_astc astc_format quality
              astc_header imgs (4 + 8 + Z.of_nat (length imgs) * 12) [] [])
    as [[idx blocks]|] eqn:Ee; [|discriminate].
  intros [= <-].
  apply encoder_frames_Ok in Ee as (payloads & Hc & -> & -> & Hr).
  exists width, height, code, astc_header, meta, payloads.
  repeat (split; [assumption || reflexivity|]).
  reflexivity.
Qed.

End EncoderFacts.

Section ToolsEncoderFacts.

Variable compress_with_astc : ndarray -> string -> result bytes.

Lemma tools_frames_Ok (astc_format : string)
    (images : list (string * ndarray))
    (current_offset : Z) (index_entries image_data_blocks : list bytes)
    (index_entries' image_data_blocks' : list bytes) :
  ToolsEncoder.encode_frames compress_with_astc astc_format
    images current_offset index_entries image_data_blocks
  = Ok (index_entries', image_data_blocks') ->
  exists payloads,
    Forall2 (fun img payload =>
               compress_with_astc img.2 astc_format = Ok payload)
            images payloads
    /\ image_data_blocks' = image_data_blocks ++ payloads
    /\ index_entries'
       = index_entries ++ (entry_bytes <$> stored_index current_offset payloads)
    /\ Forall (fun e => 0 <= e.1 < 2 ^ 64 /\ 0 <= e.2 < 2 ^ 32)
              (stored_index current_offset payloads).
Proof.
  revert current_offset index_entries image_data_blocks.
  induction images as [|[img_name img_data] images IH];
    intros off idx blocks H.
  - injection H as <- <-. exists []. rewrite !app_nil_r. repeat split; constructor.
  - cbn [ToolsEncoder.encode_frames] in H. unfold bind in H.
    destruct (compress_with_astc img_data astc_format) as [d|] eqn:Ec;
      [|discriminate].
    destruct (pack_QI off (Z.of_nat (length d))) as [e|] eqn:Ep;
      [|discriminate].
    apply pack_QI_entry_bytes in Ep as (-> & Ho & Hl).
    apply IH in H as (payloads & Hc & -> & -> & Hr).
    exists (d :: payloads). rewrite stored_index_cons.
    split; [|split; [|split]].
    + constructor; [exact Ec | exact Hc].
    + now rewrite <- app_assoc.
    + now rewrite <- app_assoc.
    + constructor; [split; assumption | exact Hr].
Qed.

Lemma tools_build_Ok (images : list (string * ndarray))
    (astc_format : string) (chunks : list bytes) :
  ToolsEncoder.build_ffab_v1 compress_with_astc images astc_format
  = Ok chunks ->
  exists width height code meta payloads,
    ToolsEncoder.check_images_dimensions images = Ok (width, height)
    /\ ToolsEncoder.get_astc_format_code astc_format = Ok code
    /\ pack_HHHH (Z.of_nat (length images)) width height code = Ok meta
    /\ Forall2 (fun img payload =>
                  compress_with_astc img.2 astc_format = Ok payload)
               images payloads
    /\ Forall (fun e => 0 <= e.1 < 2 ^ 64 /\ 0 <= e.2 < 2 ^ 32)
              (stored_index (4 + 8 + Z.of_nat (length images) * 12) payloads)
    /\ chunks
       = [ be_encode 2 0xFFAB ++ be_encode 2 0x0001; meta;
           concat (entry_bytes <$>
                     stored_index (4 + 8 + Z.of_nat (length images) * 12)
                       payloads);
           concat payloads ].
Proof.
  unfold ToolsEncoder.build_ffab_v1.
  destruct images as [|img images]; [discriminate|].
  set (imgs := img :: images). unfold bind.
  destruct (ToolsEncoder.check_images_dimensions imgs) as [[width height]|] eqn:Ed;
    [|discriminate].
  destruct (ToolsEncoder.get_astc_format_code astc_format) as [code|] eqn:Ef;
    [|discriminate].
  change (pack_HH ToolsEncoder.FFAB_MAGIC ToolsEncoder.FFAB_VERSION_0x0001)
    with (@Ok bytes (be_encode 2 0xFFAB ++ be_encode 2 0x0001 ++ [])).
  cbv iota beta.
  destruct (pack_HHHH (Z.of_nat (length imgs)) width height code) as [meta|] eqn:Em;
    [|discriminate].
  destruct (ToolsEncoder.encode_frames compress_with_astc astc_format
              imgs (4 + 8 + Z.of_nat (length imgs) * 12) [] [])
    as [[idx blocks]|] eqn:Ee; [|discriminate].
  intros [= <-].
  apply tools_frames_Ok in Ee as (payloads & Hc & -> & -> & Hr).
  exists width, height, code, meta, payloads.
  repeat (split; [assumption || reflexivity|]).
  reflexivity.
Qed.

End ToolsEncoderFacts.

(** A successful call wrote the chunks of the build to the output path. *)
Lemma encoder_create_Ok (float : Type)
    (compress_with_astc : ndarray -> string -> float -> result bytes)
    (disk disk' : fs) (images : list (string * ndarray))
    (output_path astc_format : string) (quality : float) :
  Encoder.create_ffab_file_v1 float compress_with_astc disk images
    output_path astc_format quality = (Ok tt, disk') ->
  exists chunks,
    Encoder.build_ffab_v1 float compress_with_astc images astc_format quality
    = Ok chunks
    /\ disk' = <[output_path := concat chunks]> disk.
Proof.
  unfold Encoder.create_ffab_file_v1, write_wb.
  destruct (Encoder.build_ffab_v1 _ _ _ _ _) as [chunks|];
    intros [= <-]. now exists chunks.
Qed.

Lemma tools_create_Ok
    (compress_with_astc : ndarray -> string -> result bytes)
    (disk disk' : fs) (images : list (string * ndarray))
    (output_path astc_format : string) :
  ToolsEncoder.create_ffab_file_v1 compress_with_astc disk images
    output_path astc_format = (Ok tt, disk') ->
  exists chunks,
    ToolsEncoder.build_ffab_v1 compress_with_astc images astc_format
    = Ok chunks
    /\ disk' = <[output_path := concat chunks]> disk.
Proof.
  unfold ToolsEncoder.create_ffab_file_v1, write_wb.
  destruct (ToolsEncoder.build_ffab_v1 _ _ _) as [chunks|];
    intros [= <-]. now exists chunks.
Qed.

(** ** Claims about the written file *)

Lemma written_offsets_determined (disk : fs) (file_path : string)
    (width height code : Z) (meta : bytes) (payloads : list bytes) :
  payloads <> [] ->
  pack_HHHH (Z.of_nat (length payloads)) width height code = Ok meta ->
  Forall (fun e => 0 <= e.1 < 2 ^ 64 /\ 0 <= e.2 < 2 ^ 32)
         (stored_index (4 + 8 + Z.of_nat (length payloads) * 12) payloads) ->
  offsets_determined
    (<[file_path :=
         concat [ be_encode 2 0xFFAB ++ be_encode 2 0x0001; meta;
                  concat (entry_bytes <$>
                            stored_index
                              (4 + 8 + Z.of_nat (length payloads) * 12)
                              payloads);
                  concat payloads ]]> disk)
    file_path (Z.of_nat (length payloads)).
Proof.
  intros Hne Hmeta Hrange.
  exists (stored_index (4 + 8 + Z.of_nat (length payloads) * 12) payloads).
  split; [|split; [|split]].
  - eapply written_index; [apply lookup_insert_eq | reflexivity | exact Hmeta
                          | exact Hrange].
  - now rewrite length_stored_index.
  - destruct payloads as [|p payloads]; [congruence|].
    rewrite stored_index_cons. eexists. split; [reflexivity|]. simpl. lia.
  - apply stored_index_contiguous.
Qed.

(** C2. Offset determinism.  In every container that either writer
    ([ffab_encoder.py] or [tools/ffab_encoder.py]) produces from [n]
    frames, the index table read back has [n] entries, entry 0 has offset
    exactly [4 + 8 + 12 * n], and each later entry starts where the entry
    before it ends ([offset + length]): the byte ranges of consecutive
    frames neither leave a gap nor overlap. *)
Theorem offset_determinism (float : Type)
    (compress_with_astc : ndarray -> string -> float -> result bytes)
    (tools_compress_with_astc : ndarray -> string -> result bytes)
    (disk disk' : fs) (images : list (string * ndarray))
    (output_path astc_format : string) (quality : float) :
  Encoder.create_ffab_file_v1 float compress_with_astc disk images
    output_path astc_format quality = (Ok tt, disk')
  \/ ToolsEncoder.create_ffab_file_v1 tools_compress_with_astc disk images
       output_path astc_format = (Ok tt, disk') ->
  offsets_determined disk' output_path (Z.of_nat (length images)).
Proof.
  intros [H|H].
  - apply encoder_create_Ok in H as (chunks & Hb & ->).
    apply encoder_build_Ok in Hb
      as (width & height & code & hdr & meta & payloads
          & Hd & _ & Hm & _ & Hc & Hr & ->).
    apply encoder_dimensions_Ok in Hd as [Hne _].
    rewrite (Forall2_length _ _ _ Hc) in *.
    apply (written_offsets_determined _ _ width height code); try assumption.
    intros ->. apply Forall2_nil_inv_r in Hc. congruence.
  - apply tools_create_Ok in H as (chunks & Hb & ->).
    apply tools_build_Ok in Hb
      as (width & height & code & meta & payloads & Hd & _ & Hm & Hc & Hr & ->).
    assert (Hne : images <> []).
    { intros ->. discriminate Hd. }
    rewrite (Forall2_length _ _ _ Hc) in *.
    apply (written_offsets_determined _ _ width height code); try assumption.
    intros ->. apply Forall2_nil_inv_r in Hc. congruence.
Qed.

Lemma offset_determinism_witness :
  offsets_determined sample_disk "out.ffab" 2.
Proof.
  apply (offset_determinism unit sample_compress sample_tools_compress
           ∅ sample_disk sample_images "out.ffab" "4x4" tt).
  left. vm_compute. reflexivity.
Defined.

(** The scenario of [test_ffab_decoder.py]: index (36, 100), (136, 150),
    286 bytes in all, and frame 1 is the 150 bytes of 0x01. *)
Example scenario_layout :
  Decoder.read_ffab_meta scenario_disk "out.ffab" = Ok (2, 100, 100, 0x0005)
  /\ Decoder.read_ffab_index_table scenario_disk "out.ffab" 2
     = Ok [(36, 100); (136, 150)]
  /\ length <$> scenario_disk !! "out.ffab" = Some 286%nat
  /\ Decoder.read_compressed_image_data scenario_disk "out.ffab" 136 150
     = Ok (replicate 150 x01).
Proof. repeat split; vm_compute; reflexivity. Qed.

Lemma known_format_lower (name : string) (code : Z) :
  (name, code) ∈ known_formats -> str_lower name = name.
Proof.
  unfold known_formats. rewrite !elem_of_cons, elem_of_nil.
  intros H.
  repeat (destruct H as [H|H]; [inversion H; subst; reflexivity|]).
  destruct H.
Qed.

Lemma encoder_format_code_known (name : string) (code : Z) :
  Encoder.ASTC_FORMAT_CODES !! name = Some code ->
  Encoder.get_astc_format_code name = Ok code /\ 1 <= code <= 14.
Proof.
  intros H. pose proof H as Hin. apply format_code_lookup in Hin.
  unfold Encoder.get_astc_format_code.
  rewrite (known_format_lower _ _ Hin), H. split; [reflexivity|].
  eapply known_formats_code_range, Hin.
Qed.

Lemma length_concat_bound (payloads : list bytes) (bound : Z) :
  Forall (fun p : bytes => Z.of_nat (length p) < bound) payloads ->
  Z.of_nat (length (concat payloads)) <= Z.of_nat (length payloads) * bound.
Proof.
  induction 1 as [|p payloads Hp _ IH]; [simpl; lia|].
  cbn [concat length]. rewrite length_app. lia.
Qed.

(** C1 (amended). Round trip.  Take a non-empty list of at most 65535
    frames that share a width and a height of at most 65535, a format name
    of the table, and a codec whose output for each frame is the expected
    sixteen-byte header followed by a payload of less than 2^32 bytes.
    Then [create_ffab_file_v1] succeeds, and in the file it wrote the
    header is accepted, the meta block gives a frame count equal to the
    number of payloads together with the shared width, height and the
    code of the format, the index has one entry per payload, and the bytes
    fetched through entry [i] are exactly payload [i]. *)
Theorem roundtrip_frames (float : Type)
    (compress_with_astc : ndarray -> string -> float -> result bytes)
    (disk : fs) (images : list (string * ndarray))
    (output_path astc_format : string) (quality : float)
    (width height code : Z) (astc_header : bytes) (payloads : list bytes) :
  images <> [] ->
  Z.of_nat (length images) <= 65535 ->
  Forall (fun img => Z.of_N (nd_width img.2) = width
                     /\ Z.of_N (nd_height img.2) = height) images ->
  width <= 65535 -> height <= 65535 ->
  Encoder.ASTC_FORMAT_CODES !! astc_format = Some code ->
  Encoder.generate_astc_header width height astc_format = Ok astc_header ->
  Forall2 (fun img payload =>
             compress_with_astc img.2 astc_format quality
             = Ok (astc_header ++ payload)
             /\ Z.of_nat (length payload) < 2 ^ 32) images payloads ->
  exists disk' entries,
    Encoder.create_ffab_file_v1 float compress_with_astc disk images
      output_path astc_format quality = (Ok tt, disk')
    /\ Decoder.read_ffab_header disk' output_path = Ok 1
    /\ Decoder.read_ffab_meta disk' output_path
       = Ok (Z.of_nat (length payloads), width, height, code)
    /\ Decoder.read_ffab_index_table disk' output_path
         (Z.of_nat (length payloads)) = Ok entries
    /\ length entries = length payloads
    /\ forall (i : nat) (payload : bytes),
         payloads !! i = Some payload ->
         frame_via_index disk' output_path entries i = Ok payload.
Proof.
  intros Hne Hn Hdims Hw Hh Hfmt Hhdr Hcodec.
  pose proof (Forall2_length _ _ _ Hcodec) as Hlen.
  assert (Hwh : 0 <= width /\ 0 <= height).
  { destruct images as [|img images]; [congruence|].
    inversion Hdims as [|? ? [Hw0 Hh0] _]; subst. lia. }
  destruct (encoder_format_code_known _ _ Hfmt) as [Hcode Hcr].
  assert (Hsizes : Forall (fun p : bytes => Z.of_nat (length p) < 2 ^ 32) payloads).
  { clear -Hcodec. induction Hcodec as [|? ? ? ? [_ Hl] _ IH]; constructor; auto. }
  pose proof (length_concat_bound _ _ Hsizes) as Htot.
  set (n := Z.of_nat (length images)) in *.
  set (start := 4 + 8 + n * 12).
  assert (Hmeta : pack_HHHH n width height code
                  = Ok (be_encode 2 n ++ be_encode 2 width
                        ++ be_encode 2 height ++ be_encode 2 code ++ [])).
  { unfold pack_HHHH. cbn [pack_fields]. unfold bind.
    rewrite !pack_field_fits
      by (change (2 ^ (8 * Z.of_nat 2)) with 65536; lia).
    reflexivity. }
  assert (Hframes :
    Encoder.encode_frames float compress_with_astc astc_format quality
      astc_header images start [] []
    = Ok ([] ++ (entry_bytes <$> stored_index start payloads), [] ++ payloads)).
  { apply encoder_frames_total.
    - eapply generate_astc_header_length, Hhdr.
    - exact Hcodec.
    - unfold start. lia.
    - unfold start. rewrite <- Hlen in Htot. fold n in Htot.
      change (2 ^ 32) with 4294967296 in Htot.
      change (2 ^ 64) with 18446744073709551616. lia. }
  assert (Hbuild :
    Encoder.build_ffab_v1 float compress_with_astc images astc_format quality
    = Ok [ be_encode 2 0xFFAB ++ be_encode 2 0x0001;
           be_encode 2 n ++ be_encode 2 width
           ++ be_encode 2 height ++ be_encode 2 code ++ [];
           concat (entry_bytes <$> stored_index start payloads);
           concat payloads ]).
  { unfold Encoder.build_ffab_v1.
    destruct images as [|img images]; [congruence|].
    set (imgs := img :: images) in *.
    rewrite (proj2 (encoder_dimensions_Ok imgs width height) (conj Hne Hdims)).
    cbn [bind]. rewrite Hcode. cbn [bind].
    change (pack_HH Encoder.FFAB_MAGIC 1)
      with (@Ok bytes (be_encode 2 0xFFAB ++ be_encode 2 0x0001 ++ [])).
    cbn [bind]. fold n. rewrite Hmeta. cbn [bind]. rewrite Hhdr. cbn [bind].
    fold start. rewrite Hframes. reflexivity. }
  set (content :=
         concat [ be_encode 2 0xFFAB ++ be_encode 2 0x0001;
                  be_encode 2 n ++ be_encode 2 width
                  ++ be_encode 2 height ++ be_encode 2 code ++ [];
                  concat (entry_bytes <$> stored_index start payloads);
                  concat payloads ]).
  assert (Hfile : (<[output_path := content]> disk) !! output_path
                  = Some content) by apply lookup_insert_eq.
  exists (<[output_path := content]> disk), (stored_index start payloads).
  assert (Hrange : Forall (fun e => 0 <= e.1 < 2 ^ 64 /\ 0 <= e.2 < 2 ^ 32)
                          (stored_index start payloads)).
  { clear -Hsizes Htot Hlen Hn. subst start.
    assert (Hstart : 0 <= 4 + 8 + n * 12) by (subst n; lia).
    assert (Hend : 4 + 8 + n * 12 + Z.of_nat (length (concat payloads)) < 2 ^ 64).
    { rewrite <- Hlen in Htot. fold n in Htot.
      change (2 ^ 32) with 4294967296 in Htot.
      change (2 ^ 64) with 18446744073709551616. lia. }
    revert Hstart Hend. generalize (4 + 8 + n * 12). clear Htot Hlen Hn.
    induction Hsizes as [|p payloads Hp _ IH]; intros s Hs He; [constructor|].
    rewrite stored_index_cons. cbn [concat] in He. rewrite length_app in He.
    constructor; [simpl; lia|]. apply IH; lia. }
  rewrite <- Hlen. fold n.
  assert (Hcnt : n = Z.of_nat (length payloads))
    by (subst n; now rewrite Hlen).
  split; [|split; [|split; [|split; [|split]]]].
  - unfold Encoder.create_ffab_file_v1, write_wb. now rewrite Hbuild.
  - exact (written_header _ _ _ _ _ Hfile).
  - exact (written_meta _ _ _ _ _ _ _ _ Hfile Hmeta).
  - exact (written_index _ _ _ _ _ _ _ _ Hfile Hcnt Hmeta Hrange).
  - rewrite length_stored_index. lia.
  - intros i payload Hi.
    destruct (written_frames _ _ _ _ _ _ _ _ Hfile Hcnt Hmeta i payload Hi)
      as (offset & Hlook & Hread).
    unfold frame_via_index. fold start in Hlook. now rewrite Hlook.
Qed.

Lemma roundtrip_frames_witness :
  exists disk' entries,
    Encoder.create_ffab_file_v1 unit sample_compress ∅ sample_images
      "out.ffab" "4x4" tt = (Ok tt, disk')
    /\ Decoder.read_ffab_header disk' "out.ffab" = Ok 1
    /\ Decoder.read_ffab_meta disk' "out.ffab"
       = Ok (Z.of_nat (length [[x01; x02; x03]; [x0a; x0b]]), 4, 4, 1)
    /\ Decoder.read_ffab_index_table disk' "out.ffab"
         (Z.of_nat (length [[x01; x02; x03]; [x0a; x0b]])) = Ok entries
    /\ length entries = length [[x01; x02; x03]; [x0a; x0b]]
    /\ forall (i : nat) (payload : bytes),
         [[x01; x02; x03]; [x0a; x0b]] !! i = Some payload ->
         frame_via_index disk' "out.ffab" entries i = Ok payload.
Proof.
  apply (roundtrip_frames unit sample_compress ∅ sample_images
           "out.ffab" "4x4" tt 4 4 1 sample_header
           [[x01; x02; x03]; [x0a; x0b]]).
  - discriminate.
  - simpl. lia.
  - repeat constructor.
  - lia.
  - lia.
  - reflexivity.
  - reflexivity.
  - repeat constructor; simpl; lia.
Defined.

(** C1 as stated fails: 65536 frames of one size, a format of the table
    and a codec that returns the expected header satisfy every condition
    the claim names, and the writer raises [struct.error] when it packs
    the frame count into its 16-bit field; no file is written. *)
Lemma roundtrip_counterexample :
  let images := replicate (Z.to_nat 65536) ("frame.png", sample_image [x01]) in
  images <> []
  /\ Forall (fun img : string * ndarray =>
               nd_width img.2 = 4%N /\ nd_height img.2 = 4%N) images
  /\ Encoder.ASTC_FORMAT_CODES !! "4x4" = Some 1
  /\ Forall (fun img : string * ndarray =>
               sample_compress img.2 "4x4" tt = Ok (sample_header ++ [x01])
               /\ Encoder.generate_astc_header 4 4 "4x4" = Ok sample_header)
            images
  /\ Encoder.create_ffab_file_v1 unit sample_compress ∅ images
       "out.ffab" "4x4" tt
     = (Raise struct_error, ∅).
Proof.
  cbv zeta. split; [|split; [|split; [|split]]].
  - intros H. apply (f_equal length) in H.
    rewrite length_replicate in H. discriminate H.
  - apply Forall_replicate. split; reflexivity.
  - reflexivity.
  - apply Forall_replicate. split; reflexivity.
  - vm_compute. reflexivity.
Qed.

(** ** The format name the writer was given and the one the reader finds *)

Section FormatName.

Lemma lower_ascii_inv (a c : ascii) :
  lower_ascii a = c ->
  a = c
  \/ ((65 <= nat_of_ascii a <= 90)%nat
      /\ nat_of_ascii c = (nat_of_ascii a + 32)%nat).
Proof.
  unfold lower_ascii.
  destruct ((65 <=? nat_of_ascii a)%nat && (nat_of_ascii a <=? 90)%nat) eqn:E.
  - intros <-. right.
    apply andb_true_iff in E as [E1 E2].
    apply Nat.leb_le in E1, E2. split; [lia|].
    apply nat_ascii_embedding. lia.
  - intros <-. now left.
Qed.

Lemma str_lower_inv_cons (s : string) (c : ascii) (r : string) :
  str_lower s = String c r ->
  exists a s', s = String a s' /\ lower_ascii a = c /\ str_lower s' = r.
Proof.
  destruct s as [|a s']; [discriminate|].
  simpl. intros [= Ha Hs]. now exists a, s'.
Qed.

Lemma str_lower_inv_nil (s : string) : str_lower s = EmptyString -> s = EmptyString.
Proof. destruct s; [reflexivity | discriminate]. Qed.

Lemma upper_of_nat (a : ascii) (n : nat) :
  nat_of_ascii a = n -> a = ascii_of_nat n.
Proof. intros <-. now rewrite ascii_nat_embedding. Qed.

(** Split a hypothesis [str_lower s = "..."] into the spellings of [s]. *)
Ltac lower_cases H :=
  repeat
    (let a := fresh "a" in
     let s' := fresh "s" in
     let Ha := fresh "Ha" in
     apply str_lower_inv_cons in H as (a & s' & -> & Ha & H);
     apply lower_ascii_inv in Ha as [->|[Ha1 Ha2]];
     [| match type of Ha2 with
        | nat_of_ascii ?c = _ =>
            let v := eval vm_compute in (nat_of_ascii c) in
            change (nat_of_ascii c) with v in Ha2
        end;
        first
          [ exfalso; lia
          | let E := fresh "E" in
            assert (E : nat_of_ascii a = 88%nat) by lia;
            apply upper_of_nat in E; subst a; clear Ha1 Ha2 ]]);
  apply str_lower_inv_nil in H as ->.

(** A name that the writer accepts after lowering it, and from which it
    can generate the header, is already in lower case. *)
Lemma known_format_exact (astc_format : string) (code : Z) :
  (str_lower astc_format, code) ∈ known_formats ->
  is_ok (unpack2_map int (str_split astc_format "x")) = true ->
  str_lower astc_format = astc_format.
Proof.
  unfold known_formats. rewrite !elem_of_cons, elem_of_nil.
  intros H Hok.
  repeat (destruct H as [H|H];
          [injection H as H _; lower_cases H;
           first [reflexivity | vm_compute in Hok; discriminate Hok]|]).
  destruct H.
Qed.

End FormatName.

(** What the decoder finds when it opens a file laid out by a writer. *)
Lemma written_open (disk : fs) (file_path : string)
    (n width height code : Z) (meta : bytes) (payloads : list bytes)
    (astc_format : string) :
  disk !! file_path
  = Some (concat [ be_encode 2 0xFFAB ++ be_encode 2 0x0001; meta;
                   concat (entry_bytes <$>
                             stored_index (4 + 8 + n * 12) payloads);
                   concat payloads ]) ->
  n = Z.of_nat (length payloads) ->
  pack_HHHH n width height code = Ok meta ->
  Forall (fun e => 0 <= e.1 < 2 ^ 64 /\ 0 <= e.2 < 2 ^ 32)
         (stored_index (4 + 8 + n * 12) payloads) ->
  Decoder.ASTC_CODE_TO_FORMAT !! code = Some astc_format ->
  Decoder.open_ffab disk file_path
  = Ok (n, width, height, astc_format, stored_index (4 + 8 + n * 12) payloads).
Proof.
  intros Hfile Hcnt Hmeta Hrange Hcode. unfold Decoder.open_ffab.
  rewrite (written_header _ _ _ _ _ Hfile). cbn [bind].
  change (1 =? Decoder.FFAB_VERSION_0x0001) with true. cbn [bind].
  rewrite (written_meta _ _ _ _ _ _ _ _ Hfile Hmeta). cbn [bind].
  rewrite Hcode. cbn [bind].
  rewrite (written_index _ _ _ _ _ _ _ _ Hfile Hcnt Hmeta Hrange).
  reflexivity.
Qed.

Lemma generate_needs_blocks (width height : Z) (astc_format : string)
    (header : bytes) :
  Encoder.generate_astc_header width height astc_format = Ok header ->
  is_ok (unpack2_map int (str_split astc_format "x")) = true.
Proof.
  unfold Encoder.generate_astc_header, bind.
  now destruct (unpack2_map int (str_split astc_format "x")).
Qed.

(** C10. The two copies of [generate_astc_header] (writer and reader)
    are the same function: they agree on every width, height and format
    string, and for a format of the table both return the same sixteen
    bytes.  As a consequence, in a file the writer produced, the header the
    reader regenerates from the meta block is the very header the writer
    compared with and stripped from each output of the codec: header
    followed by the stored bytes of frame [i] is what the codec returned
    for frame [i]. *)
Theorem preamble_generators_agree :
  (forall (width height : Z) (astc_format : string),
     Decoder.generate_astc_header width height astc_format
     = Encoder.generate_astc_header width height astc_format)
  /\ (forall (width height : Z) (astc_format : string),
        is_Some (Encoder.ASTC_FORMAT_CODES !! astc_format) ->
        exists header,
          length header = 16%nat
          /\ Encoder.generate_astc_header width height astc_format = Ok header
          /\ Decoder.generate_astc_header width height astc_format = Ok header)
  /\ (forall (float : Type)
        (compress_with_astc : ndarray -> string -> float -> result bytes)
        (disk disk' : fs) (images : list (string * ndarray))
        (output_path astc_format : string) (quality : float),
        Encoder.create_ffab_file_v1 float compress_with_astc disk images
          output_path astc_format quality = (Ok tt, disk') ->
        exists image_count width height astc_format' index_entries header,
          Decoder.open_ffab disk' output_path
          = Ok (image_count, width, height, astc_format', index_entries)
          /\ Decoder.generate_astc_header width height astc_format' = Ok header
          /\ Forall2
               (fun (img : string * ndarray) (entry : Z * Z) =>
                  exists payload,
                    Decoder.read_compressed_image_data disk' output_path
                      entry.1 entry.2 = Ok payload
                    /\ compress_with_astc img.2 astc_format quality
                       = Ok (header ++ payload))
               images index_entries).
Proof.
  split; [reflexivity|]. split.
  - intros width height astc_format [code Hcode].
    apply format_code_lookup in Hcode.
    destruct (known_format_header width height _ _ Hcode) as (header & Hg & Hl).
    exists header. repeat split; assumption.
  - intros float compress_with_astc disk disk' images output_path astc_format
      quality H.
    apply encoder_create_Ok in H as (chunks & Hb & ->).
    apply encoder_build_Ok in Hb
      as (width & height & code & hdr & meta & payloads
          & Hd & Hf & Hm & Hg & Hc & Hr & ->).
    pose proof (Forall2_length _ _ _ Hc) as Hlen.
    (* the name the reader finds is the name the writer was given *)
    unfold Encoder.get_astc_format_code in Hf.
    destruct (Encoder.ASTC_FORMAT_CODES !! str_lower astc_format)
      as [code'|] eqn:Elook; [|discriminate].
    injection Hf as ->.
    apply format_code_lookup in Elook.
    pose proof (known_format_exact _ _ Elook (generate_needs_blocks _ _ _ _ Hg))
      as Hexact.
    rewrite Hexact in Elook. apply code_format_lookup in Elook.
    set (n := Z.of_nat (length images)) in *.
    assert (Hcnt : n = Z.of_nat (length payloads)) by (subst n; now rewrite Hlen).
    match goal with
    | |- context [<[output_path := ?c]> disk] => set (content := c)
    end.
    assert (Hfile : (<[output_path := content]> disk) !! output_path
                    = Some content) by apply lookup_insert_eq.
    exists n, width, height, astc_format,
      (stored_index (4 + 8 + n * 12) payloads), hdr.
    split; [|split].
    + exact (written_open _ _ _ _ _ _ _ _ _ Hfile Hcnt Hm Hr Elook).
    + exact Hg.
    + apply Forall2_same_length_lookup. split.
      * rewrite length_stored_index. exact Hlen.
      * intros i img entry Hi He.
        destruct (Forall2_lookup_l _ _ _ _ _ Hc Hi) as (payload & Hp & Hcodec).
        destruct (written_frames _ _ _ _ _ _ _ _ Hfile Hcnt Hm i payload Hp)
          as (offset & Hlook & Hread).
        rewrite Hlook in He. injection He as <-.
        exists payload. split; [exact Hread | exact Hcodec].
Qed.

(** ** The reader on an arbitrary file *)

Section DecoderFacts.

Variable astcenc_dl : bytes -> result ndarray.

(** Twelve bytes always unpack, whatever they are. *)
Lemma unpack_QI_any (entry_data : bytes) :
  length entry_data = 12%nat ->
  exists offset data_length,
    unpack_QI entry_data = Ok (offset, data_length)
    /\ 0 <= offset /\ 0 <= data_length.
Proof.
  intros Hlen. unfold unpack_QI, unpack_fields.
  rewrite bool_decide_eq_true_2 by exact Hlen. cbn [bind split_fields].
  do 2 eexists. split; [reflexivity|].
  split; apply be_decode_range.
Qed.

(** The index table is decoded as long as its bytes are there: nothing
    is asked of the values. *)
Lemma read_index_entries_any (n : nat) (content : bytes) (pos : nat)
    (acc : list (Z * Z)) :
  (pos + 12 * n <= length content)%nat ->
  exists entries,
    Decoder.read_index_entries n {| f_content := content; f_pos := pos |} acc
    = Ok (acc ++ entries)
    /\ length entries = n
    /\ Forall (fun e => 0 <= e.1 /\ 0 <= e.2) entries.
Proof.
  revert pos acc. induction n as [|n IH]; intros pos acc Hlen.
  - exists []. simpl. rewrite app_nil_r. repeat split. constructor.
  - cbn [Decoder.read_index_entries].
    rewrite read_nonneg by lia. cbn [f_pos f_content bind].
    change (Z.to_nat 12) with 12%nat.
    assert (Ht : length (take 12 (drop pos content)) = 12%nat).
    { rewrite length_take, length_drop. lia. }
    destruct (unpack_QI_any _ Ht) as (offset & data_length & Hu & Ho & Hl).
    rewrite Hu, Ht. cbn [bind].
    destruct (IH (pos + 12)%nat (acc ++ [(offset, data_length)])) as
      (entries & Hr & Hn & Hall); [lia|].
    exists ((offset, data_length) :: entries). split; [|split].
    + rewrite Hr. now rewrite <- app_assoc.
    + simpl. now rewrite Hn.
    + constructor; [split; assumption | exact Hall].
Qed.

(** The loop over the index serves every entry to the codec, in order,
    and stops only when the codec raises. *)
Lemma decode_frames_served (disk : fs) (file_path : string) (content : bytes)
    (width height : Z) (astc_format : string) (astc_header : bytes)
    (index_entries : list (Z * Z)) (i : Z) (saved : list (string * ndarray)) :
  disk !! file_path = Some content ->
  Decoder.generate_astc_header width height astc_format = Ok astc_header ->
  Forall (fun e => 0 <= e.1 /\ 0 <= e.2) index_entries ->
  Forall (fun e => is_ok (astcenc_dl (astc_header ++ slice content e.1 e.2))
                   = true) index_entries ->
  exists frames,
    Decoder.decode_frames astcenc_dl disk file_path width height astc_format
      i index_entries saved = (saved ++ frames, Ok tt)
    /\ length frames = length index_entries
    /\ forall (k : nat) (e : Z * Z),
         index_entries !! k = Some e ->
         exists img_array,
           frames !! k = Some (Decoder.output_filename (i + Z.of_nat k), img_array)
           /\ astcenc_dl (astc_header ++ slice content e.1 e.2) = Ok img_array.
Proof.
  intros Hf Hg Hpos Hcodec. revert i saved.
  induction index_entries as [|[offset data_length] rest IH]; intros i saved.
  - exists []. simpl. rewrite app_nil_r. repeat split. intros k e Hk.
    discriminate Hk.
  - inversion Hpos as [|? ? [Ho Hl] Hpos']; subst.
    inversion Hcodec as [|? ? Hok Hcodec']; subst. simpl in Ho, Hl, Hok.
    cbn [Decoder.decode_frames].
    rewrite (read_compressed_image_data_slice _ _ _ _ _ Hf Ho Hl).
    cbn [bind]. unfold Decoder.decode_astc_data. rewrite Hg. cbn [bind].
    destruct (astcenc_dl (astc_header ++ slice content offset data_length))
      as [img_array|] eqn:Edl; [|discriminate Hok].
    destruct (IH Hpos' Hcodec' (i + 1)
                (saved ++ [(Decoder.output_filename i, img_array)]))
      as (frames & Hd & Hn & Hserved).
    exists ((Decoder.output_filename i, img_array) :: frames).
    split; [|split].
    + rewrite Hd. now rewrite <- app_assoc.
    + simpl. now rewrite Hn.
    + intros [|k] e Hk.
      * injection Hk as <-. exists img_array. simpl.
        rewrite Z.add_0_r. split; [reflexivity | exact Edl].
      * simpl in Hk. destruct (Hserved k e Hk) as (img & Hlook & Himg).
        exists img. split; [|exact Himg].
        simpl. rewrite Hlook. do 3 f_equal. lia.
Qed.

Lemma unpack_QI_short (entry_data : bytes) :
  length entry_data <> 12%nat -> unpack_QI entry_data = Raise struct_error.
Proof.
  intros H. unfold unpack_QI, unpack_fields.
  now rewrite bool_decide_eq_false_2 by exact H.
Qed.

Lemma unpack_QI_error (entry_data : bytes) (e : exn) :
  unpack_QI entry_data = Raise e -> e = struct_error.
Proof.
  unfold unpack_QI, unpack_fields.
  destruct (bool_decide _); cbn [bind split_fields]; [discriminate|].
  now intros [= <-].
Qed.

Lemma unpack_QI_nonneg (entry_data : bytes) (offset data_length : Z) :
  unpack_QI entry_data = Ok (offset, data_length) ->
  0 <= offset /\ 0 <= data_length.
Proof.
  unfold unpack_QI, unpack_fields.
  destruct (bool_decide _); cbn [bind split_fields]; [|discriminate].
  intros [= <- <-]. split; apply be_decode_range.
Qed.

Lemma read_index_entries_short (n : nat) (content : bytes) (pos : nat)
    (acc : list (Z * Z)) :
  (0 < n)%nat ->
  (length content < pos + 12 * n)%nat ->
  Decoder.read_index_entries n {| f_content := content; f_pos := pos |} acc
  = Raise struct_error.
Proof.
  revert pos acc. induction n as [|n IH]; intros pos acc Hn Hlen; [lia|].
  cbn [Decoder.read_index_entries].
  rewrite read_nonneg by lia. cbn [f_pos f_content bind].
  change (Z.to_nat 12) with 12%nat.
  destruct (decide (pos + 12 <= length content)%nat) as [Hfit|Hcut].
  - assert (Ht : length (take 12 (drop pos content)) = 12%nat).
    { rewrite length_take, length_drop. lia. }
    destruct (unpack_QI_any _ Ht) as (o & l & Hu & _ & _).
    rewrite Hu, Ht. cbn [bind]. apply IH; lia.
  - rewrite unpack_QI_short; [reflexivity|].
    rewrite length_take, length_drop. lia.
Qed.

Lemma read_index_entries_inv (n : nat) (f : file) (acc : list (Z * Z)) :
  match Decoder.read_index_entries n f acc with
  | Ok entries =>
      exists new, entries = acc ++ new /\ length new = n
                  /\ Forall (fun e => 0 <= e.1 /\ 0 <= e.2) new
  | Raise e => e = struct_error
  end.
Proof.
  revert f acc. induction n as [|n IH]; intros f acc.
  - cbn. exists []. rewrite app_nil_r. repeat split. constructor.
  - cbn [Decoder.read_index_entries].
    rewrite read_nonneg by lia. cbn [bind].
    destruct (unpack_QI _) as [[o l]|e] eqn:Eu; cbn [bind].
    + apply unpack_QI_nonneg in Eu.
      match goal with
      | |- match Decoder.read_index_entries n ?f' ?acc' with _ => _ end =>
          specialize (IH f' acc');
          destruct (Decoder.read_index_entries n f' acc') as [entries|e]
      end; [|exact IH].
      destruct IH as (new & -> & Hn & Hall).
      exists ((o, l) :: new). rewrite <- app_assoc. repeat split.
      * simpl. now rewrite Hn.
      * constructor; [exact Eu | exact Hall].
    + eapply unpack_QI_error, Eu.
Qed.

(** Opening a file whose header and format code are good, with the index
    the reader finds in it. *)
Lemma open_ffab_of_index (disk : fs) (file_path : string) (content : bytes)
    (astc_format : string) (index_entries : list (Z * Z)) :
  disk !! file_path = Some content ->
  (12 <= length content)%nat ->
  be_decode (take 2 content) = 0xFFAB ->
  be_decode (take 2 (drop 2 content)) = 0x0001 ->
  Decoder.ASTC_CODE_TO_FORMAT !! be_decode (take 2 (drop 10 content))
  = Some astc_format ->
  Decoder.read_ffab_index_table disk file_path
    (be_decode (take 2 (drop 4 content))) = Ok index_entries ->
  Decoder.open_ffab disk file_path
  = Ok (be_decode (take 2 (drop 4 content)),
        be_decode (take 2 (drop 6 content)),
        be_decode (take 2 (drop 8 content)),
        astc_format, index_entries)
  /\ Forall (fun e => 0 <= e.1 /\ 0 <= e.2) index_entries.
Proof.
  intros Hf Hlen Hmagic Hversion Hcode Hidx. split.
  - unfold Decoder.open_ffab.
    rewrite (decoder_header_of_content _ _ _ Hf) by lia.
    cbv zeta. rewrite Hmagic, Hversion. cbn [negb bind Z.eqb Pos.eqb].
    change (1 =? Decoder.FFAB_VERSION_0x0001) with true. cbn [bind].
    rewrite (decoder_meta_of_content _ _ _ Hf Hlen). cbn [bind].
    rewrite Hcode. cbn [bind]. rewrite Hidx. reflexivity.
  - unfold Decoder.read_ffab_index_table, bind in Hidx.
    destruct (open_rb disk file_path) as [f|]; [|discriminate].
    destruct (seek f (4 + 8)) as [f'|]; [|discriminate].
    pose proof (read_index_entries_inv
                  (Z.to_nat (be_decode (take 2 (drop 4 content)))) f' [])
      as Hinv.
    rewrite Hidx in Hinv. destruct Hinv as (new & -> & _ & Hall). exact Hall.
Qed.

(** Opening a file whose header and format code are good and whose index
    table is complete. *)
Lemma open_ffab_of_content (disk : fs) (file_path : string) (content : bytes)
    (astc_format : string) :
  disk !! file_path = Some content ->
  (12 <= length content)%nat ->
  be_decode (take 2 content) = 0xFFAB ->
  be_decode (take 2 (drop 2 content)) = 0x0001 ->
  Decoder.ASTC_CODE_TO_FORMAT !! be_decode (take 2 (drop 10 content))
  = Some astc_format ->
  12 + 12 * be_decode (take 2 (drop 4 content)) <= Z.of_nat (length content) ->
  exists index_entries,
    Decoder.open_ffab disk file_path
    = Ok (be_decode (take 2 (drop 4 content)),
          be_decode (take 2 (drop 6 content)),
          be_decode (take 2 (drop 8 content)),
          astc_format, index_entries)
    /\ Decoder.read_ffab_index_table disk file_path
         (be_decode (take 2 (drop 4 content))) = Ok index_entries
    /\ Z.of_nat (length index_entries) = be_decode (take 2 (drop 4 content))
    /\ Forall (fun e => 0 <= e.1 /\ 0 <= e.2) index_entries.
Proof.
  intros Hf Hlen Hmagic Hversion Hcode Hindex.
  pose proof (be_decode_range (take 2 (drop 4 content))) as [Hn _].
  destruct (read_index_entries_any
              (Z.to_nat (be_decode (take 2 (drop 4 content)))) content 12 [])
    as (entries & Hr & Hcount & Hpos); [lia|].
  assert (Hidx : Decoder.read_ffab_index_table disk file_path
                   (be_decode (take 2 (drop 4 content))) = Ok entries).
  { unfold Decoder.read_ffab_index_table, open_rb. rewrite Hf. cbn [bind].
    rewrite seek_nonneg by lia. cbn [bind f_content].
    change (Z.to_nat (4 + 8)) with 12%nat. rewrite Hr. reflexivity. }
  exists entries. split; [|split; [|split]].
  - unfold Decoder.open_ffab.
    rewrite (decoder_header_of_content _ _ _ Hf) by lia.
    cbv zeta. rewrite Hmagic, Hversion. cbn [negb bind Z.eqb Pos.eqb].
    change (1 =? Decoder.FFAB_VERSION_0x0001) with true. cbn [bind].
    rewrite (decoder_meta_of_content _ _ _ Hf Hlen). cbn [bind].
    rewrite Hcode. cbn [bind]. rewrite Hidx. reflexivity.
  - exact Hidx.
  - lia.
  - exact Hpos.
Qed.

End DecoderFacts.

(** ** Claims about the reader *)

(** C3 (amended). The reader has no validation pass.  Once the header
    and the format code are accepted and the index table is read,
    [decode_ffab_file] uses each entry as it is: in index order it fetches
    [content[offset : offset + length]] (cut at the end of the file), puts
    the regenerated header in front and hands the result to the codec.  No
    entry is compared with the start of the data region, with its
    neighbour or with the size of the file: if every entry starts at or
    before the end of the file and the codec accepts what it is given,
    decoding succeeds, whatever the order of the entries, their overlaps
    and their lengths. *)
Theorem index_not_validated (astcenc_dl : bytes -> result ndarray)
    (disk : fs) (file_path : string) (content : bytes) (astc_format : string)
    (index_entries : list (Z * Z)) (astc_header : bytes) :
  disk !! file_path = Some content ->
  (12 <= length content)%nat ->
  be_decode (take 2 content) = 0xFFAB ->
  be_decode (take 2 (drop 2 content)) = 0x0001 ->
  Decoder.ASTC_CODE_TO_FORMAT !! be_decode (take 2 (drop 10 content))
  = Some astc_format ->
  Decoder.read_ffab_index_table disk file_path
    (be_decode (take 2 (drop 4 content))) = Ok index_entries ->
  Decoder.generate_astc_header
    (be_decode (take 2 (drop 6 content)))
    (be_decode (take 2 (drop 8 content))) astc_format = Ok astc_header ->
  Forall (fun e => e.1 <= Z.of_nat (length content)) index_entries ->
  Forall (fun e => is_ok (astcenc_dl (astc_header ++ slice content e.1 e.2))
                   = true) index_entries ->
  exists frames,
    Decoder.decode_ffab_file astcenc_dl disk file_path = (frames, Ok tt)
    /\ length frames = length index_entries
    /\ forall (k : nat) (e : Z * Z),
         index_entries !! k = Some e ->
         exists img_array,
           frames !! k
           = Some (Decoder.output_filename (Z.of_nat k), img_array)
           /\ astcenc_dl (astc_header ++ slice content e.1 e.2) = Ok img_array.
Proof.
  intros Hf Hlen Hmagic Hversion Hcode Hidx Hg Hinside Hcodec.
  destruct (open_ffab_of_index _ _ _ _ _ Hf Hlen Hmagic Hversion Hcode Hidx)
    as [Hopen Hpos].
  destruct (decode_frames_served astcenc_dl disk file_path content
              _ _ _ astc_header index_entries 0 [] Hf Hg Hpos Hcodec)
    as (frames & Hd & Hn & Hserved).
  exists frames. split; [|split].
  - unfold Decoder.decode_ffab_file. rewrite Hopen. exact Hd.
  - exact Hn.
  - intros k e Hk. destruct (Hserved k e Hk) as (img & Hlook & Himg).
    exists img. split; [|exact Himg]. rewrite Hlook. reflexivity.
Qed.

Lemma index_not_validated_witness :
  exists frames,
    Decoder.decode_ffab_file sample_astcenc_dl scrambled_disk "bad.ffab"
    = (frames, Ok tt)
    /\ length frames = length [(39, 2); (0, 1000)]
    /\ forall (k : nat) (e : Z * Z),
         [(39, 2); (0, 1000)] !! k = Some e ->
         exists img_array,
           frames !! k
           = Some (Decoder.output_filename (Z.of_nat k), img_array)
           /\ sample_astcenc_dl
                (sample_header ++ slice scrambled_content e.1 e.2)
              = Ok img_array.
Proof.
  apply (index_not_validated sample_astcenc_dl scrambled_disk "bad.ffab"
           scrambled_content "4x4" [(39, 2); (0, 1000)] sample_header).
  - vm_compute. reflexivity.
  - vm_compute. lia.
  - vm_compute. reflexivity.
  - vm_compute. reflexivity.
  - vm_compute. reflexivity.
  - vm_compute. reflexivity.
  - vm_compute. reflexivity.
  - repeat constructor; vm_compute; discriminate.
  - repeat constructor.
Defined.

(** C3 as stated fails: the index of [scrambled_disk] starts at the wrong
    offset, is not contiguous and runs past the end of the file, and the
    reader raises nothing: both frames are fetched and handed to the
    codec. *)
Lemma index_validation_counterexample :
  Decoder.read_ffab_index_table scrambled_disk "bad.ffab" 2
  = Ok [(39, 2); (0, 1000)]
  /\ 39 <> 4 + 8 + 12 * 2
  /\ 0 <> 39 + 2
  /\ length (default [] (scrambled_disk !! "bad.ffab")) = 41%nat
  /\ Decoder.read_compressed_image_data scrambled_disk "bad.ffab" 0 1000
     = Ok (default [] (scrambled_disk !! "bad.ffab"))
  /\ Decoder.decode_ffab_file sample_astcenc_dl scrambled_disk "bad.ffab"
     = ([ ("frame_0000.png",
           {| nd_height := 4; nd_width := 4;
              nd_data := sample_header ++ [x0a; x0b] |});
          ("frame_0001.png",
           {| nd_height := 4; nd_width := 4;
              nd_data := sample_header
                         ++ default [] (scrambled_disk !! "bad.ffab") |}) ],
        Ok tt).
Proof.
  split; [vm_compute; reflexivity|].
  split; [lia|]. split; [lia|].
  split; [vm_compute; reflexivity|].
  split; [vm_compute; reflexivity|].
  vm_compute. reflexivity.
Qed.

(** C4 (amended). No truncation check on frames.  When the range an
    entry declares starts at or before the end of the file and runs past
    it, [read_compressed_image_data] raises nothing and returns the bytes
    that are there, [size - offset] of them, fewer than the declared
    length; the loop of [decode_ffab_file] hands this short payload to the
    codec like any other, so that only the codec can still fail.  (The
    declared length is one an index entry can hold, and positive: an empty
    range is read in full.) *)
Theorem truncated_frame_read_short (astcenc_dl : bytes -> result ndarray)
    (disk : fs) (file_path : string) (content : bytes)
    (offset data_length : Z) :
  disk !! file_path = Some content ->
  0 <= offset <= Z.of_nat (length content) ->
  0 < data_length < 2 ^ 32 ->
  Z.of_nat (length content) < offset + data_length ->
  exists compressed_data,
    Decoder.read_compressed_image_data disk file_path offset data_length
    = Ok compressed_data
    /\ compressed_data = slice content offset data_length
    /\ Z.of_nat (length compressed_data) = Z.of_nat (length content) - offset
    /\ Z.of_nat (length compressed_data) < data_length
    /\ forall (width height : Z) (astc_format : string) (i : Z)
         (rest : list (Z * Z)) (saved : list (string * ndarray)),
         Decoder.decode_frames astcenc_dl disk file_path width height
           astc_format i ((offset, data_length) :: rest) saved
         = match Decoder.decode_astc_data astcenc_dl compressed_data
                   width height astc_format with
           | Raise e => (saved, Raise e)
           | Ok img_array =>
               Decoder.decode_frames astcenc_dl disk file_path width height
                 astc_format (i + 1) rest
                 (saved ++ [(Decoder.output_filename i, img_array)])
           end.
Proof.
  intros Hf [Ho Hin] [Hl0 Hl32] Hpast.
  assert (Hl : 0 <= data_length) by lia.
  exists (slice content offset data_length).
  pose proof (length_slice content offset data_length Ho Hl) as Hlen.
  split; [now apply read_compressed_image_data_slice|].
  split; [reflexivity|]. split; [lia|]. split; [lia|].
  intros width height astc_format i rest saved.
  cbn [Decoder.decode_frames].
  rewrite (read_compressed_image_data_slice _ _ _ _ _ Hf Ho Hl).
  reflexivity.
Qed.

Lemma truncated_frame_read_short_witness :
  exists compressed_data,
    Decoder.read_compressed_image_data truncated_disk "cut.ffab" 39 2
    = Ok compressed_data
    /\ compressed_data = slice (take 40 sample_content) 39 2
    /\ Z.of_nat (length compressed_data)
       = Z.of_nat (length (take 40 sample_content)) - 39
    /\ Z.of_nat (length compressed_data) < 2
    /\ forall (width height : Z) (astc_format : string) (i : Z)
         (rest : list (Z * Z)) (saved : list (string * ndarray)),
         Decoder.decode_frames sample_astcenc_dl truncated_disk "cut.ffab"
           width height astc_format i ((39, 2) :: rest) saved
         = match Decoder.decode_astc_data sample_astcenc_dl compressed_data
                   width height astc_format with
           | Raise e => (saved, Raise e)
           | Ok img_array =>
               Decoder.decode_frames sample_astcenc_dl truncated_disk
                 "cut.ffab" width height astc_format (i + 1) rest
                 (saved ++ [(Decoder.output_filename i, img_array)])
           end.
Proof.
  apply (truncated_frame_read_short sample_astcenc_dl truncated_disk
           "cut.ffab" (take 40 sample_content) 39 2).
  - vm_compute. reflexivity.
  - vm_compute. split; discriminate.
  - lia.
  - vm_compute. reflexivity.
Defined.

(** C4 as stated fails: in [truncated_disk] the last entry declares two
    bytes at offset 39 of a file of 40 bytes; the reader returns one byte
    without any error, and decoding the file ends normally. *)
Lemma truncation_counterexample :
  Decoder.read_ffab_index_table truncated_disk "cut.ffab" 2
  = Ok [(36, 3); (39, 2)]
  /\ length (default [] (truncated_disk !! "cut.ffab")) = 40%nat
  /\ Decoder.read_compressed_image_data truncated_disk "cut.ffab" 39 2
     = Ok [x0a]
  /\ Decoder.decode_ffab_file sample_astcenc_dl truncated_disk "cut.ffab"
     = ([ ("frame_0000.png",
           {| nd_height := 4; nd_width := 4;
              nd_data := sample_header ++ [x01; x02; x03] |});
          ("frame_0001.png",
           {| nd_height := 4; nd_width := 4;
              nd_data := sample_header ++ [x0a] |}) ],
        Ok tt).
Proof.
  repeat split; vm_compute; reflexivity.
Qed.

(** C7 (amended). Meta block and unknown format codes.  Both copies of
    [read_ffab_meta] read the eight bytes at offset 4 as four big-endian
    16-bit fields and accept all four as they are, the format code
    included: neither raises on an unknown code.  In the decoder it is
    [decode_ffab_file], right after, that raises the unknown-code
    [ValueError] when the code is outside 1..14, before the index is read
    and with no frame decoded; the inspector never raises on the code and
    reports the name as the text 未知(0x....). *)
Theorem unknown_format_code_handling (astcenc_dl : bytes -> result ndarray)
    (disk : fs) (file_path : string) (content : bytes) :
  disk !! file_path = Some content ->
  (12 <= length content)%nat ->
  let image_count := be_decode (take 2 (drop 4 content)) in
  let width := be_decode (take 2 (drop 6 content)) in
  let height := be_decode (take 2 (drop 8 content)) in
  let astc_format_code := be_decode (take 2 (drop 10 content)) in
  Decoder.read_ffab_meta disk file_path
  = Ok (image_count, width, height, astc_format_code)
  /\ Info.read_ffab_meta disk file_path
     = Ok {| Info.image_count := image_count;
             Info.width := width;
             Info.height := height;
             Info.resolution := fmt_d width +:+ "x" +:+ fmt_d height;
             Info.astc_format_code := astc_format_code;
             Info.astc_format :=
               default ("未知(0x" +:+ fmt_04X astc_format_code +:+ ")")
                       (Info.ASTC_CODE_TO_FORMAT !! astc_format_code);
             Info.astc_format_hex := "0x" +:+ fmt_04X astc_format_code |}
  /\ (Decoder.read_ffab_header disk file_path = Ok 1 ->
      ~ (1 <= astc_format_code <= 14) ->
      Decoder.decode_ffab_file astcenc_dl disk file_path
      = ([], Raise (ValueError (unknown_astc_code astc_format_code))))
  /\ (1 <= astc_format_code <= 14 ->
      is_Some (Decoder.ASTC_CODE_TO_FORMAT !! astc_format_code)).
Proof.
  intros Hf Hlen image_count width height astc_format_code.
  split; [exact (decoder_meta_of_content _ _ _ Hf Hlen)|].
  split; [exact (info_meta_of_content _ _ _ Hf Hlen)|].
  split.
  - intros Hh Hc. unfold Decoder.decode_ffab_file, Decoder.open_ffab.
    rewrite Hh. cbn [bind].
    change (1 =? Decoder.FFAB_VERSION_0x0001) with true. cbn [bind].
    rewrite (decoder_meta_of_content _ _ _ Hf Hlen). cbn [bind].
    fold astc_format_code. rewrite (code_unknown _ Hc). reflexivity.
  - apply code_known_iff.
Qed.

Lemma unknown_format_code_handling_witness :
  Decoder.read_ffab_meta unknown_code_disk "u.ffab"
  = Ok (be_decode (take 2 (drop 4 (default [] (unknown_code_disk !! "u.ffab")))),
        be_decode (take 2 (drop 6 (default [] (unknown_code_disk !! "u.ffab")))),
        be_decode (take 2 (drop 8 (default [] (unknown_code_disk !! "u.ffab")))),
        be_decode (take 2 (drop 10 (default [] (unknown_code_disk !! "u.ffab"))))).
Proof.
  apply (unknown_format_code_handling sample_astcenc_dl unknown_code_disk
           "u.ffab" (default [] (unknown_code_disk !! "u.ffab"))).
  - vm_compute. reflexivity.
  - vm_compute. lia.
Defined.

(** C7 as stated fails: the meta block of [unknown_code_disk] carries the
    code 0x00FF, which is outside the table, and [read_ffab_meta] returns
    normally in both tools. *)
Lemma unknown_format_code_counterexample :
  Decoder.ASTC_CODE_TO_FORMAT !! 0x00FF = None
  /\ Decoder.read_ffab_meta unknown_code_disk "u.ffab" = Ok (2, 100, 100, 0x00FF)
  /\ Info.read_ffab_meta unknown_code_disk "u.ffab"
     = Ok {| Info.image_count := 2;
             Info.width := 100;
             Info.height := 100;
             Info.resolution := "100x100";
             Info.astc_format_code := 0x00FF;
             Info.astc_format := "未知(0x00FF)";
             Info.astc_format_hex := "0x00FF" |}.
Proof.
  repeat split; vm_compute; reflexivity.
Qed.

(** ** Claims about the writers' checks *)

Section WriterErrors.


End WriterErrors.



(** C5, on [tools/ffab_encoder.py].  This copy of the writer neither
    compares the first sixteen bytes of the codec's output with the
    expected header nor strips them: on the sample frames it stores each
    output whole (19 and 18 bytes instead of 3 and 2), so that the reader,
    which puts a regenerated header in front of what is stored, hands the
    codec a file with two headers; and it accepts an output without any
    header, which [ffab_encoder.py] rejects. *)
Theorem tools_writer_keeps_preamble :
  (ToolsEncoder.create_ffab_file_v1 sample_tools_compress ∅ sample_images
     "out.ffab" "4x4").1 = Ok tt
  /\ Decoder.read_ffab_index_table sample_tools_disk "out.ffab" 2
     = Ok [(36, 19); (55, 18)]
  /\ Decoder.read_compressed_image_data sample_tools_disk "out.ffab" 36 19
     = Ok (sample_header ++ [x01; x02; x03])
  /\ Decoder.decode_ffab_file sample_astcenc_dl sample_tools_disk "out.ffab"
     = ([ ("frame_0000.png",
           {| nd_height := 4; nd_width := 4;
              nd_data := sample_header ++ sample_header ++ [x01; x02; x03] |});
          ("frame_0001.png",
           {| nd_height := 4; nd_width := 4;
              nd_data := sample_header ++ sample_header ++ [x0a; x0b] |}) ],
        Ok tt)
  /\ Decoder.read_ffab_index_table sample_disk "out.ffab" 2
     = Ok [(36, 3); (39, 2)]
  /\ Decoder.read_compressed_image_data sample_disk "out.ffab" 36 3
     = Ok [x01; x02; x03]
  /\ (ToolsEncoder.create_ffab_file_v1 bare_tools_compress ∅ sample_images
        "out.ffab" "4x4").1 = Ok tt
  /\ Encoder.create_ffab_file_v1 unit bare_compress ∅ sample_images
       "out.ffab" "4x4" tt
     = (Raise (ValueError (astc_header_mismatch "frame_0001.png")), ∅).
Proof.
  repeat split; vm_compute; reflexivity.
Qed.

(** * Further properties of the tools *)

(** ** Format names and the [.astc] header *)

(** How [generate_astc_header] ends depends on the format string alone:
    either the string splits into two block sizes that fit a byte, and
    the header is the sixteen bytes of [astc_header_bytes] for every width
    and height, or the same exception is raised for every width and
    height. *)
Lemma generate_astc_header_cases (astc_format : string) :
  (exists block_x block_y,
     unpack2_map int (str_split astc_format "x") = Ok (block_x, block_y)
     /\ 0 <= block_x < 256 /\ 0 <= block_y < 256
     /\ forall width height,
          Encoder.generate_astc_header width height astc_format
          = Ok (astc_header_bytes width height block_x block_y))
  \/ (exists e, forall width height,
        Encoder.generate_astc_header width height astc_format = Raise e).
Proof.
  destruct (unpack2_map int (str_split astc_format "x")) as [[bx by']|e] eqn:E.
  - destruct (decide (0 <= bx < 256)) as [Hx|Hx];
      [destruct (decide (0 <= by' < 256)) as [Hy|Hy]|].
    + left. exists bx, by'. repeat split; try lia.
      intros width height. now apply encoder_header_of_blocks.
    + right. exists struct_error. intros width height.
      unfold Encoder.generate_astc_header. rewrite E. cbn [bind].
      unfold pack_16B. rewrite bool_decide_eq_true_2 by reflexivity.
      cbn [map pack_fields]. rewrite !pack_byte by (lia || exact Hx).
      cbn [bind]. unfold pack_field.
      change (2 ^ (8 * Z.of_nat 1)) with 256.
      destruct ((0 <=? by') && (by' <? 256)) eqn:Eb; [lia|reflexivity].
    + right. exists struct_error. intros width height.
      unfold Encoder.generate_astc_header. rewrite E. cbn [bind].
      unfold pack_16B. rewrite bool_decide_eq_true_2 by reflexivity.
      cbn [map pack_fields]. rewrite !pack_byte by lia.
      cbn [bind]. unfold pack_field.
      change (2 ^ (8 * Z.of_nat 1)) with 256.
      destruct ((0 <=? bx) && (bx <? 256)) eqn:Eb; [lia|reflexivity].
  - right. exists e. intros width height.
    unfold Encoder.generate_astc_header. now rewrite E.
Qed.

Lemma le_decode_dimension (z : Z) :
  le_decode [ byte_of_Z (Z.land z 0xFF);
              byte_of_Z (Z.land (Z.shiftr z 8) 0xFF);
              byte_of_Z (Z.land (Z.shiftr z 16) 0xFF) ]
  = z mod 2 ^ 24.
Proof.
  cbn [le_decode]. rewrite !Z_of_byte_of_Z.
  change 0xFF with (Z.ones 8). rewrite !Z.land_ones by lia.
  rewrite !Z.shiftr_div_pow2 by lia.
  change (2 ^ 8) with 256. change (2 ^ 16) with (256 * 256).
  change (2 ^ 24) with (256 * (256 * 256)).
  rewrite !Z.mod_mod by lia.
  rewrite (Z.rem_mul_r z 256 (256 * 256)) by lia.
  rewrite (Z.rem_mul_r (z / 256) 256 256) by lia.
  rewrite Z.div_div by lia. lia.
Qed.

Lemma generate_astc_header_inv (width height : Z) (astc_format : string)
    (header : bytes) :
  Encoder.generate_astc_header width height astc_format = Ok header ->
  exists block_x block_y,
    unpack2_map int (str_split astc_format "x") = Ok (block_x, block_y)
    /\ 0 <= block_x < 256 /\ 0 <= block_y < 256
    /\ header = astc_header_bytes width height block_x block_y.
Proof.
  intros H.
  destruct (generate_astc_header_cases astc_format)
    as [(bx & by' & Hb & Hx & Hy & Hall)|[e Hall]];
    rewrite Hall in H; [|discriminate].
  injection H as <-. now exists bx, by'.
Qed.

(** X1. The layout of a generated [.astc] header: the magic number
    13 AB A1 5C, the two block sizes of the format string and the depth 1,
    then width, height and depth as three bytes each, least significant
    byte first.  Width and height are reduced modulo 2^24 without any
    error: a value of 2^24 or more, or a negative one, is not rejected. *)
Theorem astc_header_layout (width height : Z) (astc_format : string)
    (header : bytes) :
  Encoder.generate_astc_header width height astc_format = Ok header ->
  length header = 16%nat
  /\ take 4 header = [x13; xab; xa1; x5c]
  /\ (exists block_x block_y,
        unpack2_map int (str_split astc_format "x") = Ok (block_x, block_y)
        /\ 0 <= block_x < 256 /\ 0 <= block_y < 256
        /\ Z_of_byte <$> take 3 (drop 4 header) = [block_x; block_y; 1])
  /\ le_decode (take 3 (drop 7 header)) = width mod 2 ^ 24
  /\ le_decode (take 3 (drop 10 header)) = height mod 2 ^ 24
  /\ le_decode (drop 13 header) = 1.
Proof.
  intros H.
  destruct (generate_astc_header_cases astc_format)
    as [(bx & by' & Hb & Hx & Hy & Hall)|[e Hall]];
    rewrite Hall in H; [|discriminate].
  injection H as <-.
  split; [reflexivity|]. split; [reflexivity|]. split; [|split; [|split]].
  - exists bx, by'. repeat split; try lia; try assumption.
    cbn. rewrite !Z_of_byte_of_Z. rewrite !Z.mod_small by lia. reflexivity.
  - apply le_decode_dimension.
  - apply le_decode_dimension.
  - reflexivity.
Qed.

Lemma astc_header_layout_witness :
  length sample_header = 16%nat
  /\ take 4 sample_header = [x13; xab; xa1; x5c]
  /\ (exists block_x block_y,
        unpack2_map int (str_split "4x4" "x") = Ok (block_x, block_y)
        /\ 0 <= block_x < 256 /\ 0 <= block_y < 256
        /\ Z_of_byte <$> take 3 (drop 4 sample_header) = [block_x; block_y; 1])
  /\ le_decode (take 3 (drop 7 sample_header)) = 4 mod 2 ^ 24
  /\ le_decode (take 3 (drop 10 sample_header)) = 4 mod 2 ^ 24
  /\ le_decode (drop 13 sample_header) = 1.
Proof.
  apply (astc_header_layout 4 4 "4x4" sample_header). reflexivity.
Defined.

(** X2. [generate_astc_header] never fails because of the width or the
    height: whether it returns a header or raises, and what it raises, is
    settled by the format string. *)
Theorem astc_header_outcome_by_format (astc_format : string)
    (width height width' height' : Z) :
  match Encoder.generate_astc_header width height astc_format,
        Encoder.generate_astc_header width' height' astc_format with
  | Ok header, Ok header' => take 7 header = take 7 header'
  | Raise e, Raise e' => e = e'
  | _, _ => False
  end.
Proof.
  destruct (generate_astc_header_cases astc_format)
    as [(bx & by' & _ & _ & _ & Hall)|[e Hall]]; rewrite !Hall; reflexivity.
Qed.

Lemma known_format_blocks_inj (name name' : string) (code code' : Z)
    (blocks : Z * Z) :
  (name, code) ∈ known_formats ->
  (name', code') ∈ known_formats ->
  unpack2_map int (str_split name "x") = Ok blocks ->
  unpack2_map int (str_split name' "x") = Ok blocks ->
  name = name'.
Proof.
  unfold known_formats. rewrite !elem_of_cons, !elem_of_nil.
  intros H H' Hb Hb'.
  repeat (destruct H as [H|H]; [injection H as -> _|]); [..|destruct H];
    vm_compute in Hb; injection Hb as <-;
    repeat (destruct H' as [H'|H']; [injection H' as -> _|]);
    try (destruct H'); first [reflexivity | vm_compute in Hb'; discriminate Hb'].
Qed.

(** X3. For the formats of the table and dimensions below 2^24, the
    header determines the format, the width and the height: two headers
    are equal only if all three agree.  So the comparison the writer makes
    between the codec's first sixteen bytes and the expected header fails
    for a frame compressed with another block size or at another size. *)
Theorem astc_header_injective (width height width' height' : Z)
    (astc_format astc_format' : string) (header : bytes) :
  is_Some (Encoder.ASTC_FORMAT_CODES !! astc_format) ->
  is_Some (Encoder.ASTC_FORMAT_CODES !! astc_format') ->
  0 <= width < 2 ^ 24 -> 0 <= height < 2 ^ 24 ->
  0 <= width' < 2 ^ 24 -> 0 <= height' < 2 ^ 24 ->
  Encoder.generate_astc_header width height astc_format = Ok header ->
  Encoder.generate_astc_header width' height' astc_format' = Ok header ->
  astc_format = astc_format' /\ width = width' /\ height = height'.
Proof.
  intros [code Hc] [code' Hc'] Hw Hh Hw' Hh' Hg Hg'.
  apply format_code_lookup in Hc, Hc'.
  destruct (generate_astc_header_inv _ _ _ _ Hg)
    as (bx & by' & Hb & Hx & Hy & ->).
  destruct (generate_astc_header_inv _ _ _ _ Hg')
    as (bx' & by'' & Hb' & Hx' & Hy' & Heq).
  pose proof (f_equal (fun h => Z_of_byte <$> take 2 (drop 4 h)) Heq) as Hblocks.
  pose proof (f_equal (fun h => le_decode (take 3 (drop 7 h))) Heq) as Hwd.
  pose proof (f_equal (fun h => le_decode (take 3 (drop 10 h))) Heq) as Hhd.
  cbv beta in Hblocks, Hwd, Hhd.
  change (take 3 (drop 7 (astc_header_bytes ?w ?h ?x ?y)))
    with [ byte_of_Z (Z.land w 0xFF); byte_of_Z (Z.land (Z.shiftr w 8) 0xFF);
           byte_of_Z (Z.land (Z.shiftr w 16) 0xFF) ] in Hwd.
  change (take 3 (drop 10 (astc_header_bytes ?w ?h ?x ?y)))
    with [ byte_of_Z (Z.land h 0xFF); byte_of_Z (Z.land (Z.shiftr h 8) 0xFF);
           byte_of_Z (Z.land (Z.shiftr h 16) 0xFF) ] in Hhd.
  rewrite !le_decode_dimension in Hwd, Hhd.
  rewrite !Z.mod_small in Hwd, Hhd by assumption.
  cbn in Hblocks. rewrite !Z_of_byte_of_Z in Hblocks.
  rewrite !Z.mod_small in Hblocks by lia.
  injection Hblocks as -> ->.
  split; [|split; congruence].
  eapply known_format_blocks_inj; eassumption.
Qed.

Lemma astc_header_injective_witness :
  "4x4" = "4x4" /\ 4 = 4 /\ 4 = 4.
Proof.
  apply (astc_header_injective 4 4 4 4 "4x4" "4x4" sample_header);
    first [ now eexists | lia | reflexivity ].
Defined.

(** X4. A format name that passed [check_astc_format], as [main] of the
    writer does before it calls [create_ffab_file_v1], is the lower-case
    form of the name given, passes the check again unchanged, has a code
    (between 1 and 14, which the reader's table sends back to the same
    name), and yields a header for every width and height: after the check
    the writer cannot fail on the format any more. *)
Theorem checked_format_is_usable (format_name astc_format : string)
    (width height : Z) :
  Encoder.check_astc_format format_name = Ok astc_format ->
  astc_format = str_lower format_name
  /\ Encoder.check_astc_format astc_format = Ok astc_format
  /\ (exists code,
        Encoder.get_astc_format_code astc_format = Ok code
        /\ 1 <= code <= 14
        /\ Decoder.ASTC_CODE_TO_FORMAT !! code = Some astc_format)
  /\ (exists header,
        Encoder.generate_astc_header width height astc_format = Ok header
        /\ length header = 16%nat).
Proof.
  unfold Encoder.check_astc_format.
  destruct (Encoder.ASTC_FORMAT_CODES !! str_lower format_name) as [code|] eqn:E;
    [|discriminate].
  intros [= <-]. pose proof E as Hin. apply format_code_lookup in Hin.
  pose proof (known_format_lower _ _ Hin) as Hlow.
  split; [reflexivity|]. split; [now rewrite Hlow, E|]. split.
  - exists code. destruct (encoder_format_code_known _ _ E) as [Hg Hr].
    split; [exact Hg|]. split; [exact Hr|]. now apply code_format_lookup.
  - apply (known_format_header width height _ _ Hin).
Qed.

Lemma checked_format_is_usable_witness :
  "6x6" = str_lower "6X6"
  /\ Encoder.check_astc_format "6x6" = Ok "6x6"
  /\ (exists code,
        Encoder.get_astc_format_code "6x6" = Ok code
        /\ 1 <= code <= 14
        /\ Decoder.ASTC_CODE_TO_FORMAT !! code = Some "6x6")
  /\ (exists header,
        Encoder.generate_astc_header 100 100 "6x6" = Ok header
        /\ length header = 16%nat).
Proof.
  apply (checked_format_is_usable "6X6" "6x6" 100 100). reflexivity.
Defined.

(** ** The size check of the writers *)

Lemma tools_dimensions_same (images : list (string * ndarray)) :
  ToolsEncoder.check_images_dimensions images
  = Encoder.check_images_dimensions images.
Proof. reflexivity. Qed.

(** X5. [check_images_dimensions], in both writers: it returns the width
    and the height of the first frame (in this order, the reverse of the
    array's shape) exactly when the list is not empty and every frame has
    that size; on an empty list it raises the no-image error; otherwise it
    raises the size error naming the first frame and the earliest frame
    whose size differs from it. *)
Theorem check_images_dimensions_spec (images : list (string * ndarray)) :
  ToolsEncoder.check_images_dimensions images
  = Encoder.check_images_dimensions images
  /\ (forall width height,
        Encoder.check_images_dimensions images = Ok (width, height)
        <-> exists first rest,
              images = first :: rest
              /\ width = Z.of_N (nd_width first.2)
              /\ height = Z.of_N (nd_height first.2)
              /\ Forall (fun img : string * ndarray =>
                           nd_width img.2 = nd_width first.2
                           /\ nd_height img.2 = nd_height first.2) rest)
  /\ (images = [] ->
      Encoder.check_images_dimensions images = Raise (ValueError no_images))
  /\ (forall first same other later,
        images = first :: same ++ other :: later ->
        Forall (fun img : string * ndarray =>
                  nd_width img.2 = nd_width first.2
                  /\ nd_height img.2 = nd_height first.2) same ->
        ~ (nd_width other.2 = nd_width first.2
           /\ nd_height other.2 = nd_height first.2) ->
        Encoder.check_images_dimensions images
        = Raise (ValueError (dimension_mismatch first.1 other.1))).
Proof.
  split; [reflexivity|]. split; [|split].
  - intros width height. rewrite encoder_dimensions_Ok. split.
    + intros [Hne Hall]. destruct images as [|first rest]; [congruence|].
      inversion Hall as [|? ? [Hw Hh] Hrest]; subst.
      exists first, rest. repeat split.
      eapply Forall_impl; [exact Hrest|]. intros img [Hw' Hh']. split; lia.
    + intros (first & rest & -> & -> & -> & Hall). split; [discriminate|].
      constructor; [split; reflexivity|].
      eapply Forall_impl; [exact Hall|]. intros img [Hw' Hh']. split; congruence.
  - intros ->. reflexivity.
  - intros [first_name first_data] same [other_name other_data] later -> Hsame Hdiff.
    cbn [Encoder.check_images_dimensions fst snd] in *.
    assert (Hrest :
      Encoder.check_images_dimensions_rest first_name
        (Z.of_N (nd_height first_data)) (Z.of_N (nd_width first_data))
        (same ++ (other_name, other_data) :: later)
      = Raise (ValueError (dimension_mismatch first_name other_name))).
    { induction Hsame as [|[n d] same [Hw Hh] _ IH].
      - cbn [app Encoder.check_images_dimensions_rest].
        destruct (Z.of_N (nd_height other_data) =? Z.of_N (nd_height first_data)) eqn:Eh;
          destruct (Z.of_N (nd_width other_data) =? Z.of_N (nd_width first_data)) eqn:Ew;
          cbn [negb orb]; try reflexivity.
        exfalso. apply Hdiff. split; lia.
      - cbn [app Encoder.check_images_dimensions_rest]. simpl in Hw, Hh.
        rewrite Hw, Hh, !Z.eqb_refl. cbn [negb orb]. exact IH. }
    now rewrite Hrest.
Qed.

(** ** The reader on short and on damaged files *)

Lemma info_header_short (disk : fs) (file_path : string) (content : bytes) :
  disk !! file_path = Some content ->
  (length content < 4)%nat ->
  Info.read_ffab_header disk file_path = Raise struct_error.
Proof.
  intros Hf Hlen. unfold Info.read_ffab_header, open_rb. rewrite Hf.
  destruct content as [|b0 [|b1 [|b2 [|b3 rest]]]]; simpl in Hlen; try lia;
    reflexivity.
Qed.

Lemma meta_short (disk : fs) (file_path : string) (content : bytes) :
  disk !! file_path = Some content ->
  (length content < 12)%nat ->
  Decoder.read_ffab_meta disk file_path = Raise struct_error
  /\ Info.read_ffab_meta disk file_path = Raise struct_error.
Proof.
  intros Hf Hlen.
  unfold Decoder.read_ffab_meta, Info.read_ffab_meta, open_rb. rewrite Hf.
  do 12 (destruct content as [|? content]; [split; reflexivity|]).
  simpl in Hlen. lia.
Qed.

(** X6. Truncation inside the fixed-size parts.  A file shorter than 4
    bytes makes both header readers raise [struct.error]; the meta block
    is read exactly when the file has at least 12 bytes, and raises
    [struct.error] otherwise; an index table of [n > 0] entries is read
    exactly when the file has at least [12 + 12 * n] bytes, and raises
    [struct.error] otherwise; for [n <= 0] the index is the empty list,
    whatever the file holds. *)
Theorem truncated_fixed_parts (disk : fs) (file_path : string)
    (content : bytes) (n : Z) :
  disk !! file_path = Some content ->
  ((length content < 4)%nat ->
   Decoder.read_ffab_header disk file_path = Raise struct_error
   /\ Info.read_ffab_header disk file_path = Raise struct_error)
  /\ ((length content < 12)%nat ->
      Decoder.read_ffab_meta disk file_path = Raise struct_error
      /\ Info.read_ffab_meta disk file_path = Raise struct_error)
  /\ ((12 <= length content)%nat ->
      is_ok (Decoder.read_ffab_meta disk file_path) = true
      /\ is_ok (Info.read_ffab_meta disk file_path) = true)
  /\ (n <= 0 -> Decoder.read_ffab_index_table disk file_path n = Ok [])
  /\ (0 < n -> Z.of_nat (length content) < 12 + 12 * n ->
      Decoder.read_ffab_index_table disk file_path n = Raise struct_error)
  /\ (0 < n -> 12 + 12 * n <= Z.of_nat (length content) ->
      exists index_entries,
        Decoder.read_ffab_index_table disk file_path n = Ok index_entries
        /\ Z.of_nat (length index_entries) = n).
Proof.
  intros Hf.
  split; [|split; [|split; [|split; [|split]]]].
  - intros Hlen. split; [now apply (decoder_header_short _ _ content)|].
    now apply (info_header_short _ _ content).
  - intros Hlen. now apply (meta_short _ _ content).
  - intros Hlen.
    rewrite (decoder_meta_of_content _ _ _ Hf Hlen).
    rewrite (info_meta_of_content _ _ _ Hf Hlen). split; reflexivity.
  - intros Hn. unfold Decoder.read_ffab_index_table, open_rb. rewrite Hf.
    cbn [bind]. rewrite seek_nonneg by lia. cbn [bind].
    replace (Z.to_nat n) with 0%nat by lia. reflexivity.
  - intros Hn Hlen. unfold Decoder.read_ffab_index_table, open_rb. rewrite Hf.
    cbn [bind]. rewrite seek_nonneg by lia. cbn [bind f_content].
    apply read_index_entries_short; [lia|].
    change (Z.to_nat (4 + 8)) with 12%nat. lia.
  - intros Hn Hlen.
    destruct (read_index_entries_any (Z.to_nat n) content 12 [])
      as (entries & Hr & Hcount & _); [lia|].
    exists entries. split; [|lia].
    unfold Decoder.read_ffab_index_table, open_rb. rewrite Hf.
    cbn [bind]. rewrite seek_nonneg by lia. cbn [bind f_content].
    exact Hr.
Qed.

Lemma truncated_fixed_parts_witness :
  Decoder.read_ffab_index_table {[ "cut.ffab" := take 30 sample_content ]}
    "cut.ffab" 2 = Raise struct_error.
Proof.
  apply (truncated_fixed_parts {[ "cut.ffab" := take 30 sample_content ]}
           "cut.ffab" (take 30 sample_content) 2).
  - reflexivity.
  - lia.
  - vm_compute. reflexivity.
Defined.

(** What [open_ffab] has established when it returns. *)
Lemma open_ffab_Ok_inv (disk : fs) (file_path : string)
    (image_count width height : Z) (astc_format : string)
    (index_entries : list (Z * Z)) :
  Decoder.open_ffab disk file_path
  = Ok (image_count, width, height, astc_format, index_entries) ->
  exists code,
    Decoder.read_ffab_header disk file_path = Ok 1
    /\ Decoder.read_ffab_meta disk file_path
       = Ok (image_count, width, height, code)
    /\ Decoder.ASTC_CODE_TO_FORMAT !! code = Some astc_format
    /\ Decoder.read_ffab_index_table disk file_path image_count
       = Ok index_entries
    /\ Forall (fun e => 0 <= e.1 /\ 0 <= e.2) index_entries.
Proof.
  unfold Decoder.open_ffab, bind.
  destruct (Decoder.read_ffab_header disk file_path) as [version|] eqn:Eh;
    [|discriminate].
  destruct (version =? Decoder.FFAB_VERSION_0x0001) eqn:Ev; [|discriminate].
  destruct (Decoder.read_ffab_meta disk file_path) as [[[[n w] h] code]|] eqn:Em;
    [|discriminate].
  destruct (Decoder.ASTC_CODE_TO_FORMAT !! code) as [name|] eqn:Ec;
    [|discriminate].
  destruct (Decoder.read_ffab_index_table disk file_path n) as [entries|] eqn:Ei;
    [|discriminate].
  intros [= <- <- <- <- <-].
  exists code. apply Z.eqb_eq in Ev. subst version.
  repeat split; try assumption.
  clear -Ei. unfold Decoder.read_ffab_index_table, bind in Ei.
  destruct (open_rb disk file_path) as [f|]; [|discriminate].
  destruct (seek f (4 + 8)) as [f'|]; [|discriminate].
  pose proof (read_index_entries_inv (Z.to_nat n) f' []) as Hinv.
  rewrite Ei in Hinv. destruct Hinv as (new & -> & _ & Hall). exact Hall.
Qed.

(** X7. The exceptions of the reads before the loop.  On a file that
    opens for reading, what [decode_ffab_file] raises between the creation
    of the output folder and its loop, while it reads the header, the meta
    block, the format name and the index table, is one of: a
    [struct.error] (a short file), the magic-number error, the version
    error (for a version other than 1) or the unknown-code error (for a
    code outside 1..14).  In particular the assertion on the version never
    fails. *)
Theorem open_ffab_errors (disk : fs) (file_path : string) (content : bytes)
    (e : exn) :
  disk !! file_path = Some content ->
  Decoder.open_ffab disk file_path = Raise e ->
  e = struct_error
  \/ e = ValueError magic_mismatch
  \/ (exists version, e = ValueError (unsupported_version version)
                      /\ version <> 0x0001)
  \/ (exists code, e = ValueError (unknown_astc_code code)
                   /\ ~ (1 <= code <= 14)).
Proof.
  intros Hf. unfold Decoder.open_ffab.
  destruct (decide (4 <= length content)%nat) as [H4|H4].
  2:{ rewrite (decoder_header_short _ _ _ Hf) by lia. cbn [bind].
      intros [= <-]. auto. }
  rewrite (decoder_header_of_content _ _ _ Hf H4). cbv zeta.
  destruct (be_decode (take 2 content) =? 65451) eqn:Em; cbn [negb bind].
  2:{ intros [= <-]. auto. }
  destruct (be_decode (take 2 (drop 2 content)) =? 1) eqn:Ev; cbn [negb bind].
  2:{ intros [= <-]. do 2 right. left. eexists. split; [reflexivity|lia]. }
  apply Z.eqb_eq in Ev. rewrite Ev.
  change (1 =? Decoder.FFAB_VERSION_0x0001) with true. cbn [bind].
  destruct (Decoder.read_ffab_meta disk file_path) as [[[[n w] h] code]|e1] eqn:Emeta;
    cbn [bind].
  2:{ destruct (decide (12 <= length content)%nat) as [H12|H12].
      - rewrite (decoder_meta_of_content _ _ _ Hf H12) in Emeta. discriminate.
      - destruct (meta_short disk file_path content Hf) as [Hs _]; [lia|].
        rewrite Hs in Emeta.
        injection Emeta as <-. intros [= <-]. auto. }
  destruct (Decoder.ASTC_CODE_TO_FORMAT !! code) as [name|] eqn:Ec; cbn [bind].
  2:{ intros [= <-]. do 3 right. exists code. split; [reflexivity|].
      intros Hr. apply code_known_iff in Hr as [x Hx]. congruence. }
  unfold Decoder.read_ffab_index_table, open_rb. rewrite Hf. cbn [bind].
  rewrite seek_nonneg by lia. cbn [bind].
  match goal with
  | |- context [Decoder.read_index_entries ?k ?f ?acc] =>
      pose proof (read_index_entries_inv k f acc) as Hinv;
      destruct (Decoder.read_index_entries k f acc) as [entries|e2]
  end; cbn [bind]; [discriminate|].
  intros [= <-]. auto.
Qed.

Lemma open_ffab_errors_witness :
  struct_error = struct_error
  \/ struct_error = ValueError magic_mismatch
  \/ (exists version, struct_error = ValueError (unsupported_version version)
                      /\ version <> 0x0001)
  \/ (exists code, struct_error = ValueError (unknown_astc_code code)
                   /\ ~ (1 <= code <= 14)).
Proof.
  apply (open_ffab_errors {[ "cut.ffab" := take 30 sample_content ]}
           "cut.ffab" (take 30 sample_content) struct_error).
  - vm_compute. reflexivity.
  - vm_compute. reflexivity.
Defined.

(** ** The loop of the decoder *)

Section DecodeLoop.

Variable astcenc_dl : bytes -> result ndarray.

Lemma decode_frames_app (disk : fs) (file_path : string) (width height : Z)
    (astc_format : string) (first rest : list (Z * Z)) (i : Z)
    (saved : list (string * ndarray)) :
  Decoder.decode_frames astcenc_dl disk file_path width height astc_format
    i (first ++ rest) saved
  = match Decoder.decode_frames astcenc_dl disk file_path width height
            astc_format i first saved with
    | (saved', Ok _) =>
        Decoder.decode_frames astcenc_dl disk file_path width height
          astc_format (i + Z.of_nat (length first)) rest saved'
    | (saved', Raise e) => (saved', Raise e)
    end.
Proof.
  revert i saved. induction first as [|[offset data_length] first IH];
    intros i saved.
  - cbn [app length Decoder.decode_frames]. now rewrite Z.add_0_r.
  - cbn [app length Decoder.decode_frames].
    destruct (bind _ _) as [img_array|e]; [|reflexivity].
    rewrite IH. replace (i + 1 + Z.of_nat (length first))
      with (i + Z.of_nat (S (length first))) by lia.
    reflexivity.
Qed.

End DecodeLoop.

(** X8. Decoding stops at the first frame the codec rejects and keeps
    what it did before: if the entries [served] and the next one start at
    or before the end of the file, the codec accepts the frames of
    [served] and raises on the next entry, then [decode_ffab_file] ends
    with that exception, the frames of [served] have been saved under the
    names frame_0000.png, frame_0001.png, ... in index order, and no later
    entry is looked at. *)
Theorem decode_stops_at_first_failure (astcenc_dl : bytes -> result ndarray)
    (disk : fs) (file_path : string) (content : bytes)
    (image_count width height : Z) (astc_format : string)
    (served : list (Z * Z)) (failing : Z * Z) (later : list (Z * Z))
    (astc_header : bytes) (e : exn) :
  disk !! file_path = Some content ->
  Decoder.open_ffab disk file_path
  = Ok (image_count, width, height, astc_format, served ++ failing :: later) ->
  Decoder.generate_astc_header width height astc_format = Ok astc_header ->
  Forall (fun entry => entry.1 <= Z.of_nat (length content)) served ->
  failing.1 <= Z.of_nat (length content) ->
  Forall (fun entry =>
            is_ok (astcenc_dl (astc_header ++ slice content entry.1 entry.2))
            = true) served ->
  astcenc_dl (astc_header ++ slice content failing.1 failing.2) = Raise e ->
  exists frames,
    Decoder.decode_ffab_file astcenc_dl disk file_path = (frames, Raise e)
    /\ length frames = length served
    /\ forall (k : nat) (entry : Z * Z),
         served !! k = Some entry ->
         exists img_array,
           frames !! k
           = Some (Decoder.output_filename (Z.of_nat k), img_array)
           /\ astcenc_dl (astc_header ++ slice content entry.1 entry.2)
              = Ok img_array.
Proof.
  intros Hf Hopen Hg Hinside Hinside' Hserved Hfail.
  destruct (open_ffab_Ok_inv _ _ _ _ _ _ _ Hopen) as (code & _ & _ & _ & _ & Hpos).
  apply Forall_app in Hpos as [Hpos1 Hpos2].
  inversion Hpos2 as [|? ? [Ho Hl] _]; subst.
  destruct (decode_frames_served astcenc_dl disk file_path content
              width height astc_format astc_header served 0 [] Hf Hg Hpos1 Hserved)
    as (frames & Hd & Hn & Hk).
  exists frames. split; [|split; [exact Hn|]].
  - unfold Decoder.decode_ffab_file. rewrite Hopen.
    rewrite decode_frames_app, Hd. cbn [app Decoder.decode_frames].
    destruct failing as [offset data_length]. simpl in Ho, Hl, Hfail.
    rewrite (read_compressed_image_data_slice _ _ _ _ _ Hf Ho Hl).
    cbn [bind]. unfold Decoder.decode_astc_data. rewrite Hg. cbn [bind].
    now rewrite Hfail.
  - intros k entry Hlook. destruct (Hk k entry Hlook) as (img & Hi & Himg).
    exists img. split; [|exact Himg]. rewrite Hi. reflexivity.
Qed.

(** X10. A container without frames.  A file with a good header, a known
    format code and a frame count of 0 needs no more than its twelve
    bytes: it is decoded to no frame at all, without error and without the
    codec being run. *)
Theorem decode_empty_container (astcenc_dl : bytes -> result ndarray)
    (disk : fs) (file_path : string) (content : bytes) :
  disk !! file_path = Some content ->
  (12 <= length content)%nat ->
  be_decode (take 2 content) = 0xFFAB ->
  be_decode (take 2 (drop 2 content)) = 0x0001 ->
  be_decode (take 2 (drop 4 content)) = 0 ->
  1 <= be_decode (take 2 (drop 10 content)) <= 14 ->
  Decoder.decode_ffab_file astcenc_dl disk file_path = ([], Ok tt).
Proof.
  intros Hf Hlen Hmagic Hversion Hcount Hcode.
  apply code_known_iff in Hcode as [name Hname].
  destruct (open_ffab_of_content disk file_path content name
              Hf Hlen Hmagic Hversion Hname)
    as (entries & Hopen & _ & Hn & _); [lia|].
  unfold Decoder.decode_ffab_file. rewrite Hopen.
  destruct entries; [reflexivity|]. simpl in Hn. lia.
Qed.

Lemma decode_stops_at_first_failure_witness :
  exists frames,
    Decoder.decode_ffab_file picky_astcenc_dl sample_disk "out.ffab"
    = (frames, Raise (RuntimeError "short"))
    /\ length frames = length [(36, 3)]
    /\ forall (k : nat) (entry : Z * Z),
         [(36, 3)] !! k = Some entry ->
         exists img_array,
           frames !! k
           = Some (Decoder.output_filename (Z.of_nat k), img_array)
           /\ picky_astcenc_dl
                (sample_header ++ slice sample_content entry.1 entry.2)
              = Ok img_array.
Proof.
  apply (decode_stops_at_first_failure picky_astcenc_dl sample_disk "out.ffab"
           sample_content 2 4 4 "4x4" [(36, 3)] (39, 2) [] sample_header
           (RuntimeError "short")).
  - vm_compute. reflexivity.
  - vm_compute. reflexivity.
  - reflexivity.
  - repeat constructor. vm_compute. discriminate.
  - vm_compute. discriminate.
  - repeat constructor.
  - vm_compute. reflexivity.
Defined.

Lemma decode_empty_container_witness :
  Decoder.decode_ffab_file picky_astcenc_dl empty_container_disk "empty.ffab"
  = ([], Ok tt).
Proof.
  apply (decode_empty_container picky_astcenc_dl empty_container_disk
           "empty.ffab"
           (be_encode 2 0xFFAB ++ be_encode 2 0x0001 ++ be_encode 2 0
            ++ be_encode 2 4 ++ be_encode 2 4 ++ be_encode 2 0x0001)).
  - reflexivity.
  - vm_compute. lia.
  - vm_compute. reflexivity.
  - vm_compute. reflexivity.
  - vm_compute. reflexivity.
  - vm_compute. split; discriminate.
Defined.

(** ** More on the files the writers produce *)

Lemma declared_size_stored (start : Z) (payloads : list bytes) :
  declared_size (stored_index start payloads)
  = Z.of_nat (length (concat payloads)).
Proof.
  revert start. induction payloads as [|p payloads IH]; intros start;
    [reflexivity|].
  rewrite stored_index_cons. cbn [declared_size foldr concat snd].
  fold (declared_size (stored_index (start + Z.of_nat (length p)) payloads)).
  rewrite IH, length_app. lia.
Qed.

Lemma stored_index_bounds (start : Z) (payloads : list bytes) :
  Forall (fun entry =>
            start <= entry.1
            /\ entry.1 + entry.2
               <= start + Z.of_nat (length (concat payloads)))
         (stored_index start payloads)
  /\ (forall entry, last (stored_index start payloads) = Some entry ->
        entry.1 + entry.2 = start + Z.of_nat (length (concat payloads))).
Proof.
  revert start. induction payloads as [|p payloads IH]; intros start.
  - split; [constructor | discriminate].
  - rewrite stored_index_cons. cbn [concat]. rewrite length_app.
    destruct (IH (start + Z.of_nat (length p))) as [Hall Hlast]. split.
    + constructor; [simpl; lia|].
      eapply Forall_impl; [exact Hall|]. intros e [H1 H2]. lia.
    + intros entry He.
      destruct (stored_index (start + Z.of_nat (length p)) payloads)
        as [|e0 es] eqn:Es.
      * destruct payloads; [|discriminate Es].
        injection He as <-. simpl. lia.
      * rewrite last_cons_cons in He. specialize (Hlast entry He). lia.
Qed.

Lemma written_size_and_bounds (disk : fs) (file_path : string)
    (width height code : Z) (meta : bytes) (payloads : list bytes) :
  pack_HHHH (Z.of_nat (length payloads)) width height code = Ok meta ->
  Forall (fun e => 0 <= e.1 < 2 ^ 64 /\ 0 <= e.2 < 2 ^ 32)
         (stored_index (4 + 8 + Z.of_nat (length payloads) * 12) payloads) ->
  let content :=
    concat [ be_encode 2 0xFFAB ++ be_encode 2 0x0001; meta;
             concat (entry_bytes <$>
                       stored_index
                         (4 + 8 + Z.of_nat (length payloads) * 12) payloads);
             concat payloads ] in
  exists index_entries,
    Decoder.read_ffab_index_table (<[file_path := content]> disk) file_path
      (Z.of_nat (length payloads)) = Ok index_entries
    /\ Z.of_nat (length content)
       = 4 + 8 + 12 * Z.of_nat (length payloads) + declared_size index_entries
    /\ Forall (fun entry =>
                 4 + 8 + 12 * Z.of_nat (length payloads) <= entry.1
                 /\ entry.1 + entry.2 <= Z.of_nat (length content))
              index_entries
    /\ (forall entry, last index_entries = Some entry ->
          entry.1 + entry.2 = Z.of_nat (length content)).
Proof.
  intros Hmeta Hrange content.
  set (n := Z.of_nat (length payloads)) in *.
  exists (stored_index (4 + 8 + n * 12) payloads).
  destruct (unpack_pack_HHHH _ _ _ _ _ Hmeta) as [_ Hlen].
  assert (Hsize : Z.of_nat (length content)
                  = 4 + 8 + n * 12 + Z.of_nat (length (concat payloads))).
  { unfold content. cbn [concat].
    rewrite app_nil_r, !length_app, !length_be_encode, Hlen.
    rewrite length_concat_entries, length_stored_index.
    subst n. lia. }
  destruct (stored_index_bounds (4 + 8 + n * 12) payloads) as [Hall Hlast].
  split; [|split; [|split]].
  - eapply written_index; [apply lookup_insert_eq | reflexivity | exact Hmeta
                          | exact Hrange].
  - rewrite declared_size_stored, Hsize. lia.
  - eapply Forall_impl; [exact Hall|]. intros e [H1 H2]. rewrite Hsize. lia.
  - intros entry He. rewrite Hsize. now apply Hlast.
Qed.

(** X11. The index of a written file stays inside the file and covers the
    data region exactly.  In every container either writer produces, the
    file size is [4 + 8 + 12 * n] plus the sum of the declared lengths,
    every entry starts at or after the end of the index table and ends at
    or before the end of the file, and the last entry ends exactly at the
    end of the file. *)
Theorem written_index_in_bounds (float : Type)
    (compress_with_astc : ndarray -> string -> float -> result bytes)
    (tools_compress_with_astc : ndarray -> string -> result bytes)
    (disk disk' : fs) (images : list (string * ndarray))
    (output_path astc_format : string) (quality : float) :
  Encoder.create_ffab_file_v1 float compress_with_astc disk images
    output_path astc_format quality = (Ok tt, disk')
  \/ ToolsEncoder.create_ffab_file_v1 tools_compress_with_astc disk images
       output_path astc_format = (Ok tt, disk') ->
  exists content index_entries,
    disk' !! output_path = Some content
    /\ Decoder.read_ffab_index_table disk' output_path
         (Z.of_nat (length images)) = Ok index_entries
    /\ Z.of_nat (length content)
       = 4 + 8 + 12 * Z.of_nat (length images) + declared_size index_entries
    /\ Forall (fun entry =>
                 4 + 8 + 12 * Z.of_nat (length images) <= entry.1
                 /\ entry.1 + entry.2 <= Z.of_nat (length content))
              index_entries
    /\ (forall entry, last index_entries = Some entry ->
          entry.1 + entry.2 = Z.of_nat (length content)).
Proof.
  intros [H|H].
  - apply encoder_create_Ok in H as (chunks & Hb & ->).
    apply encoder_build_Ok in Hb
      as (width & height & code & hdr & meta & payloads
          & _ & _ & Hm & _ & Hc & Hr & ->).
    rewrite (Forall2_length _ _ _ Hc) in *.
    destruct (written_size_and_bounds disk output_path width height code meta
                payloads Hm Hr) as (entries & H1 & H2 & H3 & H4).
    eexists _, entries. split; [apply lookup_insert_eq|]. auto.
  - apply tools_create_Ok in H as (chunks & Hb & ->).
    apply tools_build_Ok in Hb
      as (width & height & code & meta & payloads & _ & _ & Hm & Hc & Hr & ->).
    rewrite (Forall2_length _ _ _ Hc) in *.
    destruct (written_size_and_bounds disk output_path width height code meta
                payloads Hm Hr) as (entries & H1 & H2 & H3 & H4).
    eexists _, entries. split; [apply lookup_insert_eq|]. auto.
Qed.

Lemma written_index_in_bounds_witness :
  exists content index_entries,
    sample_disk !! "out.ffab" = Some content
    /\ Decoder.read_ffab_index_table sample_disk "out.ffab"
         (Z.of_nat (length sample_images)) = Ok index_entries
    /\ Z.of_nat (length content)
       = 4 + 8 + 12 * Z.of_nat (length sample_images)
         + declared_size index_entries
    /\ Forall (fun entry =>
                 4 + 8 + 12 * Z.of_nat (length sample_images) <= entry.1
                 /\ entry.1 + entry.2 <= Z.of_nat (length content))
              index_entries
    /\ (forall entry, last index_entries = Some entry ->
          entry.1 + entry.2 = Z.of_nat (length content)).
Proof.
  apply (written_index_in_bounds unit sample_compress sample_tools_compress
           ∅ sample_disk sample_images "out.ffab" "4x4" tt).
  left. vm_compute. reflexivity.
Defined.

(** X12. The writer of [tools/ffab_encoder.py] stores what the codec
    returned, unchanged.  After a successful run the file is accepted by
    the reader's header check, its meta block gives the number of frames,
    and entry [i] of its index has the length of the codec's output for
    frame [i] and designates exactly that output: nothing is stripped and
    nothing is compared. *)
Theorem tools_writer_stores_codec_output
    (compress_with_astc : ndarray -> string -> result bytes)
    (disk disk' : fs) (images : list (string * ndarray))
    (output_path astc_format : string) :
  ToolsEncoder.create_ffab_file_v1 compress_with_astc disk images
    output_path astc_format = (Ok tt, disk') ->
  exists width height code index_entries,
    Decoder.read_ffab_header disk' output_path = Ok 1
    /\ Decoder.read_ffab_meta disk' output_path
       = Ok (Z.of_nat (length images), width, height, code)
    /\ ToolsEncoder.get_astc_format_code astc_format = Ok code
    /\ Decoder.read_ffab_index_table disk' output_path
         (Z.of_nat (length images)) = Ok index_entries
    /\ Forall2
         (fun (img : string * ndarray) (entry : Z * Z) =>
            exists output,
              compress_with_astc img.2 astc_format = Ok output
              /\ entry.2 = Z.of_nat (length output)
              /\ Decoder.read_compressed_image_data disk' output_path
                   entry.1 entry.2 = Ok output)
         images index_entries.
Proof.
  intros H.
  apply tools_create_Ok in H as (chunks & Hb & ->).
  apply tools_build_Ok in Hb
    as (width & height & code & meta & payloads & _ & Hf & Hm & Hc & Hr & ->).
  pose proof (Forall2_length _ _ _ Hc) as Hlen.
  set (n := Z.of_nat (length images)) in *.
  assert (Hcnt : n = Z.of_nat (length payloads)) by (subst n; now rewrite Hlen).
  match goal with
  | |- context [<[output_path := ?c]> disk] => set (content := c)
  end.
  assert (Hfile : (<[output_path := content]> disk) !! output_path
                  = Some content) by apply lookup_insert_eq.
  exists width, height, code, (stored_index (4 + 8 + n * 12) payloads).
  split; [exact (written_header _ _ _ _ _ Hfile)|].
  split; [exact (written_meta _ _ _ _ _ _ _ _ Hfile Hm)|].
  split; [exact Hf|].
  split; [exact (written_index _ _ _ _ _ _ _ _ Hfile Hcnt Hm Hr)|].
  apply Forall2_same_length_lookup. split.
  - rewrite length_stored_index. exact Hlen.
  - intros i img entry Hi He.
    destruct (Forall2_lookup_l _ _ _ _ _ Hc Hi) as (payload & Hp & Hcodec).
    destruct (written_frames _ _ _ _ _ _ _ _ Hfile Hcnt Hm i payload Hp)
      as (offset & Hlook & Hread).
    rewrite Hlook in He. injection He as <-.
    exists payload. repeat split; assumption.
Qed.

Lemma tools_writer_stores_codec_output_witness :
  exists width height code index_entries,
    Decoder.read_ffab_header sample_tools_disk "out.ffab" = Ok 1
    /\ Decoder.read_ffab_meta sample_tools_disk "out.ffab"
       = Ok (Z.of_nat (length sample_images), width, height, code)
    /\ ToolsEncoder.get_astc_format_code "4x4" = Ok code
    /\ Decoder.read_ffab_index_table sample_tools_disk "out.ffab"
         (Z.of_nat (length sample_images)) = Ok index_entries
    /\ Forall2
         (fun (img : string * ndarray) (entry : Z * Z) =>
            exists output,
              sample_tools_compress img.2 "4x4" = Ok output
              /\ entry.2 = Z.of_nat (length output)
              /\ Decoder.read_compressed_image_data sample_tools_disk
                   "out.ffab" entry.1 entry.2 = Ok output)
         sample_images index_entries.
Proof.
  apply (tools_writer_stores_codec_output sample_tools_compress ∅
           sample_tools_disk sample_images "out.ffab" "4x4").
  vm_compute. reflexivity.
Defined.

Lemma stored_index_lengths (start : Z) (payloads : list bytes) :
  Forall (fun e => 0 <= e.1 < 2 ^ 64 /\ 0 <= e.2 < 2 ^ 32)
         (stored_index start payloads) ->
  Forall (fun p : bytes => Z.of_nat (length p) < 2 ^ 32) payloads.
Proof.
  revert start. induction payloads as [|p payloads IH]; intros start H;
    [constructor|].
  rewrite stored_index_cons in H. inversion H as [|? ? [_ Hl] Hrest]; subst.
  constructor; [simpl in Hl; lia|]. eapply IH, Hrest.
Qed.

Lemma stored_index_in_range (start : Z) (payloads : list bytes) :
  0 <= start ->
  start + Z.of_nat (length (concat payloads)) < 2 ^ 64 ->
  Forall (fun p : bytes => Z.of_nat (length p) < 2 ^ 32) payloads ->
  Forall (fun e => 0 <= e.1 < 2 ^ 64 /\ 0 <= e.2 < 2 ^ 32)
         (stored_index start payloads).
Proof.
  intros Hs He Hsizes. revert start Hs He.
  induction Hsizes as [|p payloads Hp _ IH]; intros s Hs He; [constructor|].
  rewrite stored_index_cons. cbn [concat] in He. rewrite length_app in He.
  constructor; [simpl; lia|]. apply IH; lia.
Qed.

(** The writer of [ffab_encoder.py] raises nothing before it opens the
    output file under the conditions below, and has then the four chunks
    to write. *)
Lemma encoder_build_total (float : Type)
    (compress_with_astc : ndarray -> string -> float -> result bytes)
    (images : list (string * ndarray))
    (astc_format : string) (quality : float)
    (width height code : Z) (astc_header : bytes) (payloads : list bytes) :
  images <> [] ->
  Z.of_nat (length images) <= 65535 ->
  Forall (fun img => Z.of_N (nd_width img.2) = width
                     /\ Z.of_N (nd_height img.2) = height) images ->
  width <= 65535 -> height <= 65535 ->
  Encoder.ASTC_FORMAT_CODES !! astc_format = Some code ->
  Encoder.generate_astc_header width height astc_format = Ok astc_header ->
  Forall2 (fun img payload =>
             compress_with_astc img.2 astc_format quality
             = Ok (astc_header ++ payload)
             /\ Z.of_nat (length payload) < 2 ^ 32) images payloads ->
  exists meta,
    pack_HHHH (Z.of_nat (length images)) width height code = Ok meta
    /\ Encoder.build_ffab_v1 float compress_with_astc images astc_format
         quality
       = Ok [ be_encode 2 0xFFAB ++ be_encode 2 0x0001; meta;
              concat (entry_bytes <$>
                        stored_index
                          (4 + 8 + Z.of_nat (length images) * 12) payloads);
              concat payloads ].
Proof.
  intros Hne Hn Hdims Hw Hh Hfmt Hhdr Hcodec.
  pose proof (Forall2_length _ _ _ Hcodec) as Hlen.
  assert (Hwh : 0 <= width /\ 0 <= height).
  { destruct images as [|img images]; [congruence|].
    inversion Hdims as [|? ? [Hw0 Hh0] _]; subst. lia. }
  destruct (encoder_format_code_known _ _ Hfmt) as [Hcode Hcr].
  assert (Hsizes : Forall (fun p : bytes => Z.of_nat (length p) < 2 ^ 32) payloads).
  { clear -Hcodec. induction Hcodec as [|? ? ? ? [_ Hl] _ IH]; constructor; auto. }
  pose proof (length_concat_bound _ _ Hsizes) as Htot.
  set (n := Z.of_nat (length images)) in *.
  assert (Hmeta : pack_HHHH n width height code
                  = Ok (be_encode 2 n ++ be_encode 2 width
                        ++ be_encode 2 height ++ be_encode 2 code ++ [])).
  { unfold pack_HHHH. cbn [pack_fields]. unfold bind.
    rewrite !pack_field_fits
      by (change (2 ^ (8 * Z.of_nat 2)) with 65536; lia).
    reflexivity. }
  eexists. split; [exact Hmeta|].
  unfold Encoder.build_ffab_v1.
  destruct images as [|img images]; [congruence|].
  set (imgs := img :: images) in *.
  rewrite (proj2 (encoder_dimensions_Ok imgs width height) (conj Hne Hdims)).
  cbn [bind]. rewrite Hcode. cbn [bind].
  change (pack_HH Encoder.FFAB_MAGIC 1)
    with (@Ok bytes (be_encode 2 0xFFAB ++ be_encode 2 0x0001 ++ [])).
  cbn [bind]. fold n. rewrite Hmeta. cbn [bind]. rewrite Hhdr. cbn [bind].
  rewrite (encoder_frames_total float compress_with_astc astc_format quality
             astc_header imgs payloads (4 + 8 + n * 12) [] []).
  - reflexivity.
  - eapply generate_astc_header_length, Hhdr.
  - exact Hcodec.
  - lia.
  - rewrite <- Hlen in Htot. fold n in Htot.
    change (2 ^ 32) with 4294967296 in Htot.
    change (2 ^ 64) with 18446744073709551616. lia.
Qed.

(** X13. When the writer of [ffab_encoder.py] gets as far as its output
    file.  [create_ffab_file_v1] passes all its checks and the compression
    of every frame, and so reaches [open(output_path, 'wb')] with the
    header, the meta block, the index table and the data to write, exactly
    when the list of frames is not empty and has at most 65535 frames, all
    frames have one width and one height of at most 65535, the format
    string is a name of the table (in lower case), and the codec returns,
    for each frame, the expected sixteen-byte header followed by less than
    2^32 bytes.  In every other case it raises before the output file is
    opened; in particular the conditions hold whenever it returns
    normally. *)
Theorem writer_reaches_output_exactly_when (float : Type)
    (compress_with_astc : ndarray -> string -> float -> result bytes)
    (images : list (string * ndarray)) (astc_format : string)
    (quality : float) :
  ((exists chunks,
      Encoder.build_ffab_v1 float compress_with_astc images astc_format
        quality = Ok chunks)
   <-> exists width height code astc_header payloads,
         images <> []
         /\ Z.of_nat (length images) <= 65535
         /\ Forall (fun img => Z.of_N (nd_width img.2) = width
                               /\ Z.of_N (nd_height img.2) = height) images
         /\ width <= 65535 /\ height <= 65535
         /\ Encoder.ASTC_FORMAT_CODES !! astc_format = Some code
         /\ Encoder.generate_astc_header width height astc_format
            = Ok astc_header
         /\ Forall2 (fun img payload =>
                       compress_with_astc img.2 astc_format quality
                       = Ok (astc_header ++ payload)
                       /\ Z.of_nat (length payload) < 2 ^ 32) images payloads)
  /\ (forall (disk : fs) (output_path : string),
        (Encoder.create_ffab_file_v1 float compress_with_astc disk images
           output_path astc_format quality).1 = Ok tt ->
        exists chunks,
          Encoder.build_ffab_v1 float compress_with_astc images astc_format
            quality = Ok chunks).
Proof.
  split; [split|].
  - intros [chunks Hb].
    apply encoder_build_Ok in Hb
      as (width & height & code & hdr & meta & payloads
          & Hd & Hf & Hm & Hg & Hc & Hr & _).
    apply encoder_dimensions_Ok in Hd as [Hne Hdims].
    apply pack_HHHH_range in Hm as (Hn & Hw & Hh & _).
    unfold Encoder.get_astc_format_code in Hf.
    destruct (Encoder.ASTC_FORMAT_CODES !! str_lower astc_format)
      as [code'|] eqn:Elook; [|discriminate].
    injection Hf as ->.
    pose proof Elook as Hin. apply format_code_lookup in Hin.
    rewrite (known_format_exact _ _ Hin (generate_needs_blocks _ _ _ _ Hg))
      in Elook.
    apply stored_index_lengths in Hr.
    exists width, height, code, hdr, payloads.
    repeat (split; [first [assumption | lia]|]).
    clear -Hc Hr. induction Hc as [|img p images payloads Hcodec _ IH];
      [constructor|].
    inversion Hr; subst. constructor; [split; assumption|]. now apply IH.
  - intros (width & height & code & hdr & payloads
            & Hne & Hn & Hdims & Hw & Hh & Hfmt & Hg & Hc).
    destruct (encoder_build_total float compress_with_astc images
                astc_format quality width height code hdr payloads
                Hne Hn Hdims Hw Hh Hfmt Hg Hc) as (meta & _ & Hbuild).
    eexists. exact Hbuild.
  - intros disk output_path. unfold Encoder.create_ffab_file_v1.
    destruct (Encoder.build_ffab_v1 float compress_with_astc images
                astc_format quality) as [chunks|e]; [|discriminate].
    intros _. now exists chunks.
Qed.

(** ** The inspector *)

Section InspectorFacts.

(** The inspector's loop reads what the decoder's loop reads. *)
Lemma inspector_loop_follows (n : nat) (f : file) (accD : list (Z * Z))
    (i : Z) (acc : list Info.index_entry) (total : Z)
    (smallest : Info.size_or_inf) (largest : Z) :
  match Decoder.read_index_entries n f accD with
  | Ok entries =>
      exists new,
        entries = accD ++ new
        /\ Info.read_index_loop n i f acc total smallest largest
           = Ok (index_stats new i acc total smallest largest)
  | Raise e =>
      Info.read_index_loop n i f acc total smallest largest = Raise e
  end.
Proof.
  revert f accD i acc total smallest largest.
  induction n as [|n IH]; intros f accD i acc total smallest largest.
  - cbn. exists []. now rewrite app_nil_r.
  - cbn [Decoder.read_index_entries Info.read_index_loop].
    destruct (read f 12) as [[entry_data f']|e]; cbn [bind]; [|reflexivity].
    destruct (unpack_QI entry_data) as [[o l]|e]; cbn [bind]; [|reflexivity].
    specialize (IH f' (accD ++ [(o, l)]) (i + 1)
                  (acc ++ [{| Info.frame := i; Info.offset := o;
                              Info.data_length := l |}])
                  (total + l) (Info.min_size smallest l) (Z.max largest l)).
    destruct (Decoder.read_index_entries n f' (accD ++ [(o, l)]))
      as [entries|e]; [|exact IH].
    destruct IH as (new & -> & Hloop).
    exists ((o, l) :: new). split; [now rewrite <- app_assoc | exact Hloop].
Qed.

Lemma index_stats_entries (entries : list (Z * Z)) (i : Z)
    (acc : list Info.index_entry) (total : Z) (smallest : Info.size_or_inf)
    (largest : Z) :
  let '(acc', _, _, _) := index_stats entries i acc total smallest largest in
  entry_pair <$> acc' = (entry_pair <$> acc) ++ entries
  /\ (i = Z.of_nat (length acc) ->
      (forall k e, acc !! k = Some e -> Info.frame e = Z.of_nat k) ->
      forall k e, acc' !! k = Some e -> Info.frame e = Z.of_nat k).
Proof.
  revert i acc total smallest largest.
  induction entries as [|[o l] entries IH]; intros i acc total smallest largest.
  - cbn. split; [now rewrite app_nil_r | auto].
  - cbn [index_stats].
    specialize (IH (i + 1)
                  (acc ++ [{| Info.frame := i; Info.offset := o;
                              Info.data_length := l |}])
                  (total + l) (Info.min_size smallest l) (Z.max largest l)).
    destruct (index_stats entries _ _ _ _ _) as [[[acc' t'] s'] l'].
    destruct IH as [Hpairs Hframes]. split.
    + rewrite Hpairs, fmap_app. cbn. now rewrite <- app_assoc.
    + intros Hi Hacc. apply Hframes.
      * rewrite length_app. cbn. lia.
      * intros k e Hk. apply lookup_app_Some in Hk as [Hk|[Hge Hk]].
        -- now apply Hacc.
        -- apply list_lookup_singleton_Some in Hk as [Hk <-]. cbn. lia.
Qed.

Lemma index_stats_total (entries : list (Z * Z)) (i : Z)
    (acc : list Info.index_entry) (total : Z) (smallest : Info.size_or_inf)
    (largest : Z) :
  let '(_, total', _, _) := index_stats entries i acc total smallest largest in
  total' = total + declared_size entries.
Proof.
  revert i acc total smallest largest.
  induction entries as [|[o l] entries IH]; intros i acc total smallest largest.
  - cbn. lia.
  - cbn [index_stats declared_size foldr snd].
    fold (declared_size entries).
    specialize (IH (i + 1)
                  (acc ++ [{| Info.frame := i; Info.offset := o;
                              Info.data_length := l |}])
                  (total + l) (Info.min_size smallest l) (Z.max largest l)).
    destruct (index_stats entries _ _ _ _ _) as [[[acc' t'] s'] l'].
    lia.
Qed.

Lemma index_stats_largest (entries : list (Z * Z)) (i : Z)
    (acc : list Info.index_entry) (total : Z) (smallest : Info.size_or_inf)
    (largest : Z) :
  let '(_, _, _, largest') :=
    index_stats entries i acc total smallest largest in
  largest <= largest'
  /\ Forall (fun e => e.2 <= largest') entries
  /\ (largest' = largest \/ exists e, e ∈ entries /\ e.2 = largest').
Proof.
  revert i acc total smallest largest.
  induction entries as [|[o l] entries IH]; intros i acc total smallest largest.
  - cbn. repeat split; [lia | constructor | now left].
  - cbn [index_stats].
    specialize (IH (i + 1)
                  (acc ++ [{| Info.frame := i; Info.offset := o;
                              Info.data_length := l |}])
                  (total + l) (Info.min_size smallest l) (Z.max largest l)).
    destruct (index_stats entries _ _ _ _ _) as [[[acc' t'] s'] l'].
    destruct IH as (Hle & Hall & Hatt). split; [lia|]. split.
    + constructor; [simpl; lia | exact Hall].
    + destruct Hatt as [->|(e & Hin & He)].
      * destruct (Z.max_spec largest l) as [[_ ->]|[_ ->]].
        -- right. exists (o, l). split; [apply list_elem_of_here|reflexivity].
        -- now left.
      * right. exists e. split; [now apply list_elem_of_further | exact He].
Qed.

Lemma index_stats_smallest (entries : list (Z * Z)) (i : Z)
    (acc : list Info.index_entry) (total : Z) (smallest : Info.size_or_inf)
    (largest : Z) :
  let '(_, _, smallest', _) :=
    index_stats entries i acc total smallest largest in
  (entries = [] -> smallest' = smallest)
  /\ (entries <> [] \/ smallest <> Info.Infinity ->
      exists m,
        smallest' = Info.Size m
        /\ Forall (fun e => m <= e.2) entries
        /\ (forall m0, smallest = Info.Size m0 -> m <= m0)
        /\ (smallest = Info.Size m \/ exists e, e ∈ entries /\ e.2 = m)).
Proof.
  revert i acc total smallest largest.
  induction entries as [|[o l] entries IH]; intros i acc total smallest largest.
  - cbn. split; [reflexivity|]. intros [H|H]; [congruence|].
    destruct smallest as [|m]; [congruence|].
    exists m. repeat split; [constructor | intros m0 [= <-]; lia | now left].
  - cbn [index_stats].
    specialize (IH (i + 1)
                  (acc ++ [{| Info.frame := i; Info.offset := o;
                              Info.data_length := l |}])
                  (total + l) (Info.min_size smallest l) (Z.max largest l)).
    destruct (index_stats entries _ _ _ _ _) as [[[acc' t'] s'] l'].
    destruct IH as [_ IH]. split; [discriminate|]. intros _.
    destruct IH as (m & -> & Hall & Hle & Hatt).
    { right. destruct smallest; discriminate. }
    exists m. split; [reflexivity|].
    destruct smallest as [|m0]; cbn [Info.min_size] in *.
    + specialize (Hle l eq_refl). split; [|split].
      * constructor; [simpl; lia | exact Hall].
      * discriminate.
      * right. destruct Hatt as [[= <-]|(e & Hin & He)].
        -- exists (o, l). split; [apply list_elem_of_here | reflexivity].
        -- exists e. split; [now apply list_elem_of_further | exact He].
    + specialize (Hle (Z.min m0 l) eq_refl). split; [|split].
      * constructor; [simpl; lia | exact Hall].
      * intros m1 [= <-]. lia.
      * destruct Hatt as [[= Hm]|(e & Hin & He)].
        -- destruct (Z.min_spec m0 l) as [[_ Hmin]|[_ Hmin]]; rewrite Hmin in Hm.
           ++ left. now subst.
           ++ right. exists (o, l).
              split; [apply list_elem_of_here | simpl; lia].
        -- right. exists e. split; [now apply list_elem_of_further | exact He].
Qed.

End InspectorFacts.

(** X14. The inspector reads the index the decoder reads.  On every
    store, path and frame count, [read_ffab_index_table] of
    [ffab_info.py] raises what the decoder's raises, and when the decoder
    returns an index the inspector returns the same offsets and lengths in
    the same order, numbered 0, 1, 2, ..., with their sum as total size, the
    largest and the smallest length (the infinite float and 0 when there is
    no entry), and as average the quotient of the total by the count, or
    the integer 0 when there is no entry. *)
Theorem inspector_index_agrees (disk : fs) (file_path : string) (n : Z) :
  match Decoder.read_ffab_index_table disk file_path n with
  | Ok index_entries =>
      exists info,
        Info.read_ffab_index_table disk file_path n = Ok info
        /\ Info.index_start_offset info = 12
        /\ entry_pair <$> Info.entries info = index_entries
        /\ (forall k e, Info.entries info !! k = Some e ->
                        Info.frame e = Z.of_nat k)
        /\ Info.total_compressed_size info = declared_size index_entries
        /\ Forall (fun e => e.2 <= Info.max_data_size info) index_entries
        /\ (index_entries = [] ->
            Info.min_data_size info = Info.Infinity
            /\ Info.max_data_size info = 0
            /\ Info.avg_data_size info = Info.Zero)
        /\ (index_entries <> [] ->
            (exists m, Info.min_data_size info = Info.Size m
                       /\ Forall (fun e => m <= e.2) index_entries
                       /\ exists e, e ∈ index_entries /\ e.2 = m)
            /\ (exists e, e ∈ index_entries
                          /\ e.2 = Info.max_data_size info)
            /\ Info.avg_data_size info
               = Info.Quotient (declared_size index_entries) n)
  | Raise e => Info.read_ffab_index_table disk file_path n = Raise e
  end.
Proof.
  unfold Decoder.read_ffab_index_table, Info.read_ffab_index_table.
  destruct (open_rb disk file_path) as [f|e]; cbn [bind]; [|reflexivity].
  destruct (seek f (4 + 8)) as [f'|e]; cbn [bind]; [|reflexivity].
  pose proof (inspector_loop_follows (Z.to_nat n) f' [] 0 [] 0 Info.Infinity 0)
    as Hloop.
  pose proof (read_index_entries_inv (Z.to_nat n) f' []) as Hinv.
  destruct (Decoder.read_index_entries (Z.to_nat n) f' []) as [entries|e];
    [|now rewrite Hloop].
  destruct Hloop as (new & Hnew & Hloop). destruct Hinv as (new' & Hnew' & Hn & Hpos).
  cbn [app] in Hnew, Hnew'. subst new new'. rewrite Hloop.
  pose proof (index_stats_entries entries 0 [] 0 Info.Infinity 0) as He.
  pose proof (index_stats_total entries 0 [] 0 Info.Infinity 0) as Ht.
  pose proof (index_stats_largest entries 0 [] 0 Info.Infinity 0) as Hl.
  pose proof (index_stats_smallest entries 0 [] 0 Info.Infinity 0) as Hs.
  destruct (index_stats entries 0 [] 0 Info.Infinity 0)
    as [[[acc' total'] smallest'] largest'].
  cbn [bind]. eexists. split; [reflexivity|]. cbn.
  destruct He as [Hpairs Hframes]. destruct Hl as (Hl0 & Hlall & Hlatt).
  destruct Hs as [Hs0 Hs1].
  split; [reflexivity|]. split; [exact Hpairs|].
  split; [apply Hframes; [reflexivity | intros k e Hk; discriminate Hk]|].
  split; [lia|]. split; [exact Hlall|]. split.
  - intros ->. rewrite (Hs0 eq_refl). cbn in Hn.
    destruct Hlatt as [->|(e & Hin & _)]; [|now apply elem_of_nil in Hin].
    repeat split. destruct (n >? 0) eqn:E; [lia|reflexivity].
  - intros Hne. split; [|split].
    + destruct Hs1 as (m & -> & Hall & _ & [Hbad|Hatt]); [now left|discriminate|].
      exists m. auto.
    + destruct Hlatt as [->|Hatt]; [|exact Hatt].
      destruct entries as [|e0 entries]; [congruence|].
      exists e0. split; [apply list_elem_of_here|].
      inversion Hlall; subst. inversion Hpos as [|? ? [_ H0] _]; subst. lia.
    + destruct (n >? 0) eqn:E; [now rewrite Ht|].
      destruct entries; [congruence|]. cbn in Hn. lia.
Qed.

(** X15. The inspector and the decoder agree on the header and on the
    meta block, on every store and path, a missing or short file included:
    they succeed together, on the same values, and raise the same
    exception, except that the inspector's magic-number error also carries
    the expected and the actual number. *)
Theorem inspector_header_meta_agree (disk : fs) (file_path : string) :
  match Decoder.read_ffab_header disk file_path with
  | Ok version =>
      version = 0x0001
      /\ Info.read_ffab_header disk file_path
         = Ok {| Info.magic := 0xFFAB; Info.version := 0x0001;
                 Info.version_hex := "0x0001" |}
  | Raise (ValueError magic_mismatch) =>
      exists actual,
        actual <> 0xFFAB
        /\ Info.read_ffab_header disk file_path
           = Raise (ValueError (magic_mismatch_detail 0xFFAB actual))
  | Raise e => Info.read_ffab_header disk file_path = Raise e
  end
  /\ match Decoder.read_ffab_meta disk file_path with
     | Ok (image_count, width, height, astc_format_code) =>
         exists info,
           Info.read_ffab_meta disk file_path = Ok info
           /\ Info.image_count info = image_count
           /\ Info.width info = width
           /\ Info.height info = height
           /\ Info.astc_format_code info = astc_format_code
           /\ Info.resolution info = fmt_d width +:+ "x" +:+ fmt_d height
           /\ (forall name,
                 Decoder.ASTC_CODE_TO_FORMAT !! astc_format_code = Some name ->
                 Info.astc_format info = name)
     | Raise e => Info.read_ffab_meta disk file_path = Raise e
     end.
Proof.
  destruct (disk !! file_path) as [content|] eqn:Hf.
  2:{ unfold Decoder.read_ffab_header, Info.read_ffab_header,
        Decoder.read_ffab_meta, Info.read_ffab_meta, open_rb.
      rewrite Hf. split; reflexivity. }
  split.
  - destruct (decide (4 <= length content)%nat) as [H4|H4].
    + rewrite (decoder_header_of_content _ _ _ Hf H4).
      rewrite (info_header_of_content _ _ _ Hf H4). cbv zeta.
      destruct (be_decode (take 2 content) =? 65451) eqn:Em; cbn [negb].
      * destruct (be_decode (take 2 (drop 2 content)) =? 1) eqn:Ev; cbn [negb];
          [|reflexivity].
        apply Z.eqb_eq in Em, Ev. rewrite Em, Ev. split; reflexivity.
      * eexists. split; [|reflexivity]. lia.
    + rewrite (decoder_header_short _ _ _ Hf) by lia.
      rewrite (info_header_short _ _ _ Hf) by lia. reflexivity.
  - destruct (decide (12 <= length content)%nat) as [H12|H12].
    + rewrite (decoder_meta_of_content _ _ _ Hf H12).
      rewrite (info_meta_of_content _ _ _ Hf H12). cbv zeta.
      eexists. split; [reflexivity|]. cbn. repeat split.
      intros name Hname. change Info.ASTC_CODE_TO_FORMAT
        with Decoder.ASTC_CODE_TO_FORMAT. now rewrite Hname.
    + destruct (meta_short disk file_path content Hf) as [-> ->]; [lia|].
      reflexivity.
Qed.

(** ** The report of the inspector *)

(** The inspector's header check, beside the decoder's. *)
Lemma info_header_cases (disk : fs) (file_path : string) :
  match Info.read_ffab_header disk file_path with
  | Ok info =>
      info = {| Info.magic := 0xFFAB; Info.version := 0x0001;
                Info.version_hex := "0x0001" |}
      /\ Decoder.read_ffab_header disk file_path = Ok 1
  | Raise e =>
      (exists e', Decoder.read_ffab_header disk file_path = Raise e')
      /\ ((e = FileNotFoundError /\ disk !! file_path = None)
          \/ e = struct_error
          \/ (exists actual,
                actual <> 0xFFAB
                /\ e = ValueError (magic_mismatch_detail 0xFFAB actual))
          \/ (exists version,
                version <> 0x0001
                /\ e = ValueError (unsupported_version version)))
  end.
Proof.
  destruct (disk !! file_path) as [content|] eqn:Hf.
  2:{ unfold Decoder.read_ffab_header, Info.read_ffab_header, open_rb.
      rewrite Hf. cbn [bind]. split; [now eexists | now left]. }
  destruct (decide (4 <= length content)%nat) as [H4|H4].
  - rewrite (decoder_header_of_content _ _ _ Hf H4).
    rewrite (info_header_of_content _ _ _ Hf H4). cbv zeta.
    destruct (be_decode (take 2 content) =? 65451) eqn:Em; cbn [negb].
    + destruct (be_decode (take 2 (drop 2 content)) =? 1) eqn:Ev; cbn [negb].
      * apply Z.eqb_eq in Em, Ev. rewrite Em, Ev. split; reflexivity.
      * split; [now eexists|]. right. right. right. eexists.
        split; [|reflexivity]. lia.
    + split; [now eexists|]. right. right. left. eexists.
      split; [|reflexivity]. lia.
  - rewrite (decoder_header_short _ _ _ Hf) by lia.
    rewrite (info_header_short _ _ _ Hf) by lia.
    split; [now eexists | now right; left].
Qed.

(** The inspector's meta block, beside the decoder's. *)
Lemma info_meta_cases (disk : fs) (file_path : string) :
  match Info.read_ffab_meta disk file_path with
  | Ok info =>
      Decoder.read_ffab_meta disk file_path
      = Ok (Info.image_count info, Info.width info, Info.height info,
            Info.astc_format_code info)
      /\ 0 <= Info.image_count info
      /\ Info.astc_format info
         = default ("未知(0x" +:+ fmt_04X (Info.astc_format_code info) +:+ ")")
                   (Decoder.ASTC_CODE_TO_FORMAT !! Info.astc_format_code info)
      /\ (forall content,
            disk !! file_path = Some content -> (12 <= length content)%nat)
  | Raise e =>
      Decoder.read_ffab_meta disk file_path = Raise e
      /\ ((e = FileNotFoundError /\ disk !! file_path = None)
          \/ e = struct_error)
  end.
Proof.
  destruct (disk !! file_path) as [content|] eqn:Hf.
  2:{ unfold Decoder.read_ffab_meta, Info.read_ffab_meta, open_rb.
      rewrite Hf. cbn [bind]. split; [reflexivity | now left]. }
  destruct (decide (12 <= length content)%nat) as [H12|H12].
  - rewrite (decoder_meta_of_content _ _ _ Hf H12).
    rewrite (info_meta_of_content _ _ _ Hf H12). cbv zeta.
    cbn [Info.image_count Info.width Info.height Info.astc_format_code
         Info.astc_format].
    split; [reflexivity|]. split; [apply be_decode_range|].
    split; [reflexivity|]. intros c [= <-]. exact H12.
  - destruct (meta_short disk file_path content Hf) as [-> ->]; [lia|].
    split; [reflexivity | now right].
Qed.

(** The inspector's index, beside the decoder's. *)
Lemma info_index_cases (disk : fs) (file_path : string) (n : Z) :
  match Info.read_ffab_index_table disk file_path n with
  | Ok info =>
      Decoder.read_ffab_index_table disk file_path n
      = Ok (entry_pair <$> Info.entries info)
      /\ Info.total_compressed_size info
         = declared_size (entry_pair <$> Info.entries info)
      /\ 0 <= Info.total_compressed_size info
      /\ (forall content,
            disk !! file_path = Some content -> 0 < n ->
            12 + 12 * n <= Z.of_nat (length content))
  | Raise e =>
      Decoder.read_ffab_index_table disk file_path n = Raise e
      /\ ((e = FileNotFoundError /\ disk !! file_path = None)
          \/ e = struct_error)
  end.
Proof.
  unfold Decoder.read_ffab_index_table, Info.read_ffab_index_table, open_rb.
  destruct (disk !! file_path) as [content|] eqn:Hf; cbn [bind];
    [|split; [reflexivity | now left]].
  rewrite seek_nonneg by lia. cbn [bind f_content].
  change (Z.to_nat (4 + 8)) with 12%nat.
  pose proof (inspector_loop_follows (Z.to_nat n)
                {| f_content := content; f_pos := 12 |} [] 0 [] 0
                Info.Infinity 0) as Hloop.
  pose proof (read_index_entries_inv (Z.to_nat n)
                {| f_content := content; f_pos := 12 |} []) as Hinv.
  destruct (Decoder.read_index_entries (Z.to_nat n) _ []) as [entries|e]
    eqn:Eread.
  - destruct Hloop as (new & Hnew & ->). cbn [app] in Hnew. subst new.
    destruct Hinv as (new & Hnew & _ & Hpos). cbn [app] in Hnew. subst new.
    pose proof (index_stats_entries entries 0 [] 0 Info.Infinity 0) as He.
    pose proof (index_stats_total entries 0 [] 0 Info.Infinity 0) as Ht.
    destruct (index_stats entries 0 [] 0 Info.Infinity 0)
      as [[[acc' total'] smallest'] largest'].
    cbn [bind Info.entries Info.total_compressed_size].
    destruct He as [Hpairs _]. cbn [fmap list_fmap app] in Hpairs.
    rewrite Hpairs. split; [reflexivity|]. split; [lia|]. split.
    + rewrite Ht. clear -Hpos. induction Hpos as [|e es [_ He] _ IH];
        [cbn; lia|].
      cbn [declared_size foldr]. fold (declared_size es). lia.
    + intros c [= <-] Hn.
      destruct (decide (12 + 12 * n <= Z.of_nat (length content)))
        as [Hfit|Hcut]; [exact Hfit|].
      rewrite read_index_entries_short in Eread by lia. discriminate.
  - rewrite Hloop. split; [reflexivity|]. right. exact Hinv.
Qed.

(** X16. The outcome of [get_file_info] on a file that opens for
    reading.  When it returns, [file_size] is the length of the file, the
    decoder's three readers accept the file and give the same meta values
    and the same index, the total size is the sum of the declared lengths,
    [data_start_offset] is [12 + 12 * image_count] and is not beyond the
    end of the file, and the compression ratio is the integer 0 exactly
    when the declared lengths sum to 0.  The format code is not looked up:
    an unknown code is no error here.  When it raises, the exception is a
    [struct.error] or one of the two [ValueError]s of the header check. *)
Theorem get_file_info_outcome (disk : fs) (file_path : string)
    (content : bytes) :
  disk !! file_path = Some content ->
  match Info.get_file_info disk file_path with
  | Ok info =>
      Info.info_file_path info = file_path
      /\ Info.file_size info = Z.of_nat (length content)
      /\ Decoder.read_ffab_header disk file_path = Ok 1
      /\ Decoder.read_ffab_meta disk file_path
         = Ok (Info.image_count (Info.meta info),
               Info.width (Info.meta info),
               Info.height (Info.meta info),
               Info.astc_format_code (Info.meta info))
      /\ Decoder.read_ffab_index_table disk file_path
           (Info.image_count (Info.meta info))
         = Ok (entry_pair <$> Info.entries (Info.index info))
      /\ Info.total_compressed_size (Info.index info)
         = declared_size (entry_pair <$> Info.entries (Info.index info))
      /\ Info.data_start_offset info
         = 12 + 12 * Info.image_count (Info.meta info)
      /\ Info.data_start_offset info <= Info.file_size info
      /\ Info.uncompressed_size info
         = Info.width (Info.meta info) * Info.height (Info.meta info) * 4
           * Info.image_count (Info.meta info)
      /\ Info.compression_ratio info
         = (if decide (Info.total_compressed_size (Info.index info) = 0)
            then Info.Zero
            else Info.Quotient (Info.uncompressed_size info)
                   (Info.total_compressed_size (Info.index info)))
  | Raise e =>
      e = struct_error
      \/ (exists actual,
            actual <> 0xFFAB
            /\ e = ValueError (magic_mismatch_detail 0xFFAB actual))
      \/ (exists version,
            version <> 0x0001
            /\ e = ValueError (unsupported_version version))
  end.
Proof.
  intros Hf. unfold Info.get_file_info. rewrite Hf.
  pose proof (info_header_cases disk file_path) as Hh.
  destruct (Info.read_ffab_header disk file_path) as [hinfo|e]; cbn [bind].
  2:{ destruct Hh as [_ [[_ Hnone]|H]]; [congruence | exact H]. }
  destruct Hh as [-> Hheader].
  pose proof (info_meta_cases disk file_path) as Hm.
  destruct (Info.read_ffab_meta disk file_path) as [minfo|e]; cbn [bind].
  2:{ destruct Hm as [_ [[_ Hnone]|H]]; [congruence | now left]. }
  destruct Hm as (Hmeta & Hcount & _ & Hlen). specialize (Hlen _ Hf).
  pose proof (info_index_cases disk file_path (Info.image_count minfo)) as Hi.
  destruct (Info.read_ffab_index_table disk file_path (Info.image_count minfo))
    as [iinfo|e]; cbn [bind].
  2:{ destruct Hi as [_ [[_ Hnone]|H]]; [congruence | now left]. }
  destruct Hi as (Hindex & Htotal & Hpos & Hfit). specialize (Hfit _ Hf).
  cbn [Info.info_file_path Info.file_size Info.meta Info.index
       Info.data_start_offset Info.uncompressed_size Info.compression_ratio].
  split; [reflexivity|]. split; [reflexivity|].
  split; [exact Hheader|]. split; [exact Hmeta|]. split; [exact Hindex|].
  split; [exact Htotal|]. split; [lia|]. split; [lia|].
  split; [reflexivity|].
  destruct (decide (Info.total_compressed_size iinfo = 0)) as [->|Hne];
    [reflexivity|].
  destruct (Info.total_compressed_size iinfo >? 0) eqn:E; [reflexivity|lia].
Qed.

Lemma get_file_info_outcome_witness :
  match Info.get_file_info sample_disk "out.ffab" with
  | Ok info =>
      Info.info_file_path info = "out.ffab"
      /\ Info.file_size info = Z.of_nat (length sample_content)
      /\ Decoder.read_ffab_header sample_disk "out.ffab" = Ok 1
      /\ Decoder.read_ffab_meta sample_disk "out.ffab"
         = Ok (Info.image_count (Info.meta info),
               Info.width (Info.meta info),
               Info.height (Info.meta info),
               Info.astc_format_code (Info.meta info))
      /\ Decoder.read_ffab_index_table sample_disk "out.ffab"
           (Info.image_count (Info.meta info))
         = Ok (entry_pair <$> Info.entries (Info.index info))
      /\ Info.total_compressed_size (Info.index info)
         = declared_size (entry_pair <$> Info.entries (Info.index info))
      /\ Info.data_start_offset info
         = 12 + 12 * Info.image_count (Info.meta info)
      /\ Info.data_start_offset info <= Info.file_size info
      /\ Info.uncompressed_size info
         = Info.width (Info.meta info) * Info.height (Info.meta info) * 4
           * Info.image_count (Info.meta info)
      /\ Info.compression_ratio info
         = (if decide (Info.total_compressed_size (Info.index info) = 0)
            then Info.Zero
            else Info.Quotient (Info.uncompressed_size info)
                   (Info.total_compressed_size (Info.index info)))
  | Raise e =>
      e = struct_error
      \/ (exists actual,
            actual <> 0xFFAB
            /\ e = ValueError (magic_mismatch_detail 0xFFAB actual))
      \/ (exists version,
            version <> 0x0001
            /\ e = ValueError (unsupported_version version))
  end.
Proof.
  apply (get_file_info_outcome sample_disk "out.ffab" sample_content).
  vm_compute. reflexivity.
Defined.

(** The inspector on the bytes a writer lays out. *)
Lemma inspector_on_written (disk : fs) (file_path : string)
    (width height code : Z) (name : string) (meta : bytes)
    (payloads : list bytes) :
  pack_HHHH (Z.of_nat (length payloads)) width height code = Ok meta ->
  Forall (fun e => 0 <= e.1 < 2 ^ 64 /\ 0 <= e.2 < 2 ^ 32)
         (stored_index (4 + 8 + Z.of_nat (length payloads) * 12) payloads) ->
  Decoder.ASTC_CODE_TO_FORMAT !! code = Some name ->
  let content :=
    concat [ be_encode 2 0xFFAB ++ be_encode 2 0x0001; meta;
             concat (entry_bytes <$>
                       stored_index
                         (4 + 8 + Z.of_nat (length payloads) * 12) payloads);
             concat payloads ] in
  exists info,
    Info.get_file_info (<[file_path := content]> disk) file_path = Ok info
    /\ Info.file_size info = Z.of_nat (length content)
    /\ Info.image_count (Info.meta info) = Z.of_nat (length payloads)
    /\ Info.width (Info.meta info) = width
    /\ Info.height (Info.meta info) = height
    /\ Info.astc_format (Info.meta info) = name
    /\ entry_pair <$> Info.entries (Info.index info)
       = stored_index (4 + 8 + Z.of_nat (length payloads) * 12) payloads
    /\ Info.total_compressed_size (Info.index info)
       = Z.of_nat (length (concat payloads))
    /\ Info.data_start_offset info = 4 + 8 + Z.of_nat (length payloads) * 12
    /\ Info.uncompressed_size info
       = width * height * 4 * Z.of_nat (length payloads).
Proof.
  intros Hmeta Hrange Hname content.
  set (n := Z.of_nat (length payloads)) in *.
  set (disk' := <[file_path := content]> disk).
  assert (Hfile : disk' !! file_path = Some content) by apply lookup_insert_eq.
  pose proof (written_header disk' file_path n meta payloads Hfile) as Hh.
  pose proof (written_meta disk' file_path n width height code meta payloads
                Hfile Hmeta) as Hm.
  pose proof (written_index disk' file_path n width height code meta payloads
                Hfile eq_refl Hmeta Hrange) as Hi.
  unfold Info.get_file_info. rewrite Hfile.
  pose proof (info_header_cases disk' file_path) as Hh'.
  destruct (Info.read_ffab_header disk' file_path) as [hinfo|e]; cbn [bind].
  2:{ destruct Hh' as [[e' He'] _]. congruence. }
  pose proof (info_meta_cases disk' file_path) as Hm'.
  destruct (Info.read_ffab_meta disk' file_path) as [minfo|e]; cbn [bind].
  2:{ destruct Hm' as [He' _]. congruence. }
  destruct Hm' as (Hmeta' & _ & Hfmt & _).
  rewrite Hm in Hmeta'. injection Hmeta' as Hn Hw Hht Hc.
  rewrite <- Hc, Hname in Hfmt. cbn [default] in Hfmt.
  pose proof (info_index_cases disk' file_path (Info.image_count minfo)) as Hi'.
  destruct (Info.read_ffab_index_table disk' file_path (Info.image_count minfo))
    as [iinfo|e]; cbn [bind].
  2:{ destruct Hi' as [He' _]. rewrite <- Hn in He'. congruence. }
  destruct Hi' as (Hindex & Htotal & _ & _).
  rewrite <- Hn, Hi in Hindex. injection Hindex as Hentries.
  eexists. split; [reflexivity|].
  cbn [Info.file_size Info.meta Info.index Info.data_start_offset
       Info.uncompressed_size].
  rewrite <- Hn, <- Hw, <- Hht, Htotal, <- Hentries, declared_size_stored.
  repeat split; try reflexivity. exact Hfmt.
Qed.

(** X17. The inspector on a file one of the writers produced.
    [get_file_info] returns; it reports the number of frames written, the
    width and height [check_images_dimensions] found, the format name in
    lower case, one index entry per frame, a data region that starts at
    the first entry's offset, a file size equal to [data_start_offset]
    plus the total compressed size, and four bytes per pixel as the
    uncompressed size. *)
Theorem inspector_reports_written_file (float : Type)
    (compress_with_astc : ndarray -> string -> float -> result bytes)
    (tools_compress_with_astc : ndarray -> string -> result bytes)
    (disk disk' : fs) (images : list (string * ndarray))
    (output_path astc_format : string) (quality : float) :
  Encoder.create_ffab_file_v1 float compress_with_astc disk images
    output_path astc_format quality = (Ok tt, disk')
  \/ ToolsEncoder.create_ffab_file_v1 tools_compress_with_astc disk images
       output_path astc_format = (Ok tt, disk') ->
  exists info,
    Info.get_file_info disk' output_path = Ok info
    /\ Info.image_count (Info.meta info) = Z.of_nat (length images)
    /\ Encoder.check_images_dimensions images
       = Ok (Info.width (Info.meta info), Info.height (Info.meta info))
    /\ Info.astc_format (Info.meta info) = str_lower astc_format
    /\ length (Info.entries (Info.index info)) = length images
    /\ Info.data_start_offset info = 12 + 12 * Z.of_nat (length images)
    /\ (forall e, Info.entries (Info.index info) !! 0%nat = Some e ->
                  Info.offset e = Info.data_start_offset info)
    /\ Info.file_size info
       = Info.data_start_offset info
         + Info.total_compressed_size (Info.index info)
    /\ Info.uncompressed_size info
       = Info.width (Info.meta info) * Info.height (Info.meta info) * 4
         * Z.of_nat (length images).
Proof.
  intros H.
  assert (exists width height code meta payloads,
            Encoder.check_images_dimensions images = Ok (width, height)
            /\ Decoder.ASTC_CODE_TO_FORMAT !! code = Some (str_lower astc_format)
            /\ pack_HHHH (Z.of_nat (length payloads)) width height code = Ok meta
            /\ length payloads = length images
            /\ Forall (fun e => 0 <= e.1 < 2 ^ 64 /\ 0 <= e.2 < 2 ^ 32)
                 (stored_index (4 + 8 + Z.of_nat (length payloads) * 12)
                    payloads)
            /\ disk'
               = <[output_path :=
                     concat [ be_encode 2 0xFFAB ++ be_encode 2 0x0001; meta;
                              concat (entry_bytes <$>
                                        stored_index
                                          (4 + 8
                                           + Z.of_nat (length payloads) * 12)
                                          payloads);
                              concat payloads ]]> disk)
    as (width & height & code & meta & payloads
        & Hd & Hname & Hm & Hlen & Hr & ->).
  { destruct H as [H|H].
    - apply encoder_create_Ok in H as (chunks & Hb & ->).
      apply encoder_build_Ok in Hb
        as (width & height & code & hdr & meta & payloads
            & Hd & Hf & Hm & _ & Hc & Hr & ->).
      rewrite (Forall2_length _ _ _ Hc) in *.
      exists width, height, code, meta, payloads.
      split; [exact Hd|]. split; [|auto].
      unfold Encoder.get_astc_format_code in Hf.
      destruct (Encoder.ASTC_FORMAT_CODES !! str_lower astc_format)
        as [code'|] eqn:Elook; [|discriminate].
      injection Hf as ->. now apply code_format_lookup, format_code_lookup.
    - apply tools_create_Ok in H as (chunks & Hb & ->).
      apply tools_build_Ok in Hb
        as (width & height & code & meta & payloads
            & Hd & Hf & Hm & Hc & Hr & ->).
      rewrite (Forall2_length _ _ _ Hc) in *.
      exists width, height, code, meta, payloads.
      split; [exact Hd|]. split; [|auto].
      unfold ToolsEncoder.get_astc_format_code in Hf.
      destruct (ToolsEncoder.ASTC_FORMAT_CODES !! str_lower astc_format)
        as [code'|] eqn:Elook; [|discriminate].
      injection Hf as ->. now apply code_format_lookup, format_code_lookup. }
  destruct (inspector_on_written disk output_path width height code
              (str_lower astc_format) meta payloads Hm Hr Hname)
    as (info & Hinfo & Hsize & Hn & Hw & Hh & Hfmt & Hentries & Htotal
        & Hstart & Hunc).
  exists info. rewrite Hw, Hh, <- Hlen.
  split; [exact Hinfo|]. split; [exact Hn|]. split; [exact Hd|].
  split; [exact Hfmt|]. split.
  { rewrite <- (length_fmap entry_pair), Hentries. apply length_stored_index. }
  split; [lia|]. split.
  { intros e He. rewrite Hstart.
    assert (Hp : (entry_pair <$> Info.entries (Info.index info)) !! 0%nat
                 = Some (entry_pair e)) by now rewrite list_lookup_fmap, He.
    rewrite Hentries in Hp. destruct payloads as [|p payloads];
      [discriminate Hp|].
    rewrite stored_index_cons in Hp. now injection Hp as <- _. }
  split; [|exact Hunc].
  rewrite Hsize, Hstart, Htotal. cbn [concat].
  rewrite app_nil_r, !length_app, !length_be_encode.
  destruct (unpack_pack_HHHH _ _ _ _ _ Hm) as [_ ->].
  rewrite length_concat_entries, length_stored_index. lia.
Qed.

Lemma inspector_reports_written_file_witness :
  exists info,
    Info.get_file_info sample_disk "out.ffab" = Ok info
    /\ Info.image_count (Info.meta info) = Z.of_nat (length sample_images)
    /\ Encoder.check_images_dimensions sample_images
       = Ok (Info.width (Info.meta info), Info.height (Info.meta info))
    /\ Info.astc_format (Info.meta info) = str_lower "4x4"
    /\ length (Info.entries (Info.index info)) = length sample_images
    /\ Info.data_start_offset info = 12 + 12 * Z.of_nat (length sample_images)
    /\ (forall e, Info.entries (Info.index info) !! 0%nat = Some e ->
                  Info.offset e = Info.data_start_offset info)
    /\ Info.file_size info
       = Info.data_start_offset info
         + Info.total_compressed_size (Info.index info)
    /\ Info.uncompressed_size info
       = Info.width (Info.meta info) * Info.height (Info.meta info) * 4
         * Z.of_nat (length sample_images).
Proof.
  apply (inspector_reports_written_file unit sample_compress
           sample_tools_compress ∅ sample_disk sample_images "out.ffab" "4x4"
           tt).
  left. vm_compute. reflexivity.
Defined.

(** ** The names of the decoded frames *)

Lemma digit_of_pretty_N_char (m : N) :
  (m < 10)%N -> digit_of (pretty_N_char m) = Some (Z.of_N m).
Proof.
  intros Hm.
  assert (m = 0 \/ m = 1 \/ m = 2 \/ m = 3 \/ m = 4 \/ m = 5 \/ m = 6
          \/ m = 7 \/ m = 8 \/ m = 9)%N as H by lia.
  repeat (destruct H as [->|H]; [reflexivity|]). now subst.
Qed.

(** Reading back the digits [pretty] writes in front of [s]. *)
Lemma digits_go_pretty_N_go (x : N) :
  (0 < x)%N ->
  exists p, forall s acc b,
    digits_go (pretty_N_go x s) acc b = digits_go s (p * acc + Z.of_N x) true.
Proof.
  induction (N.lt_wf_0 x) as [x _ IH]. intros Hx.
  assert (Hd : digit_of (pretty_N_char (x mod 10)) = Some (Z.of_N (x mod 10))).
  { apply digit_of_pretty_N_char, N.mod_lt. discriminate. }
  pose proof (N.div_mod x 10 ltac:(discriminate)) as Hdm.
  destruct (decide (x / 10 = 0)%N) as [Hz|Hnz].
  - exists 10. intros s acc b.
    rewrite pretty_N_go_step, Hz, pretty_N_go_0 by exact Hx.
    cbn [digits_go]. rewrite Hd. f_equal. lia.
  - destruct (IH (x / 10)%N) as [p Hp]; [apply N.div_lt; lia | now apply N.neq_0_lt_0 |].
    exists (10 * p). intros s acc b.
    rewrite pretty_N_go_step, Hp by exact Hx.
    cbn [digits_go]. rewrite Hd. f_equal. lia.
Qed.

Lemma digits_go_zero_pad (w : nat) (s : string) (v : Z) :
  (forall b, digits_go s 0 b = Some v) ->
  forall b, digits_go (zero_pad w s) 0 b = Some v.
Proof.
  intros Hs. induction w as [|w IH]; intros b; cbn [zero_pad].
  - destruct (String.length s <? 0)%nat; apply Hs.
  - destruct (String.length s <? S w)%nat; [|apply Hs].
    cbn [digits_go]. change (digit_of "0") with (Some 0). apply IH.
Qed.

(** [{i:04d}] can be read back. *)
Lemma digits_go_fmt_04d (i : Z) (b : bool) :
  0 <= i -> digits_go (fmt_04d i) 0 b = Some i.
Proof.
  intros Hi. unfold fmt_04d. revert b. apply digits_go_zero_pad. intros b.
  destruct i as [|p|p]; [reflexivity| |lia].
  unfold pretty, pretty_Z, pretty, pretty_positive, pretty, pretty_N.
  destruct (decide (N.pos p = 0)%N) as [H|_]; [discriminate H|].
  destruct (digits_go_pretty_N_go (N.pos p)) as [q Hq]; [lia|].
  rewrite Hq. cbn [digits_go]. f_equal. lia.
Qed.

Lemma length_append (s t : string) :
  String.length (s +:+ t) = (String.length s + String.length t)%nat.
Proof. induction s as [|a s IH]; simpl; [reflexivity | now f_equal]. Qed.

Lemma append_inv_tail (s1 s2 t : string) : s1 +:+ t = s2 +:+ t -> s1 = s2.
Proof.
  revert s2. induction s1 as [|a s1 IH]; intros [|b s2] H.
  - reflexivity.
  - apply (f_equal String.length) in H. rewrite !length_append in H.
    cbn in H. lia.
  - apply (f_equal String.length) in H. rewrite !length_append in H.
    cbn in H. lia.
  - change (String a (s1 +:+ t) = String b (s2 +:+ t)) in H.
    injection H as -> H. f_equal. now apply IH.
Qed.

Lemma output_filename_inj (i j : Z) :
  0 <= i -> 0 <= j ->
  Decoder.output_filename i = Decoder.output_filename j -> i = j.
Proof.
  intros Hi Hj H. unfold Decoder.output_filename in H.
  apply String.app_inj, append_inv_tail in H.
  pose proof (digits_go_fmt_04d i false Hi) as Ei.
  rewrite H, (digits_go_fmt_04d j false Hj) in Ei. congruence.
Qed.

Section DecodedNames.

Variable astcenc_dl : bytes -> result ndarray.

(** Whatever the loop does, it appends frames numbered from [i]. *)
Lemma decode_frames_names (disk : fs) (file_path : string) (width height : Z)
    (astc_format : string) (index_entries : list (Z * Z)) (i : Z)
    (saved : list (string * ndarray)) :
  exists frames,
    (Decoder.decode_frames astcenc_dl disk file_path width height astc_format
       i index_entries saved).1 = saved ++ frames
    /\ (length frames <= length index_entries)%nat
    /\ (is_ok (Decoder.decode_frames astcenc_dl disk file_path width height
                 astc_format i index_entries saved).2 = true ->
        length frames = length index_entries)
    /\ forall (k : nat) (name : string) (img_array : ndarray),
         frames !! k = Some (name, img_array) ->
         name = Decoder.output_filename (i + Z.of_nat k).
Proof.
  revert i saved.
  induction index_entries as [|[offset data_length] rest IH]; intros i saved.
  - exists []. cbn. rewrite app_nil_r. repeat split; [lia|].
    intros k name img Hk. discriminate Hk.
  - cbn [Decoder.decode_frames].
    destruct (let* compressed_data :=
                Decoder.read_compressed_image_data disk file_path offset
                  data_length in
              Decoder.decode_astc_data astcenc_dl compressed_data width height
                astc_format) as [img_array|e].
    + destruct (IH (i + 1) (saved ++ [(Decoder.output_filename i, img_array)]))
        as (frames & Hs & Hn & Hok & Hk).
      exists ((Decoder.output_filename i, img_array) :: frames).
      rewrite Hs, <- app_assoc. split; [reflexivity|].
      split; [cbn; lia|]. split; [intros H; cbn; now rewrite Hok|].
      intros [|k] name img Hlook; cbn in Hlook.
      * injection Hlook as <- _. f_equal. lia.
      * rewrite (Hk k name img Hlook). f_equal. lia.
    + exists []. cbn. rewrite app_nil_r. repeat split; [lia | discriminate|].
      intros k name img Hk. discriminate Hk.
Qed.

End DecodedNames.

(** X18. The names of the decoded frames.  Whatever [decode_ffab_file]
    does (also when it raises part-way), the [k]-th frame it saved has the
    name [output_filename k], no two saved frames share a name, and when
    it returns normally it saved as many frames as the meta block
    declares. *)
Theorem decoded_names_distinct (astcenc_dl : bytes -> result ndarray)
    (disk : fs) (file_path : string) :
  let outcome := Decoder.decode_ffab_file astcenc_dl disk file_path in
  (forall (k : nat) (name : string) (img_array : ndarray),
     outcome.1 !! k = Some (name, img_array) ->
     name = Decoder.output_filename (Z.of_nat k))
  /\ NoDup outcome.1.*1
  /\ (outcome.2 = Ok tt ->
      forall image_count width height astc_format_code,
        Decoder.read_ffab_meta disk file_path
        = Ok (image_count, width, height, astc_format_code) ->
        Z.of_nat (length outcome.1) = image_count).
Proof.
  unfold Decoder.decode_ffab_file.
  destruct (Decoder.open_ffab disk file_path)
    as [[[[[n w] h] fmt] entries]|e] eqn:Hopen; cbn zeta.
  2:{ cbn. split; [intros k name img Hk; discriminate Hk|].
      split; [constructor | discriminate]. }
  destruct (decode_frames_names astcenc_dl disk file_path w h fmt entries 0 [])
    as (frames & Hs & _ & Hok & Hk).
  cbn [app] in Hs. rewrite Hs.
  assert (Hnames : forall k name img,
            frames !! k = Some (name, img) ->
            name = Decoder.output_filename (Z.of_nat k)).
  { intros k name img Hlook. now rewrite (Hk k name img Hlook). }
  split; [exact Hnames|]. split.
  - apply NoDup_alt. intros i j name Hi Hj.
    rewrite list_lookup_fmap in Hi, Hj.
    destruct (frames !! i) as [[ni imi]|] eqn:Ei; [|discriminate Hi].
    destruct (frames !! j) as [[nj imj]|] eqn:Ej; [|discriminate Hj].
    cbn in Hi, Hj. injection Hi as <-. injection Hj as Hj.
    rewrite (Hnames _ _ _ Ei), (Hnames _ _ _ Ej) in Hj.
    apply output_filename_inj in Hj; lia.
  - intros Hdone n' w' h' c' Hmeta.
    rewrite Hok by now rewrite Hdone.
    destruct (open_ffab_Ok_inv _ _ _ _ _ _ _ Hopen)
      as (code & _ & Hm & _ & Hindex & _).
    rewrite Hm in Hmeta. injection Hmeta as <- _ _ _.
    pose proof (info_meta_cases disk file_path) as Hcases.
    destruct (Info.read_ffab_meta disk file_path) as [minfo|e'];
      [|destruct Hcases as [He _]; congruence].
    destruct Hcases as (Hm' & Hcount & _).
    rewrite Hm in Hm'. injection Hm' as Hn _ _ _.
    unfold Decoder.read_ffab_index_table, bind in Hindex.
    destruct (open_rb disk file_path) as [f|]; [|discriminate].
    destruct (seek f (4 + 8)) as [f'|]; [|discriminate].
    pose proof (read_index_entries_inv (Z.to_nat n) f' []) as Hinv.
    rewrite Hindex in Hinv. destruct Hinv as (new & -> & Hlen & _).
    cbn [app]. lia.
Qed.
